(** * Control-plane CRUD layer and template manager of solvin

    A shallow embedding of the data-access modules
    ([lib/model_provider_manager.js], [lib/model_manager.js],
    [lib/agent_manager.js], [lib/tasks.js]), of the template manager
    ([lib/template_manager.js]) and of the API route handlers built on
    them ([pages/api/agent-roles.js], [pages/api/models.js],
    [pages/api/model-providers.js], [pages/api/tasks.js],
    [pages/api/templates/import.js], [pages/api/templates/export.js]), of
    the tools route ([pages/api/tools.js]) and of the schema initialisers
    the managers run when they are loaded.

    Modelling conventions.
    - The SQLite file is a record of four tables, each a list of rows in
      rowid order, plus the AUTOINCREMENT counter of each table.  A
      statement either succeeds or throws and leaves the table as it was.
      Foreign keys are declared in the schema but never switched on, so
      they are not checked.
    - A JavaScript argument that may be missing is a [js A]: [undefined],
      [null] or a value.  Request bodies and YAML records are typed by the
      schema (text fields carry strings, ids carry integers); the one
      field the code inspects dynamically, [allowed_tools], is an arbitrary
      JSON value.
    - The [allowed_tools] TEXT column always holds the output of
      [JSON.stringify] on an array; it is represented by the array it
      encodes, so that [JSON.parse] on it gives that array back.
    - A YAML file is represented by the list of records it holds: dumping
      a list of plain mappings and loading it again gives the list back.
    - The template folders are a map from folder names to their four
      files, on a file system that takes the writes.  The map is the
      folder tree for plain names (see [plain_name]); the properties of
      files that are written are stated for those.
    - Rowids are handed out by AUTOINCREMENT: a new row gets the counter
      plus one.  An [INSERT ... ON CONFLICT DO UPDATE] that hits an
      existing row has drawn a rowid before it meets the conflict, so it
      advances the counter as well and leaves the row's own rowid alone.
    - A string is held as the bytes of its UTF-8 encoding.
    - Thrown exceptions are values of [Error]; code that can throw runs in
      a state-and-exception monad whose state (database, template files,
      console) survives a throw, as it does in the program. *)

From stdpp Require Import base option list strings gmap sorting pretty.
From Stdlib Require Import ZArith.

Open Scope Z_scope.

(** [Array.prototype.map], and a projection of rows: stdpp's [fmap]. *)
Abbreviation map := fmap (only parsing).

(** ** JavaScript values *)

Inductive js (A : Type) : Type :=
  | undefined
  | null
  | val (a : A).
Arguments undefined {A}.
Arguments null {A}.
Arguments val {A} a.

#[warnings="-register-all"]
Inductive json : Type :=
  | JNull
  | JBool (b : bool)
  | JNum (n : Z)
  | JStr (s : string)
  | JArr (l : list json)
  | JObj (fields : list (string * json)).

(** Truthiness, as used by [if (x)], [x || d], [x && y] and [!x]. *)
Class Truthy (A : Type) := truthy : A -> bool.

#[global] Instance truthy_string : Truthy string :=
  fun s => negb (bool_decide (s = "")).
#[global] Instance truthy_Z : Truthy Z :=
  fun n => negb (bool_decide (n = 0)).
#[global] Instance truthy_bool : Truthy bool := fun b => b.
#[global] Instance truthy_js {A} `{Truthy A} : Truthy (js A) :=
  fun x => match x with val a => truthy a | _ => false end.
#[global] Instance truthy_option {A} `{Truthy A} : Truthy (option A) :=
  fun x => match x with Some a => truthy a | None => false end.

(** [x || d] on a text argument. *)
Definition or_else (x : js string) (d : string) : string :=
  match x with
  | val s => if truthy s then s else d
  | _ => d
  end.

(** What the SQLite driver binds for a parameter: [undefined] and [null]
    both become SQL NULL. *)
Definition bind_param {A} (x : js A) : option A :=
  match x with val a => Some a | _ => None end.

(** A column value read back from a row. *)
Definition of_column {A} (c : option A) : js A :=
  match c with Some a => val a | None => null end.

(** Template literal interpolation [`${x}`] of a text value. *)
Definition interpolate (x : js string) : string :=
  match x with
  | undefined => "undefined"
  | null => "null"
  | val s => s
  end.

(** The double-quote character, for messages that quote a name. *)
Definition dq : string := String (Ascii.ascii_of_nat 34) EmptyString.

(** [String.prototype.trim] removes the white space and line terminator
    code points of ECMAScript from both ends.  They are listed here by
    their UTF-8 bytes: TAB, LF, VT, FF, CR, SP, U+00A0, U+1680, U+2000 to
    U+200A, U+2028, U+2029, U+202F, U+205F, U+3000 and U+FEFF. *)
Definition white_space_bytes : list (list nat) :=
  [[9]; [10]; [11]; [12]; [13]; [32];
   [194; 160];
   [225; 154; 128];
   [226; 128; 128]; [226; 128; 129]; [226; 128; 130]; [226; 128; 131];
   [226; 128; 132]; [226; 128; 133]; [226; 128; 134]; [226; 128; 135];
   [226; 128; 136]; [226; 128; 137]; [226; 128; 138];
   [226; 128; 168]; [226; 128; 169];
   [226; 128; 175];
   [226; 129; 159];
   [227; 128; 128];
   [239; 187; 191]]%nat.

Definition white_space : list string :=
  map (fun bytes => String.string_of_list_ascii
                      (map Ascii.ascii_of_nat bytes))
      white_space_bytes.

(** What is left of [s] after the one character of [ws] it starts with. *)
Definition skip_white (ws : list string) (s : string) : option string :=
  (fun w => String.substring (String.length w)
                             (String.length s - String.length w) s)
  <$> find (fun w => String.prefix w s) ws.

(** At most [n] characters are removed; [n] is the length of the string. *)
Fixpoint trim_start_with (ws : list string) (n : nat) (s : string) : string :=
  match n with
  | O => s
  | S n' =>
      match skip_white ws s with
      | Some s' => trim_start_with ws n' s'
      | None => s
      end
  end.

Definition trim_start (s : string) : string :=
  trim_start_with white_space (String.length s) s.

(** The end is trimmed on the reversed bytes. *)
Definition trim_end (s : string) : string :=
  String.rev (trim_start_with (map String.rev white_space)
                              (String.length s) (String.rev s)).

Definition trim (s : string) : string := trim_end (trim_start s).

(** ** Exceptions *)

Record Error : Type := mkError { message : string }.

Inductive Result (A : Type) : Type :=
  | Ok (a : A)
  | Throw (e : Error).
Arguments Ok {A} a.
Arguments Throw {A} e.

Definition sqlite_not_null (column : string) : Error :=
  mkError ("SQLITE_CONSTRAINT: NOT NULL constraint failed: " +:+ column).
Definition sqlite_unique (columns : string) : Error :=
  mkError ("SQLITE_CONSTRAINT: UNIQUE constraint failed: " +:+ columns).

(** ** The database *)

Record ProviderRow : Type := mkProvider {
  p_id            : Z;
  p_provider_name : string;          (* TEXT UNIQUE NOT NULL *)
  p_display_name  : string;          (* TEXT NOT NULL *)
  p_extra_info    : option string    (* TEXT DEFAULT '' *)
}.

Record ModelRow : Type := mkModel {
  m_id                 : Z;
  m_provider_id        : Z;          (* INTEGER NOT NULL *)
  m_model_name         : string;     (* TEXT NOT NULL *)
  m_display_name       : string;     (* TEXT NOT NULL DEFAULT '' *)
  m_extra_info         : option string;
  m_supports_reasoning : Z           (* INTEGER NOT NULL DEFAULT 1 *)
}.

Record AgentRow : Type := mkAgent {
  a_id                       : Z;
  a_agent_role               : string;             (* TEXT UNIQUE NOT NULL *)
  a_agent_description        : option string;
  a_allowed_tools            : option (list json); (* TEXT, a JSON array *)
  a_default_developer_prompt : option string;
  a_default_user_prompt      : option string;
  a_model_id                 : option Z;
  a_reasoning_level          : option string;
  a_tool_choice              : option string
}.

Record TaskRow : Type := mkTask {
  t_id          : Z;
  t_task_name   : string;            (* TEXT UNIQUE NOT NULL *)
  t_task_prompt : option string
}.

Record DB : Type := mkDB {
  model_providers     : list ProviderRow;
  model_providers_seq : Z;
  models              : list ModelRow;
  models_seq          : Z;
  agent_roles         : list AgentRow;
  agent_roles_seq     : Z;
  tasks               : list TaskRow;
  tasks_seq           : Z
}.

Definition empty_db : DB := mkDB [] 0 [] 0 [] 0 [] 0.

Definition set_providers (rows : list ProviderRow) (seq : Z) (db : DB) : DB :=
  mkDB rows seq (models db) (models_seq db)
       (agent_roles db) (agent_roles_seq db) (tasks db) (tasks_seq db).
Definition set_models (rows : list ModelRow) (seq : Z) (db : DB) : DB :=
  mkDB (model_providers db) (model_providers_seq db) rows seq
       (agent_roles db) (agent_roles_seq db) (tasks db) (tasks_seq db).
Definition set_agents (rows : list AgentRow) (seq : Z) (db : DB) : DB :=
  mkDB (model_providers db) (model_providers_seq db)
       (models db) (models_seq db) rows seq (tasks db) (tasks_seq db).
Definition set_tasks (rows : list TaskRow) (seq : Z) (db : DB) : DB :=
  mkDB (model_providers db) (model_providers_seq db)
       (models db) (models_seq db)
       (agent_roles db) (agent_roles_seq db) rows seq.

(** [ORDER BY]: a sort by the boolean comparison of the sort keys.
    Text compares bytewise (the BINARY collation); NULL sorts first. *)
Definition order_by {A} (le : A -> A -> bool) (rows : list A) : list A :=
  merge_sort (fun x y => Is_true (le x y)) rows.

Definition null_first_leb (x y : option string) : bool :=
  match x, y with
  | None, _ => true
  | Some _, None => false
  | Some a, Some b => String.leb a b
  end.

(** Comparison on a pair of sort keys: the first key decides unless it
    ties. *)
Definition lex_leb {A B} `{EqDecision A}
    (leA : A -> A -> bool) (leB : B -> B -> bool) (x y : A * B) : bool :=
  if bool_decide (x.1 = y.1) then leB x.2 y.2 else leA x.1 y.1.

(** A default parameter value [x = d] applies to [undefined] only. *)
Definition default_param {A} (x d : js A) : js A :=
  match x with undefined => d | _ => x end.

(** ** lib/model_provider_manager.js *)

Definition listProviders (db : DB) : list ProviderRow :=
  order_by (fun r1 r2 =>
              lex_leb String.leb String.leb
                (p_display_name r1, p_provider_name r1)
                (p_display_name r2, p_provider_name r2))
           (model_providers db).

(** [UPDATE model_providers SET provider_name = ?, display_name = ?,
    extra_info = ? WHERE id = ?] *)
Definition update_provider_by_id (name display extra : option string)
    (id : option Z) (db : DB) : Result DB :=
  let hit r := bool_decide (Some (p_id r) = id) in
  if existsb hit (model_providers db) then
    match name, display with
    | None, _ => Throw (sqlite_not_null "model_providers.provider_name")
    | _, None => Throw (sqlite_not_null "model_providers.display_name")
    | Some n, Some d =>
        if existsb (fun r => negb (hit r) && bool_decide (p_provider_name r = n))
                   (model_providers db)
        then Throw (sqlite_unique "model_providers.provider_name")
        else Ok (set_providers
                   (map (fun r => if hit r then mkProvider (p_id r) n d extra
                                  else r)
                        (model_providers db))
                   (model_providers_seq db) db)
    end
  else Ok db.

(** [INSERT INTO model_providers (provider_name, display_name, extra_info)
    VALUES (?, ?, ?) ON CONFLICT(provider_name) DO UPDATE SET
    display_name = excluded.display_name, extra_info = excluded.extra_info].
    The rowid is drawn before the conflict is met: a hit advances the
    counter too. *)
Definition upsert_provider (name display extra : option string) (db : DB)
    : Result DB :=
  match name, display with
  | None, _ => Throw (sqlite_not_null "model_providers.provider_name")
  | _, None => Throw (sqlite_not_null "model_providers.display_name")
  | Some n, Some d =>
      let same r := bool_decide (p_provider_name r = n) in
      if existsb same (model_providers db) then
        Ok (set_providers
              (map (fun r => if same r then mkProvider (p_id r) n d extra
                             else r)
                   (model_providers db))
              (model_providers_seq db + 1) db)
      else
        let id := model_providers_seq db + 1 in
        Ok (set_providers (model_providers db ++ [mkProvider id n d extra])
                          id db)
  end.

Definition safeDisplayName (display_name provider_name : js string)
    : js string :=
  match display_name with
  | val d =>
      if truthy d && negb (bool_decide (trim d = "")) then display_name
      else provider_name
  | _ => provider_name
  end.

Definition createOrUpdateProvider (id : js Z)
    (provider_name display_name extra_info : js string) (db : DB)
    : Result DB :=
  let safe := safeDisplayName display_name provider_name in
  if truthy id then
    update_provider_by_id (bind_param provider_name) (bind_param safe)
                          (Some (or_else extra_info "")) (bind_param id) db
  else
    upsert_provider (bind_param provider_name) (bind_param safe)
                    (Some (or_else extra_info "")) db.

Definition getProviderById (id : Z) (db : DB) : option ProviderRow :=
  find (fun r => bool_decide (p_id r = id)) (model_providers db).

Definition deleteProvider (id : Z) (db : DB) : DB :=
  set_providers
    (filter (fun r => p_id r <> id) (model_providers db))
    (model_providers_seq db) db.

(** ** lib/model_manager.js *)

(** A row of [models LEFT JOIN model_providers ON models.provider_id =
    model_providers.id]; the join is on a primary key, so a model row
    meets at most one provider row. *)
Record ModelInfo : Type := mkModelInfo {
  mi_row                   : ModelRow;
  mi_provider_name         : option string;
  mi_provider_display_name : option string
}.

Definition join_provider (db : DB) (m : ModelRow) : ModelInfo :=
  let p := getProviderById (m_provider_id m) db in
  mkModelInfo m (p_provider_name <$> p) (p_display_name <$> p).

Definition listModelsWithProviderInfo (db : DB) : list ModelInfo :=
  order_by (fun i1 i2 =>
              lex_leb null_first_leb String.leb
                (mi_provider_display_name i1, m_model_name (mi_row i1))
                (mi_provider_display_name i2, m_model_name (mi_row i2)))
           (map (join_provider db) (models db)).

Definition listModels (db : DB) : list ModelRow :=
  order_by (fun r1 r2 => Z.leb (m_id r1) (m_id r2)) (models db).

(** [UPDATE models SET provider_id = ?, model_name = ?, display_name = ?,
    extra_info = ?, supports_reasoning = ? WHERE id = ?] *)
Definition update_model_by_id (provider_id : option Z)
    (model_name display_name extra_info : option string) (sr : Z)
    (id : option Z) (db : DB) : Result DB :=
  let hit r := bool_decide (Some (m_id r) = id) in
  if existsb hit (models db) then
    match provider_id, model_name, display_name with
    | None, _, _ => Throw (sqlite_not_null "models.provider_id")
    | _, None, _ => Throw (sqlite_not_null "models.model_name")
    | _, _, None => Throw (sqlite_not_null "models.display_name")
    | Some pid, Some n, Some d =>
        if existsb (fun r => negb (hit r)
                             && bool_decide (m_provider_id r = pid)
                             && bool_decide (m_model_name r = n))
                   (models db)
        then Throw (sqlite_unique "models.provider_id, models.model_name")
        else Ok (set_models
                   (map (fun r => if hit r
                                  then mkModel (m_id r) pid n d extra_info sr
                                  else r)
                        (models db))
                   (models_seq db) db)
    end
  else Ok db.

(** [INSERT INTO models (provider_id, model_name, display_name, extra_info,
    supports_reasoning) VALUES (?, ?, ?, ?, ?)
    ON CONFLICT(provider_id, model_name) DO UPDATE SET
    display_name = excluded.display_name, extra_info = excluded.extra_info,
    supports_reasoning = excluded.supports_reasoning].  A hit advances the
    counter, as for the providers. *)
Definition upsert_model (provider_id : option Z)
    (model_name display_name extra_info : option string) (sr : Z) (db : DB)
    : Result DB :=
  match provider_id, model_name, display_name with
  | None, _, _ => Throw (sqlite_not_null "models.provider_id")
  | _, None, _ => Throw (sqlite_not_null "models.model_name")
  | _, _, None => Throw (sqlite_not_null "models.display_name")
  | Some pid, Some n, Some d =>
      let same r := bool_decide (m_provider_id r = pid)
                    && bool_decide (m_model_name r = n) in
      if existsb same (models db) then
        Ok (set_models
              (map (fun r => if same r
                             then mkModel (m_id r) pid n d extra_info sr
                             else r)
                   (models db))
              (models_seq db + 1) db)
      else
        let id := models_seq db + 1 in
        Ok (set_models (models db ++ [mkModel id pid n d extra_info sr]) id db)
  end.

Definition createOrUpdateModel (id provider_id : js Z)
    (model_name display_name extra_info : js string)
    (supports_reasoning : js bool) (db : DB) : Result DB :=
  let display_name := default_param display_name model_name in
  let extra_info := default_param extra_info (val "") in
  let supports_reasoning := default_param supports_reasoning (val true) in
  let sr := if truthy supports_reasoning then 1 else 0 in
  if truthy id then
    update_model_by_id (bind_param provider_id) (bind_param model_name)
      (bind_param display_name) (bind_param extra_info) sr (bind_param id) db
  else
    upsert_model (bind_param provider_id) (bind_param model_name)
      (bind_param display_name) (bind_param extra_info) sr db.

Definition getModelById (id : Z) (db : DB) : option ModelInfo :=
  join_provider db <$> find (fun r => bool_decide (m_id r = id)) (models db).

Definition getModelByProviderAndName (provider_id : Z) (model_name : string)
    (db : DB) : option ModelRow :=
  find (fun r => bool_decide (m_provider_id r = provider_id)
                 && bool_decide (m_model_name r = model_name))
       (models db).

Definition deleteModel (id : Z) (db : DB) : DB :=
  set_models (filter (fun r => m_id r <> id) (models db)) (models_seq db) db.

(** ** lib/agent_manager.js *)

Definition DEFAULT_TOOL : string := "set_work_completed".

(** [arr.includes("set_work_completed")]: only a string element can be
    equal to a string. *)
Definition includes (arr : list json) (s : string) : bool :=
  existsb (fun v => match v with
                    | JStr s' => bool_decide (s' = s)
                    | _ => false
                    end) arr.

(** A missing [tools] is [None]; anything that is not an array counts as
    the empty array. *)
Definition ensureDefaultTool (tools : option json) : list json :=
  let arr := match tools with Some (JArr l) => l | _ => [] end in
  if includes arr DEFAULT_TOOL then arr else arr ++ [JStr DEFAULT_TOOL].

Record AgentDetails : Type := mkAgentDetails {
  ad_agent_role               : js string;
  ad_agent_description        : js string;
  ad_allowed_tools            : option json;
  ad_default_developer_prompt : js string;
  ad_default_user_prompt      : js string;
  ad_model_id                 : js Z;
  ad_reasoning_level          : js string;
  ad_tool_choice              : js string
}.

Definition getAgentByType (agent_role : string) (db : DB)
    : option AgentRow :=
  find (fun r => bool_decide (a_agent_role r = agent_role)) (agent_roles db).

Definition getAllowedTools (agent_role : string) (db : DB) : list json :=
  match getAgentByType agent_role db with
  | Some r => match a_allowed_tools r with Some l => l | None => [] end
  | None => []
  end.

(** [UPDATE agent_roles SET ... WHERE agent_role = ?] with a row
    transformer for the assigned columns. *)
Definition update_agent_by_role (agent_role : string)
    (f : AgentRow -> AgentRow) (db : DB) : DB :=
  set_agents
    (map (fun r => if bool_decide (a_agent_role r = agent_role) then f r
                   else r)
         (agent_roles db))
    (agent_roles_seq db) db.

Definition setAllowedTools (agent_role : string) (tools : option json)
    (db : DB) : DB :=
  let finalTools := ensureDefaultTool tools in
  update_agent_by_role agent_role
    (fun r => mkAgent (a_id r) (a_agent_role r) (a_agent_description r)
                      (Some finalTools)
                      (a_default_developer_prompt r) (a_default_user_prompt r)
                      (a_model_id r) (a_reasoning_level r) (a_tool_choice r))
    db.

Definition setDefaultPrompts (agent_role : string)
    (developerPrompt userPrompt : js string) (db : DB) : DB :=
  update_agent_by_role agent_role
    (fun r => mkAgent (a_id r) (a_agent_role r) (a_agent_description r)
                      (a_allowed_tools r)
                      (Some (or_else developerPrompt ""))
                      (Some (or_else userPrompt ""))
                      (a_model_id r) (a_reasoning_level r) (a_tool_choice r))
    db.

(** [INSERT INTO agent_roles (agent_role, ..., tool_choice)
    VALUES (?, ?, ?, ?, ?, ?, ?, ?)] *)
Definition insert_agent (agent_role : string) (description : string)
    (tools : list json) (developer user : string) (model_id : option Z)
    (reasoning_level tool_choice : string) (db : DB) : Result DB :=
  if existsb (fun r => bool_decide (a_agent_role r = agent_role))
             (agent_roles db)
  then Throw (sqlite_unique "agent_roles.agent_role")
  else
    let id := agent_roles_seq db + 1 in
    Ok (set_agents
          (agent_roles db ++
             [mkAgent id agent_role (Some description) (Some tools)
                      (Some developer) (Some user) model_id
                      (Some reasoning_level) (Some tool_choice)])
          id db).

Definition setAgentDetails (d : AgentDetails) (db : DB) : Result DB :=
  match ad_agent_role d with
  | val agent_role =>
      if negb (truthy agent_role) then Throw (mkError "agent_role is required")
      else
        let existing := getAgentByType agent_role db in
        let finalTools := ensureDefaultTool (ad_allowed_tools d) in
        let description := or_else (ad_agent_description d) "" in
        let developer := or_else (ad_default_developer_prompt d) "" in
        let user := or_else (ad_default_user_prompt d) "" in
        let model_id := bind_param (ad_model_id d) in
        let reasoning_level := or_else (ad_reasoning_level d) "medium" in
        let tool_choice := or_else (ad_tool_choice d) "auto" in
        if truthy (a_id <$> existing) then
          Ok (update_agent_by_role agent_role
                (fun r => mkAgent (a_id r) (a_agent_role r)
                                  (Some description) (Some finalTools)
                                  (Some developer) (Some user) model_id
                                  (Some reasoning_level) (Some tool_choice))
                db)
        else
          insert_agent agent_role description finalTools developer user
                       model_id reasoning_level tool_choice db
  | _ => Throw (mkError "agent_role is required")
  end.

Definition getDefaultPrompts (agent_role : string) (db : DB)
    : string * string :=
  match getAgentByType agent_role db with
  | Some r => (or_else (of_column (a_default_developer_prompt r)) "",
               or_else (of_column (a_default_user_prompt r)) "")
  | None => ("", "")
  end.

(** A row of [agent_roles LEFT JOIN models ... LEFT JOIN model_providers]. *)
Record AgentInfo : Type := mkAgentInfo {
  ai_row                   : AgentRow;
  ai_model_name            : option string;
  ai_model_display_name    : option string;
  ai_provider_display_name : option string;
  ai_provider_name         : option string
}.

(** The model row an agent row joins with: [agent_roles.model_id =
    models.id], on a primary key. *)
Definition linked_model (db : DB) (a : AgentRow) : option ModelRow :=
  a_model_id a ≫= fun id =>
    find (fun r => bool_decide (m_id r = id)) (models db).

Definition join_model (db : DB) (a : AgentRow) : AgentInfo :=
  let m := linked_model db a in
  let p := m ≫= fun r => getProviderById (m_provider_id r) db in
  mkAgentInfo a (m_model_name <$> m) (m_display_name <$> m)
              (p_display_name <$> p) (p_provider_name <$> p).

Definition listAgentTypes (db : DB) : list AgentRow :=
  order_by (fun r1 r2 => Z.leb (a_id r1) (a_id r2)) (agent_roles db).

Definition listAgentTypesWithModelInfo (db : DB) : list AgentInfo :=
  map (join_model db) (listAgentTypes db).

Definition deleteAgentType (agent_role : string) (db : DB) : DB :=
  set_agents
    (filter (fun r => a_agent_role r <> agent_role) (agent_roles db))
    (agent_roles_seq db) db.

(** ** lib/tasks.js *)

Definition getTask (task_name : string) (db : DB) : option TaskRow :=
  find (fun r => bool_decide (t_task_name r = task_name)) (tasks db).

Definition getAllTasks (db : DB) : list TaskRow :=
  order_by (fun r1 r2 => Z.leb (t_id r1) (t_id r2)) (tasks db).

(** [INSERT INTO tasks (task_name, task_prompt) VALUES (?, ?)]: a plain
    insert, with no ON CONFLICT clause. *)
Definition createTask (task_name task_prompt : js string) (db : DB)
    : Result DB :=
  let task_prompt := default_param task_prompt (val "") in
  match bind_param task_name with
  | None => Throw (sqlite_not_null "tasks.task_name")
  | Some n =>
      if existsb (fun r => bool_decide (t_task_name r = n)) (tasks db)
      then Throw (sqlite_unique "tasks.task_name")
      else
        let id := tasks_seq db + 1 in
        Ok (set_tasks (tasks db ++ [mkTask id n (bind_param task_prompt)])
                      id db)
  end.

(** [UPDATE tasks SET task_name = ?, task_prompt = ? WHERE id = ?];
    the result carries the number of rows changed. *)
Definition updateTask (id : Z) (task_name task_prompt : js string)
    (db : DB) : Result (Z * DB) :=
  let task_prompt := default_param task_prompt (val "") in
  let hit r := bool_decide (t_id r = id) in
  if existsb hit (tasks db) then
    match bind_param task_name with
    | None => Throw (sqlite_not_null "tasks.task_name")
    | Some n =>
        if existsb (fun r => negb (hit r) && bool_decide (t_task_name r = n))
                   (tasks db)
        then Throw (sqlite_unique "tasks.task_name")
        else Ok (Z.of_nat (length (filter (fun r => t_id r = id) (tasks db))),
                 set_tasks
                   (map (fun r => if hit r
                                  then mkTask (t_id r) n (bind_param task_prompt)
                                  else r)
                        (tasks db))
                   (tasks_seq db) db)
    end
  else Ok (0, db).

Definition deleteTask (id : Z) (db : DB) : Z * DB :=
  (Z.of_nat (length (filter (fun r => t_id r = id) (tasks db))),
   set_tasks (filter (fun r => t_id r <> id) (tasks db)) (tasks_seq db) db).

(** ** lib/yaml_store.js and the process state *)

Record ProviderYaml : Type := mkProviderYaml {
  py_provider_name : js string;
  py_display_name  : js string;
  py_extra_info    : js string
}.

Record ModelYaml : Type := mkModelYaml {
  my_provider_name      : js string;
  my_model_name         : js string;
  my_display_name       : js string;
  my_extra_info         : js string;
  my_supports_reasoning : js bool
}.

Record AgentYaml : Type := mkAgentYaml {
  ay_agent_role               : js string;
  ay_agent_description        : js string;
  ay_allowed_tools            : option json;
  ay_default_developer_prompt : js string;
  ay_default_user_prompt      : js string;
  ay_reasoning_level          : js string;
  ay_tool_choice              : js string;
  ay_provider_name            : js string;
  ay_model_name               : js string
}.

Record TaskYaml : Type := mkTaskYaml {
  ty_task_name   : js string;
  ty_task_prompt : js string
}.

(** The folder [templates/<name>/] with its four files.  A file that does
    not exist loads as the empty list, so it is represented by []. *)
Record Template : Type := mkTemplate {
  providers_yaml : list ProviderYaml;
  models_yaml    : list ModelYaml;
  agents_yaml    : list AgentYaml;
  tasks_yaml     : list TaskYaml
}.

Definition empty_template : Template := mkTemplate [] [] [] [].

Inductive LogLine : Type :=
  | console_log (s : string)
  | console_warn (s : string)
  | console_error (s : string).

Record World : Type := mkWorld {
  db        : DB;
  templates : gmap string Template;
  console   : list LogLine
}.

(** Code that reads and writes the world and may throw.  The world as it
    was at the throw is kept. *)
Definition M (A : Type) : Type := World -> Result A * World.

Definition ret {A} (a : A) : M A := fun w => (Ok a, w).
Definition throw {A} (e : Error) : M A := fun w => (Throw e, w).
Definition bind {A B} (m : M A) (k : A -> M B) : M B :=
  fun w => match m w with
           | (Ok a, w') => k a w'
           | (Throw e, w') => (Throw e, w')
           end.

Notation "x <- m ;; k" := (bind m (fun x => k))
  (at level 100, m at next level, right associativity).
Notation "m ;;; k" := (bind m (fun _ => k))
  (at level 100, right associativity).

(** [try { body } catch (e) { handler(e) }] *)
Definition try_catch {A} (body : M A) (handler : Error -> M A) : M A :=
  fun w => match body w with
           | (Ok a, w') => (Ok a, w')
           | (Throw e, w') => handler e w'
           end.

(** [for (const x of xs) { body(x) }] *)
Fixpoint for_of {A} (xs : list A) (body : A -> M unit) : M unit :=
  match xs with
  | [] => ret tt
  | x :: xs' => body x ;;; for_of xs' body
  end.

Definition select {A} (f : DB -> A) : M A := fun w => (Ok (f (db w)), w).
Definition exec (f : DB -> DB) : M unit :=
  fun w => (Ok tt, mkWorld (f (db w)) (templates w) (console w)).
Definition exec_result (f : DB -> Result DB) : M unit :=
  fun w => match f (db w) with
           | Ok db' => (Ok tt, mkWorld db' (templates w) (console w))
           | Throw e => (Throw e, w)
           end.
(** A statement whose result reports the number of rows changed. *)
Definition exec_changes (f : DB -> Result (Z * DB)) : M Z :=
  fun w => match f (db w) with
           | Ok (n, db') => (Ok n, mkWorld db' (templates w) (console w))
           | Throw e => (Throw e, w)
           end.
Definition print (l : LogLine) : M unit :=
  fun w => (Ok tt, mkWorld (db w) (templates w) (console w ++ [l])).

Record YamlFile (A : Type) : Type := mkYamlFile {
  file_name     : string;
  file_content  : Template -> list A;
  file_replace  : list A -> Template -> Template
}.
Arguments file_name {A}.
Arguments file_content {A}.
Arguments file_replace {A}.

Definition providers_file : YamlFile ProviderYaml :=
  mkYamlFile _ "providers.yaml" providers_yaml
    (fun l t => mkTemplate l (models_yaml t) (agents_yaml t) (tasks_yaml t)).
Definition models_file : YamlFile ModelYaml :=
  mkYamlFile _ "models.yaml" models_yaml
    (fun l t => mkTemplate (providers_yaml t) l (agents_yaml t) (tasks_yaml t)).
Definition agents_file : YamlFile AgentYaml :=
  mkYamlFile _ "agents.yaml" agents_yaml
    (fun l t => mkTemplate (providers_yaml t) (models_yaml t) l (tasks_yaml t)).
Definition tasks_file : YamlFile TaskYaml :=
  mkYamlFile _ "tasks.yaml" tasks_yaml
    (fun l t => mkTemplate (providers_yaml t) (models_yaml t) (agents_yaml t) l).

(** The template folders.  [templates] has one entry for each folder
    below templates/, under the folder's name.  The code reaches a folder
    through [path.join('templates', templateName, file)] and creates it
    with [mkdirSync]; for a plain name the path is templates/<name>/<file>
    as written, the folder is the one of that name, and the file system
    takes it.  A name with a separator, a dot, a NUL byte, an upper-case
    letter or more than 255 bytes may resolve to the folder of another
    name or be refused by the file system, so what is proved below of
    files that are written is proved for plain names. *)
Definition plain_char (c : Ascii.ascii) : bool :=
  let n := Ascii.nat_of_ascii c in
  bool_decide (97 <= n <= 122)%nat || bool_decide (48 <= n <= 57)%nat
  || bool_decide (n = 95)%nat || bool_decide (n = 45)%nat.

(** One path segment of 1 to 255 of the characters a-z, 0-9, _ and -. *)
Definition plain_name (name : string) : bool :=
  negb (bool_decide (name = ""))
  && bool_decide (String.length name <= 255)%nat
  && forallb plain_char (String.list_ascii_of_string name).

Definition template_folder (w : World) (templateName : string) : Template :=
  default empty_template (templates w !! templateName).

(** [loadYAML(templatePath(templateName, file))]: the records of the
    file, [[]] when [existsSync] does not find it. *)
Definition loadYAML {A} (templateName : string) (f : YamlFile A)
    : M (list A) :=
  fun w => (Ok (file_content f (template_folder w templateName)), w).

(** [saveYAML(templatePath(templateName, file), data)]: creates the
    folder when it is missing and replaces the file. *)
Definition saveYAML {A} (templateName : string) (f : YamlFile A)
    (data : list A) : M unit :=
  fun w =>
    (Ok tt,
     mkWorld (db w)
       (<[templateName := file_replace f data (template_folder w templateName)]>
          (templates w))
       (console w)).

(** [new Map(entries)]: a later entry replaces an earlier one with the
    same key. *)
Definition new_Map {V} (entries : list (string * V)) : gmap string V :=
  foldl (fun m kv => <[kv.1 := kv.2]> m) ∅ entries.

(** [map.get(k)] for a key that may be missing. *)
Definition Map_get {V} (m : gmap string V) (k : js string) : js V :=
  match k with
  | val s => match m !! s with Some v => val v | None => undefined end
  | _ => undefined
  end.

(** [x == null] *)
Definition is_nullish {A} (x : js A) : bool :=
  match x with val _ => false | _ => true end.

(** ** lib/template_manager.js *)

Definition TEMPLATES_DIR : string := "templates".

Definition export_provider (p : ProviderRow) : ProviderYaml :=
  mkProviderYaml (val (p_provider_name p)) (val (p_display_name p))
                 (of_column (p_extra_info p)).

Definition export_model (m : ModelInfo) : ModelYaml :=
  mkModelYaml (of_column (mi_provider_name m))
              (val (m_model_name (mi_row m)))
              (val (m_display_name (mi_row m)))
              (of_column (m_extra_info (mi_row m)))
              (val (truthy (m_supports_reasoning (mi_row m)))).

(** [a.allowed_tools ? JSON.parse(a.allowed_tools) : []]: the column is
    NULL or non-empty JSON text. *)
Definition export_agent (a : AgentInfo) : AgentYaml :=
  mkAgentYaml (val (a_agent_role (ai_row a)))
              (of_column (a_agent_description (ai_row a)))
              (Some (JArr (default [] (a_allowed_tools (ai_row a)))))
              (of_column (a_default_developer_prompt (ai_row a)))
              (of_column (a_default_user_prompt (ai_row a)))
              (of_column (a_reasoning_level (ai_row a)))
              (of_column (a_tool_choice (ai_row a)))
              (of_column (ai_provider_name a))
              (of_column (ai_model_name a)).

Definition export_task (t : TaskRow) : TaskYaml :=
  mkTaskYaml (val (t_task_name t)) (of_column (t_task_prompt t)).

Definition count_of {A} (l : list A) : string := pretty (length l).

Definition exportTemplate (templateName : string) : M unit :=
  (* Providers *)
  rawProviders <- select listProviders ;;
  let providers := map export_provider rawProviders in
  saveYAML templateName providers_file providers ;;;
  print (console_log ("[export] Wrote " +:+ count_of providers
                        +:+ " providers")) ;;;
  (* Models *)
  rawModels <- select listModelsWithProviderInfo ;;
  let models := map export_model rawModels in
  saveYAML templateName models_file models ;;;
  print (console_log ("[export] Wrote " +:+ count_of models +:+ " models")) ;;;
  (* Agents *)
  rawAgents <- select listAgentTypesWithModelInfo ;;
  let agents := map export_agent rawAgents in
  saveYAML templateName agents_file agents ;;;
  print (console_log ("[export] Wrote " +:+ count_of agents +:+ " agents")) ;;;
  (* Tasks *)
  rawTasks <- select getAllTasks ;;
  let tasks := map export_task rawTasks in
  saveYAML templateName tasks_file tasks ;;;
  print (console_log ("[export] Wrote " +:+ count_of tasks +:+ " tasks")) ;;;
  print (console_log ("✅ Exported template " +:+ dq +:+ templateName +:+ dq
                        +:+ " to folder: " +:+ TEMPLATES_DIR +:+ "/"
                        +:+ templateName +:+ "/")).

(** [if (count) console.log(`[import] Wiped ${count} <what>`)] *)
Definition log_wiped {A} (rows : list A) (what : string) : M unit :=
  if bool_decide (length rows = 0%nat) then ret tt
  else print (console_log ("[import] Wiped " +:+ count_of rows +:+ " "
                             +:+ what)).

Definition wipe_all : M unit :=
  provs <- select listProviders ;;
  for_of provs (fun p => exec (deleteProvider (p_id p))) ;;;
  log_wiped provs "providers" ;;;
  mods <- select listModelsWithProviderInfo ;;
  for_of mods (fun m => exec (deleteModel (m_id (mi_row m)))) ;;;
  log_wiped mods "models" ;;;
  ags <- select listAgentTypes ;;
  for_of ags (fun a => exec (deleteAgentType (a_agent_role a))) ;;;
  log_wiped ags "agents" ;;;
  ts <- select getAllTasks ;;
  for_of ts (fun t => exec (fun d => (deleteTask (t_id t) d).2)) ;;;
  log_wiped ts "tasks".

Definition import_provider (y : ProviderYaml) : M unit :=
  exec_result (createOrUpdateProvider undefined (py_provider_name y)
                 (py_display_name y) (py_extra_info y)) ;;;
  print (console_log ("[import][provider] Upserted " +:+ dq
                        +:+ interpolate (py_provider_name y) +:+ dq)).

Definition provider_not_found (provider_name : js string) : Error :=
  mkError ("[import][model] Provider not found for " +:+ dq
             +:+ interpolate provider_name +:+ dq).

Definition import_model (provMap : gmap string Z) (y : ModelYaml) : M unit :=
  let provider_id := Map_get provMap (my_provider_name y) in
  (if is_nullish provider_id
   then throw (provider_not_found (my_provider_name y))
   else ret tt) ;;;
  exec_result (createOrUpdateModel undefined provider_id (my_model_name y)
                 (my_display_name y) (my_extra_info y)
                 (my_supports_reasoning y)) ;;;
  print (console_log ("[import][model] Upserted " +:+ dq
                        +:+ interpolate (my_provider_name y) +:+ "/"
                        +:+ interpolate (my_model_name y) +:+ dq)).

Definition model_key (provider_name model_name : js string) : string :=
  interpolate provider_name +:+ ":" +:+ interpolate model_name.

(** The object [{ ...a, model_id }] handed to [setAgentDetails]. *)
Definition agent_details (a : AgentYaml) (model_id : js Z) : AgentDetails :=
  mkAgentDetails (ay_agent_role a) (ay_agent_description a)
                 (ay_allowed_tools a) (ay_default_developer_prompt a)
                 (ay_default_user_prompt a) model_id
                 (ay_reasoning_level a) (ay_tool_choice a).

Definition model_not_found_warning (key : string) : LogLine :=
  console_warn ("[import][agent] ⚠️ Model not found for key=" +:+ dq +:+ key
                  +:+ dq +:+ ", leaving model_id=null").

Definition import_agent (modelMap : gmap string Z) (a : AgentYaml) : M unit :=
  model_id <-
    (if truthy (ay_provider_name a) && truthy (ay_model_name a) then
       let key := model_key (ay_provider_name a) (ay_model_name a) in
       let model_id := Map_get modelMap (val key) in
       (if is_nullish model_id
        then print (model_not_found_warning key)
        else print (console_log ("[import][agent] Linking agent " +:+ dq
                                   +:+ interpolate (ay_agent_role a) +:+ dq
                                   +:+ " → model " +:+ dq +:+ key +:+ dq))) ;;;
       ret model_id
     else
       print (console_log ("[import][agent] No model specified for agent "
                             +:+ dq +:+ interpolate (ay_agent_role a) +:+ dq
                             +:+ ", leaving model_id=null")) ;;;
       ret null) ;;
  exec_result (setAgentDetails (agent_details a model_id)) ;;;
  print (console_log ("[import][agent] Upserted agent_role=" +:+ dq
                        +:+ interpolate (ay_agent_role a) +:+ dq)).

Definition import_task (y : TaskYaml) : M unit :=
  exec_result (createTask (ty_task_name y) (ty_task_prompt y)) ;;;
  print (console_log ("[import][task] Upserted " +:+ dq
                        +:+ interpolate (ty_task_name y) +:+ dq)).

Definition import_providers (templateName : string)
    : M (gmap string Z) :=
  providersYaml <- loadYAML templateName providers_file ;;
  for_of providersYaml import_provider ;;;
  provs <- select listProviders ;;
  let provMap := new_Map (map (fun p => (p_provider_name p, p_id p)) provs) in
  print (console_log ("[import] Inserted/updated " +:+ count_of providersYaml
                        +:+ " providers")) ;;;
  ret provMap.

Definition import_models (templateName : string) (provMap : gmap string Z)
    : M (gmap string Z) :=
  modelsYaml <- loadYAML templateName models_file ;;
  for_of modelsYaml (import_model provMap) ;;;
  mods <- select listModelsWithProviderInfo ;;
  let modelMap :=
    new_Map (map (fun m => (model_key (of_column (mi_provider_name m))
                                      (val (m_model_name (mi_row m))),
                            m_id (mi_row m))) mods) in
  print (console_log ("[import] Inserted/updated " +:+ count_of modelsYaml
                        +:+ " models")) ;;;
  ret modelMap.

Definition import_agents (templateName : string) (modelMap : gmap string Z)
    : M unit :=
  agentsYaml <- loadYAML templateName agents_file ;;
  for_of agentsYaml (import_agent modelMap) ;;;
  print (console_log ("[import] Inserted/updated " +:+ count_of agentsYaml
                        +:+ " agents")).

Definition import_tasks (templateName : string) : M unit :=
  tasksYaml <- loadYAML templateName tasks_file ;;
  for_of tasksYaml import_task ;;;
  print (console_log ("[import] Inserted/updated " +:+ count_of tasksYaml
                        +:+ " tasks")).

Definition importTemplate (templateName : string) (wipe : bool) : M unit :=
  (if wipe then wipe_all else ret tt) ;;;
  provMap <- import_providers templateName ;;
  modelMap <- import_models templateName provMap ;;
  import_agents templateName modelMap ;;;
  import_tasks templateName ;;;
  print (console_log ("✅ Imported template " +:+ dq +:+ templateName +:+ dq
                        +:+ " from folder: " +:+ TEMPLATES_DIR +:+ "/"
                        +:+ templateName +:+ "/")).

(** ** API routes *)

Record Request (Q B : Type) : Type := mkRequest {
  method : string;
  query  : Q;
  body   : B
}.
Arguments mkRequest {Q B}.
Arguments method {Q B}.
Arguments query {Q B}.
Arguments body {Q B}.

(** An agent record as the agent-roles route serialises it.  [aj_id] is
    [undefined] when the object has no [id] property. *)
Record AgentJson : Type := mkAgentJson {
  aj_id                       : js Z;
  aj_agent_role               : string;
  aj_agent_description        : js string;
  aj_allowed_tools            : list json;
  aj_default_developer_prompt : js string;
  aj_default_user_prompt      : js string;
  aj_model_id                 : js Z;
  aj_model_name               : string;
  aj_reasoning_level          : js string;
  aj_tool_choice              : js string
}.

Inductive Body : Type :=
  | json_error (error : string)
  | json_message (message : string)
  | json_agent (agent : AgentJson)
  | json_agentTypes (agentTypes : list AgentJson)
  | json_model (model : ModelInfo)
  | json_models (models : list ModelRow)
  | json_models_with_providers (models : list ModelInfo)
  | json_providers (providers : list ProviderRow)
  | json_task (task : TaskRow)
  | json_tasks (tasks : list TaskRow)
  | plain_text (text : string).

Record Response : Type := mkResponse {
  status  : Z;
  allow   : list string;      (* the Allow header, [] when not set *)
  payload : Body
}.

Definition respond (code : Z) (b : Body) : M Response :=
  ret (mkResponse code [] b).

Definition method_not_allowed (allowed : list string) (text : string)
    : M Response :=
  ret (mkResponse 405 allowed (plain_text text)).

(** [console.error(prefix, err)] *)
Definition log_error (prefix : string) (e : Error) : M unit :=
  print (console_error (prefix +:+ " " +:+ message e)).

(** *** pages/api/agent-roles.js *)

(** [parseTools]: the column parsed, or [] when it is NULL. *)
Definition parseTools (toolsJson : option (list json)) : option json :=
  match toolsJson with
  | Some l => Some (JArr l)
  | None => Some (JArr [])
  end.

Definition makeBlankAgent (agent_role : js string) : AgentJson :=
  mkAgentJson undefined (or_else agent_role "") (val "") [JStr DEFAULT_TOOL]
              (val "") (val "") null "" (val "") (val "auto").

Definition normalizeReasoningLevel (model_id : option Z)
    (storedLevel : option string) (db : DB) : js string :=
  if negb (truthy model_id) then val ""
  else
    let m := model_id ≫= fun id => getModelById id db in
    let supports :=
      match m with
      | Some mi => truthy (m_supports_reasoning (mi_row mi))
      | None => false
      end in
    if supports then of_column storedLevel else val "".

(** The [model_name] lookup of the GET branches. *)
Definition lookup_model_name (model_id : option Z) (db : DB) : string :=
  if truthy model_id then
    match model_id ≫= fun id => getModelById id db with
    | Some mi => or_else (val (m_model_name (mi_row mi))) ""
    | None => ""
    end
  else "".

Definition agent_to_json (row : AgentRow) (db : DB) : AgentJson :=
  let tools := ensureDefaultTool (parseTools (a_allowed_tools row)) in
  let model_name := lookup_model_name (a_model_id row) db in
  let reasoning_level :=
    normalizeReasoningLevel (a_model_id row) (a_reasoning_level row) db in
  mkAgentJson (val (a_id row)) (a_agent_role row)
              (of_column (a_agent_description row)) tools
              (of_column (a_default_developer_prompt row))
              (of_column (a_default_user_prompt row))
              (of_column (a_model_id row)) model_name reasoning_level
              (of_column (a_tool_choice row)).

Record AgentRolesQuery : Type := mkAgentRolesQuery {
  q_agent_role : js string
}.

(** The write branches hand [ensureDefaultTool(allowed_tools)] on. *)
Definition with_final_tools (b : AgentDetails) : AgentDetails :=
  mkAgentDetails (ad_agent_role b) (ad_agent_description b)
                 (Some (JArr (ensureDefaultTool (ad_allowed_tools b))))
                 (ad_default_developer_prompt b) (ad_default_user_prompt b)
                 (ad_model_id b) (ad_reasoning_level b) (ad_tool_choice b).

Definition agent_roles_handler (req : Request AgentRolesQuery AgentDetails)
    : M Response :=
  if bool_decide (method req = "GET") then
    if truthy (q_agent_role (query req)) then
      (* a truthy [query.agent_role] is its own [|| ""] *)
      try_catch
        (row <- select (getAgentByType (or_else (q_agent_role (query req)) "")) ;;
         match row with
         | Some r =>
             agent <- select (agent_to_json r) ;;
             respond 200 (json_agent agent)
         | None =>
             respond 200 (json_agent (makeBlankAgent (q_agent_role (query req))))
         end)
        (fun err =>
           log_error "GET /api/agent-roles?agent_role= error:" err ;;;
           respond 500 (json_error "Error fetching agent role."))
    else
      try_catch
        (rows <- select listAgentTypes ;;
         agentTypes <- select (fun d => map (fun r => agent_to_json r d) rows) ;;
         respond 200 (json_agentTypes agentTypes))
        (fun err =>
           log_error "GET /api/agent-roles error:" err ;;;
           respond 500 (json_error "Error fetching agent roles."))
  else if bool_decide (method req = "POST") then
    if negb (truthy (ad_agent_role (body req))) then
      respond 400 (json_error "agent_role is required.")
    else
      try_catch
        (exec_result (setAgentDetails (with_final_tools (body req))) ;;;
         respond 200 (json_message "Agent role created/updated successfully."))
        (fun err =>
           log_error "POST /api/agent-roles error:" err ;;;
           respond 500 (json_error "Error creating/updating agent role."))
  else if bool_decide (method req = "PUT") then
    if negb (truthy (ad_agent_role (body req))) then
      respond 400 (json_error "agent_role is required for update.")
    else
      try_catch
        (exec_result (setAgentDetails (with_final_tools (body req))) ;;;
         respond 200 (json_message "Agent role updated successfully."))
        (fun err =>
           log_error "PUT /api/agent-roles error:" err ;;;
           respond 500 (json_error "Error updating agent role."))
  else if bool_decide (method req = "DELETE") then
    if negb (truthy (q_agent_role (query req))) then
      respond 400 (json_error "agent_role query parameter is required.")
    else
      try_catch
        (exec (deleteAgentType (or_else (q_agent_role (query req)) "")) ;;;
         respond 200 (json_message "Agent role deleted successfully."))
        (fun err =>
           log_error "DELETE /api/agent-roles error:" err ;;;
           respond 500 (json_error "Error deleting agent role."))
  else
    method_not_allowed ["GET"; "POST"; "PUT"; "DELETE"]
      ("Method " +:+ method req +:+ " Not Allowed").

(** A query parameter that names a row by its id.  Query values are text:
    the empty text, or a text that SQLite's numeric affinity reads as the
    integer [n] when it compares the text with the integer id column.  A
    text that is not a number matches no row, like the numeral of an id
    that no row has.  Every text but the empty one is truthy, "0"
    included. *)
Inductive IdText : Type :=
  | empty_text
  | numeral (n : Z).

#[global] Instance truthy_IdText : Truthy IdText :=
  fun t => match t with numeral _ => true | empty_text => false end.

(** The rowid a query parameter that was tested to be truthy stands for. *)
Definition row_of (x : js IdText) : Z :=
  match x with val (numeral n) => n | _ => 0 end.

(** *** pages/api/models.js *)

Record ModelsQuery : Type := mkModelsQuery {
  q_model_id      : js IdText;
  q_withProviders : js string;
  q_id            : js IdText
}.

Record ModelsBody : Type := mkModelsBody {
  mb_id                 : js Z;
  mb_provider_id        : js Z;
  mb_model_name         : js string;
  mb_extra_info         : js string;
  mb_supports_reasoning : js bool
}.

(** The value of an id in a request body that was tested to be truthy. *)
Definition id_of (x : js Z) : Z :=
  match x with val n => n | _ => 0 end.

Definition models_handler (req : Request ModelsQuery ModelsBody)
    : M Response :=
  if bool_decide (method req = "GET") then
    if truthy (q_model_id (query req)) then
      try_catch
        (model <- select (getModelById (row_of (q_model_id (query req)))) ;;
         match model with
         | None => respond 404 (json_error "Model not found.")
         | Some m => respond 200 (json_model m)
         end)
        (fun error =>
           log_error "Error fetching model:" error ;;;
           respond 500 (json_error "Error fetching model."))
    else
      try_catch
        (if truthy (q_withProviders (query req)) then
           models <- select listModelsWithProviderInfo ;;
           respond 200 (json_models_with_providers models)
         else
           models <- select listModels ;;
           respond 200 (json_models models))
        (fun error =>
           log_error "Error fetching models:" error ;;;
           respond 500 (json_error "Error fetching models."))
  else if bool_decide (method req = "POST") || bool_decide (method req = "PUT")
  then
    let b := body req in
    if negb (truthy (mb_provider_id b)) || negb (truthy (mb_model_name b)) then
      respond 400 (json_error "provider_id and model_name are required.")
    else
      try_catch
        (exec_result (createOrUpdateModel (mb_id b) (mb_provider_id b)
                        (mb_model_name b) undefined (mb_extra_info b)
                        (mb_supports_reasoning b)) ;;;
         respond 200 (json_message "Model created/updated successfully."))
        (fun error =>
           log_error "Error updating model:" error ;;;
           respond 500 (json_error "Error updating model."))
  else if bool_decide (method req = "DELETE") then
    if negb (truthy (q_id (query req))) then
      respond 400 (json_error "Model id is required for deletion.")
    else
      try_catch
        (exec (deleteModel (row_of (q_id (query req)))) ;;;
         respond 200 (json_message "Model deleted successfully."))
        (fun error =>
           log_error "Error deleting model:" error ;;;
           respond 500 (json_error "Error deleting model."))
  else
    method_not_allowed ["GET"; "POST"; "PUT"; "DELETE"]
      ("Method " +:+ method req +:+ " Not Allowed").

(** *** pages/api/model-providers.js *)

Record ProvidersQuery : Type := mkProvidersQuery {
  pq_id : js IdText
}.

Record ProvidersBody : Type := mkProvidersBody {
  pb_id            : js Z;
  pb_provider_name : js string;
  pb_extra_info    : js string
}.

Definition model_providers_handler
    (req : Request ProvidersQuery ProvidersBody) : M Response :=
  if bool_decide (method req = "GET") then
    try_catch
      (providers <- select listProviders ;;
       respond 200 (json_providers providers))
      (fun error =>
         log_error "Error fetching providers:" error ;;;
         respond 500 (json_error "Error fetching model providers."))
  else if bool_decide (method req = "POST") || bool_decide (method req = "PUT")
  then
    let b := body req in
    if negb (truthy (pb_provider_name b)) then
      respond 400 (json_error "provider_name is required.")
    else
      try_catch
        (exec_result (createOrUpdateProvider (pb_id b) (pb_provider_name b)
                        undefined (pb_extra_info b)) ;;;
         respond 200 (json_message "Provider created/updated successfully."))
        (fun error =>
           log_error "Error updating provider:" error ;;;
           respond 500 (json_error "Error updating model provider."))
  else if bool_decide (method req = "DELETE") then
    if negb (truthy (pq_id (query req))) then
      respond 400 (json_error "Provider id is required.")
    else
      try_catch
        (exec (deleteProvider (row_of (pq_id (query req)))) ;;;
         respond 200 (json_message "Provider deleted successfully."))
        (fun error =>
           log_error "Error deleting provider:" error ;;;
           respond 500 (json_error "Error deleting model provider."))
  else
    method_not_allowed ["GET"; "POST"; "PUT"; "DELETE"]
      ("Method " +:+ method req +:+ " Not Allowed").

(** *** pages/api/tasks.js *)

Record TasksQuery : Type := mkTasksQuery {
  tq_task_name : js string;
  tq_id        : js IdText
}.

Record TasksBody : Type := mkTasksBody {
  tb_id          : js Z;
  tb_task_name   : js string;
  tb_task_prompt : js string
}.

(** [checkDBSchema] on a database file that opens: [CREATE TABLE IF NOT
    EXISTS tasks] finds the table and changes nothing.  A database that
    does not open is no state of this model; what the route does when the
    check fails is stated on [tasks_route], which takes the check as a
    parameter. *)
Definition checkDBSchema : M unit := ret tt.

(** The [try] block of the tasks route. *)
Definition tasks_try (req : Request TasksQuery TasksBody) : M Response :=
  if bool_decide (method req = "GET") then
    if truthy (tq_task_name (query req)) then
      task <- select (getTask (or_else (tq_task_name (query req)) "")) ;;
      match task with
      | Some t => respond 200 (json_task t)
      | None => respond 404 (json_error "Task not found.")
      end
    else
      tasks <- select getAllTasks ;;
      respond 200 (json_tasks tasks)
  else if bool_decide (method req = "POST") then
    let b := body req in
    if negb (truthy (tb_task_name b)) then
      respond 400 (json_error "task_name is required.")
    else
      exec_result (createTask (tb_task_name b)
                     (val (or_else (tb_task_prompt b) ""))) ;;;
      respond 201 (json_message "Task created successfully.")
  else if bool_decide (method req = "PUT") then
    let b := body req in
    if negb (truthy (tb_id b)) then
      respond 400 (json_error "Task internal id is required for update.")
    else
      changes <- exec_changes (updateTask (id_of (tb_id b)) (tb_task_name b)
                                 (val (or_else (tb_task_prompt b) ""))) ;;
      if bool_decide (changes = 0)
      then respond 404 (json_error "Task not found.")
      else respond 200 (json_message "Task updated successfully.")
  else if bool_decide (method req = "DELETE") then
    if negb (truthy (tq_id (query req))) then
      respond 400 (json_error "Task id is required for deletion.")
    else
      changes <- exec_changes
                   (fun d => Ok (deleteTask (row_of (tq_id (query req))) d)) ;;
      if bool_decide (changes = 0)
      then respond 404 (json_error "Task not found.")
      else respond 200 (json_message "Task deleted successfully.")
  else
    method_not_allowed ["GET"; "POST"; "PUT"; "DELETE"]
      ("Method " +:+ method req +:+ " is not allowed.").

(** The handler awaits the schema check before it enters its [try]. *)
Definition tasks_route (checkDBSchema : M unit)
    (req : Request TasksQuery TasksBody) : M Response :=
  checkDBSchema ;;;
  try_catch (tasks_try req)
    (fun error =>
       log_error "Error in tasks API:" error ;;;
       respond 500 (json_error "Internal server error.")).

Definition tasks_handler (req : Request TasksQuery TasksBody) : M Response :=
  tasks_route checkDBSchema req.

(** *** pages/api/templates/import.js *)

Record TemplateQuery : Type := mkTemplateQuery {
  q_name : js string
}.

Definition templates_import_handler (req : Request TemplateQuery unit)
    : M Response :=
  if negb (bool_decide (method req = "POST")) then
    method_not_allowed ["POST"] "Method Not Allowed"
  else
    let templateName := or_else (q_name (query req)) "default" in
    try_catch
      (importTemplate templateName true ;;;
       respond 200 (json_message ("Imported template " +:+ dq +:+ templateName
                                    +:+ dq +:+ " successfully.")))
      (fun error =>
         log_error "Error importing template:" error ;;;
         respond 500 (json_error
           "Failed to import template. Check server logs for details.")).

(** ** Well-formed databases

    The facts that hold of every database the four entity managers can
    produce: rowids come from the AUTOINCREMENT counters, the UNIQUE
    columns are unique, and the columns only ever written through
    [x || default] hold what such an expression can yield. *)

Definition ids_ok {A} (id : A -> Z) (rows : list A) (seq : Z) : Prop :=
  NoDup (map id rows) /\ Forall (fun r => 0 < id r <= seq) rows /\ 0 <= seq.

Record provider_row_ok (r : ProviderRow) : Prop := {
  display_ok :
    safeDisplayName (val (p_display_name r)) (val (p_provider_name r))
    = val (p_display_name r);
  extra_ok : is_Some (p_extra_info r)
}.

Record agent_row_ok (r : AgentRow) : Prop := {
  role_ok        : a_agent_role r <> "";
  description_ok : is_Some (a_agent_description r);
  tools_ok       : exists l, a_allowed_tools r = Some l
                             /\ includes l DEFAULT_TOOL = true;
  developer_ok   : is_Some (a_default_developer_prompt r);
  user_ok        : is_Some (a_default_user_prompt r);
  reasoning_ok   : exists s, a_reasoning_level r = Some s /\ s <> "";
  choice_ok      : exists s, a_tool_choice r = Some s /\ s <> ""
}.

Record providers_ok (rows : list ProviderRow) (seq : Z) : Prop := {
  provider_ids   : ids_ok p_id rows seq;
  provider_names : NoDup (map p_provider_name rows);
  provider_rows  : Forall provider_row_ok rows
}.

Record models_ok (rows : list ModelRow) (seq : Z) : Prop := {
  model_ids  : ids_ok m_id rows seq;
  model_keys : NoDup (map (fun r => (m_provider_id r, m_model_name r)) rows)
}.

Record agents_ok (rows : list AgentRow) (seq : Z) : Prop := {
  agent_ids   : ids_ok a_id rows seq;
  agent_names : NoDup (map a_agent_role rows);
  agent_rows  : Forall agent_row_ok rows
}.

Record tasks_ok (rows : list TaskRow) (seq : Z) : Prop := {
  task_ids   : ids_ok t_id rows seq;
  task_names : NoDup (map t_task_name rows)
}.

Record db_invariant (d : DB) : Prop := {
  inv_providers : providers_ok (model_providers d) (model_providers_seq d);
  inv_models    : models_ok (models d) (models_seq d);
  inv_agents    : agents_ok (agent_roles d) (agent_roles_seq d);
  inv_tasks     : tasks_ok (tasks d) (tasks_seq d)
}.

(** The states the managers' exported operations can reach from the
    empty database. *)
Inductive reachable : DB -> Prop :=
  | reach_empty : reachable empty_db
  | reach_createOrUpdateProvider d d' id provider_name display_name extra_info :
      reachable d ->
      createOrUpdateProvider id provider_name display_name extra_info d = Ok d' ->
      reachable d'
  | reach_deleteProvider d id :
      reachable d -> reachable (deleteProvider id d)
  | reach_createOrUpdateModel d d' id provider_id model_name display_name
                              extra_info supports_reasoning :
      reachable d ->
      createOrUpdateModel id provider_id model_name display_name extra_info
                          supports_reasoning d = Ok d' ->
      reachable d'
  | reach_deleteModel d id :
      reachable d -> reachable (deleteModel id d)
  | reach_setAgentDetails d d' details :
      reachable d -> setAgentDetails details d = Ok d' -> reachable d'
  | reach_setAllowedTools d agent_role tools :
      reachable d -> reachable (setAllowedTools agent_role tools d)
  | reach_setDefaultPrompts d agent_role developerPrompt userPrompt :
      reachable d ->
      reachable (setDefaultPrompts agent_role developerPrompt userPrompt d)
  | reach_deleteAgentType d agent_role :
      reachable d -> reachable (deleteAgentType agent_role d)
  | reach_createTask d d' task_name task_prompt :
      reachable d -> createTask task_name task_prompt d = Ok d' -> reachable d'
  | reach_updateTask d d' n id task_name task_prompt :
      reachable d ->
      updateTask id task_name task_prompt d = Ok (n, d') -> reachable d'
  | reach_deleteTask d id :
      reachable d -> reachable (deleteTask id d).2.

(** ** What the properties below speak about *)

(** The row [setAgentDetails] leaves for the role it was called with. *)
Definition written_agent (d : AgentDetails) (role : string) (id : Z)
    : AgentRow :=
  mkAgent id role
    (Some (or_else (ad_agent_description d) ""))
    (Some (ensureDefaultTool (ad_allowed_tools d)))
    (Some (or_else (ad_default_developer_prompt d) ""))
    (Some (or_else (ad_default_user_prompt d) ""))
    (bind_param (ad_model_id d))
    (Some (or_else (ad_reasoning_level d) "medium"))
    (Some (or_else (ad_tool_choice d) "auto")).

(** The not-found answer of GET /agent-roles?agent_role=K. *)
Definition blank_agent (K : string) : AgentJson :=
  mkAgentJson undefined K (val "") [JStr "set_work_completed"]
              (val "") (val "") null "" (val "") (val "auto").

(** Every field besides [agent_role] and [allowed_tools] is empty: absent,
    null or the empty string. *)
Definition other_fields_empty (a : AgentJson) : Prop :=
  is_nullish (aj_id a) = true /\
  aj_agent_description a = val "" /\
  aj_default_developer_prompt a = val "" /\
  aj_default_user_prompt a = val "" /\
  is_nullish (aj_model_id a) = true /\
  aj_model_name a = "" /\
  aj_reasoning_level a = val "" /\
  aj_tool_choice a = val "".

(** What the agent-roles GET branches must return as [reasoning_level]
    for the stored row [row], serialised as [a], said of the rows of the
    models table: blank without a model id, blank when the model with
    that id has [supports_reasoning] 0, the stored level when it has
    another value, and blank when no model has that id. *)
Definition reasoning_level_rule (d : DB) (row : AgentRow) (a : AgentJson)
    : Prop :=
  (a_model_id row = None -> aj_reasoning_level a = val "") /\
  (forall id m,
     a_model_id row = Some id -> m ∈ models d -> m_id m = id ->
     m_supports_reasoning m = 0 ->
     aj_reasoning_level a = val "") /\
  (forall id m,
     a_model_id row = Some id -> m ∈ models d -> m_id m = id ->
     m_supports_reasoning m <> 0 ->
     aj_reasoning_level a = of_column (a_reasoning_level row)) /\
  (forall id,
     a_model_id row = Some id ->
     (forall m, m ∈ models d -> m_id m <> id) ->
     aj_reasoning_level a = val "").

(** The world after [console.error(prefix, e)]. *)
Definition with_error_logged (prefix : string) (e : Error) (w : World)
    : World :=
  mkWorld (db w) (templates w)
          (console w ++ [console_error (prefix +:+ " " +:+ message e)]).

(** The database after the wipe: empty tables, counters kept. *)
Definition wiped (d : DB) : DB :=
  mkDB [] (model_providers_seq d) [] (models_seq d)
       [] (agent_roles_seq d) [] (tasks_seq d).

(** The body a client sends when it writes back the record it read. *)
Definition write_back (a : AgentJson) : AgentDetails :=
  mkAgentDetails (val (aj_agent_role a)) (aj_agent_description a)
                 (Some (JArr (aj_allowed_tools a)))
                 (aj_default_developer_prompt a) (aj_default_user_prompt a)
                 (aj_model_id a) (aj_reasoning_level a) (aj_tool_choice a).

(** ** The entities of a database, without internal ids

    What [exportTemplate] writes for a database: every row with its
    rowid dropped and its foreign key replaced by the natural key of the
    row it points to.  Two databases hold the same entities when these
    lists agree up to order. *)

Definition snapshot (d : DB) : Template :=
  mkTemplate (map export_provider (listProviders d))
             (map export_model (listModelsWithProviderInfo d))
             (map export_agent (listAgentTypesWithModelInfo d))
             (map export_task (getAllTasks d)).

Definition same_entities (t1 t2 : Template) : Prop :=
  providers_yaml t1 ≡ₚ providers_yaml t2 /\
  models_yaml t1 ≡ₚ models_yaml t2 /\
  agents_yaml t1 ≡ₚ agents_yaml t2 /\
  tasks_yaml t1 ≡ₚ tasks_yaml t2.

(** No model row is left behind by a deleted provider. *)
Definition models_have_providers (d : DB) : Prop :=
  forall m, m ∈ models d -> is_Some (getProviderById (m_provider_id m) d).

(** The natural key of a model: its provider's name and its own. *)
Definition model_names (mi : ModelInfo) : option string * string :=
  (mi_provider_name mi, m_model_name (mi_row mi)).

(** The key under which the import looks a model up. *)
Definition model_key_of (d : DB) (m : ModelRow) : string :=
  model_key (of_column (mi_provider_name (join_provider d m)))
            (val (m_model_name m)).

(** Every model an agent role points to can be found again from its
    names: both names are non-empty, and no model with other names has
    the same "provider_name:model_name" key. *)
Definition agent_links_resolvable (d : DB) : Prop :=
  forall a m,
    a ∈ agent_roles d -> linked_model d a = Some m ->
    mi_provider_name (join_provider d m) <> Some "" /\
    m_model_name m <> "" /\
    forall m', m' ∈ models d ->
      model_key_of d m' = model_key_of d m ->
      mi_provider_name (join_provider d m')
      = mi_provider_name (join_provider d m) /\
      m_model_name m' = m_model_name m.

(** ** The store as the specification sees it

    The entities of the four tables without their internal ids, read off
    the rows: a Model carries the name of the provider row its
    [provider_id] names, an Agent role the names of the model row its
    [model_id] names.  None of this goes through the managers' queries or
    the export. *)

Record ProviderEntity : Type := mkProviderEntity {
  pe_provider_name : string;
  pe_display_name  : string;
  pe_extra_info    : option string
}.

Record ModelEntity : Type := mkModelEntity {
  me_provider_name      : option string;
  me_model_name         : string;
  me_display_name       : string;
  me_extra_info         : option string;
  me_supports_reasoning : bool
}.

Record AgentEntity : Type := mkAgentEntity {
  ae_agent_role               : string;
  ae_agent_description        : option string;
  ae_allowed_tools            : option (list json);
  ae_default_developer_prompt : option string;
  ae_default_user_prompt      : option string;
  ae_reasoning_level          : option string;
  ae_tool_choice              : option string;
  (** the model's provider name and name, [None] without a model *)
  ae_model                    : option (option string * string)
}.

Record TaskEntity : Type := mkTaskEntity {
  te_task_name   : string;
  te_task_prompt : option string
}.

(** The row an id names: the first of the rows with that id (ids are
    unique in a well-formed database). *)
Definition provider_with_id (d : DB) (id : Z) : option ProviderRow :=
  head (filter (fun p => p_id p = id) (model_providers d)).

Definition model_with_id (d : DB) (id : Z) : option ModelRow :=
  head (filter (fun m => m_id m = id) (models d)).

(** The model an agent role points to, if its [model_id] names one. *)
Definition model_of (d : DB) (a : AgentRow) : option ModelRow :=
  a_model_id a ≫= model_with_id d.

Definition provider_entity (p : ProviderRow) : ProviderEntity :=
  mkProviderEntity (p_provider_name p) (p_display_name p) (p_extra_info p).

Definition model_entity (d : DB) (m : ModelRow) : ModelEntity :=
  mkModelEntity (p_provider_name <$> provider_with_id d (m_provider_id m))
                (m_model_name m) (m_display_name m) (m_extra_info m)
                (negb (bool_decide (m_supports_reasoning m = 0))).

Definition agent_entity (d : DB) (a : AgentRow) : AgentEntity :=
  mkAgentEntity (a_agent_role a) (a_agent_description a) (a_allowed_tools a)
                (a_default_developer_prompt a) (a_default_user_prompt a)
                (a_reasoning_level a) (a_tool_choice a)
                ((fun m => (p_provider_name
                              <$> provider_with_id d (m_provider_id m),
                            m_model_name m)) <$> model_of d a).

Definition task_entity (t : TaskRow) : TaskEntity :=
  mkTaskEntity (t_task_name t) (t_task_prompt t).

(** Two stores hold the same Providers, Models, Agent roles and Tasks, up
    to row order and internal ids. *)
Definition same_store (d1 d2 : DB) : Prop :=
  map provider_entity (model_providers d1)
    ≡ₚ map provider_entity (model_providers d2) /\
  map (model_entity d1) (models d1) ≡ₚ map (model_entity d2) (models d2) /\
  map (agent_entity d1) (agent_roles d1)
    ≡ₚ map (agent_entity d2) (agent_roles d2) /\
  map task_entity (tasks d1) ≡ₚ map task_entity (tasks d2).

(** No agent role has a dangling model reference. *)
Definition links_resolve (d : DB) : Prop :=
  forall a id,
    a ∈ agent_roles d -> a_model_id a = Some id ->
    exists m, m ∈ models d /\ m_id m = id.

(** Every agent role of [d] whose model reference is null or dangling is
    in [d'] with a null reference. *)
Definition unlinked_roles_have_null (d d' : DB) : Prop :=
  forall a,
    a ∈ agent_roles d ->
    (forall id m, a_model_id a = Some id -> m ∈ models d -> m_id m <> id) ->
    exists a',
      a' ∈ agent_roles d' /\ a_agent_role a' = a_agent_role a /\
      a_model_id a' = None.

(** Every Model's provider row exists. *)
Definition every_model_has_its_provider (d : DB) : Prop :=
  forall m, m ∈ models d ->
    exists p, p ∈ model_providers d /\ p_id p = m_provider_id m.

(** Every model an agent role points to can be found again from its
    names: the names of its provider and its own are non-empty, and no
    model with other names has the same "provider_name:model_name". *)
Definition agent_models_identified_by_key (d : DB) : Prop :=
  forall a m p,
    a ∈ agent_roles d -> m ∈ models d -> a_model_id a = Some (m_id m) ->
    p ∈ model_providers d -> p_id p = m_provider_id m ->
    p_provider_name p <> "" /\ m_model_name m <> "" /\
    forall m' p',
      m' ∈ models d -> p' ∈ model_providers d ->
      p_id p' = m_provider_id m' ->
      p_provider_name p' +:+ ":" +:+ m_model_name m'
      = p_provider_name p +:+ ":" +:+ m_model_name m ->
      p_provider_name p' = p_provider_name p /\
      m_model_name m' = m_model_name m.

(** A YAML record read as an entity; [None] when a field that every
    entity has is missing. *)
Definition value_of {A} (x : js A) : option A :=
  match x with val a => Some a | _ => None end.

Definition read_provider (y : ProviderYaml) : option ProviderEntity :=
  name ← value_of (py_provider_name y);
  display ← value_of (py_display_name y);
  Some (mkProviderEntity name display (value_of (py_extra_info y))).

Definition read_model (y : ModelYaml) : option ModelEntity :=
  name ← value_of (my_model_name y);
  display ← value_of (my_display_name y);
  reasoning ← value_of (my_supports_reasoning y);
  Some (mkModelEntity (value_of (my_provider_name y)) name display
                      (value_of (my_extra_info y)) reasoning).

Definition read_agent (y : AgentYaml) : option AgentEntity :=
  role ← value_of (ay_agent_role y);
  Some (mkAgentEntity role (value_of (ay_agent_description y))
          (match ay_allowed_tools y with
           | Some (JArr l) => Some l
           | _ => None
           end)
          (value_of (ay_default_developer_prompt y))
          (value_of (ay_default_user_prompt y))
          (value_of (ay_reasoning_level y))
          (value_of (ay_tool_choice y))
          ((fun name => (value_of (ay_provider_name y), name))
             <$> value_of (ay_model_name y))).

Definition read_task (y : TaskYaml) : option TaskEntity :=
  name ← value_of (ty_task_name y);
  Some (mkTaskEntity name (value_of (ty_task_prompt y))).

(** The four files of a folder hold the entities of [d], one record for
    each row. *)
Definition folder_holds (t : Template) (d : DB) : Prop :=
  map read_provider (providers_yaml t)
    ≡ₚ map (fun p => Some (provider_entity p)) (model_providers d) /\
  map read_model (models_yaml t)
    ≡ₚ map (fun m => Some (model_entity d m)) (models d) /\
  map read_agent (agents_yaml t)
    ≡ₚ map (fun a => Some (agent_entity d a)) (agent_roles d) /\
  map read_task (tasks_yaml t)
    ≡ₚ map (fun t => Some (task_entity t)) (tasks d).

(** What a round trip that started from [d] has to leave in [d']. *)
Definition reproduces (d d' : DB) : Prop :=
  same_entities (snapshot d') (snapshot d) /\
  same_store d' d /\
  links_resolve d' /\
  unlinked_roles_have_null d d'.

(** ** Sample data for the worked instances *)

Definition sample_details : AgentDetails :=
  mkAgentDetails (val "planner") (val "plans the work")
                 (Some (JArr [JStr "read_file"])) undefined undefined
                 (val 7) (val "") undefined.

Definition sample_agent_db : DB :=
  set_agents
    [mkAgent 1 "planner" (Some "plans the work")
             (Some [JStr "read_file"; JStr "set_work_completed"])
             (Some "") (Some "") (Some 7) (Some "medium") (Some "auto")]
    1 empty_db.

Definition empty_world : World := mkWorld empty_db ∅ [].

Definition no_details : AgentDetails :=
  mkAgentDetails undefined undefined None undefined undefined undefined
                 undefined undefined.

Definition sample_models_db : DB :=
  set_models [mkModel 1 1 "gpt-4" "gpt-4" (Some "") 1] 1
    (set_providers [mkProvider 1 "openai" "openai" (Some "")] 1 empty_db).


(** One provider with a reasoning and a non-reasoning model, and three
    agent roles: one on each model and one without a model. *)
Definition sample_db : DB :=
  mkDB [mkProvider 1 "openai" "OpenAI" (Some "")] 1
       [mkModel 1 1 "o3" "o3" (Some "") 1;
        mkModel 2 1 "gpt-4" "GPT-4" (Some "") 0] 2
       [mkAgent 1 "planner" (Some "") (Some [JStr "set_work_completed"])
                (Some "") (Some "") (Some 1) (Some "high") (Some "auto");
        mkAgent 2 "coder" (Some "") (Some [JStr "set_work_completed"])
                (Some "") (Some "") (Some 2) (Some "high") (Some "auto");
        mkAgent 3 "critic" (Some "") (Some [JStr "set_work_completed"])
                (Some "") (Some "") None (Some "low") (Some "none")] 3
       [mkTask 1 "triage" (Some "Sort the issues.")] 1.

Definition sample_world : World := mkWorld sample_db ∅ [].

(** A template whose second model names a provider that providers.yaml
    does not have, and one that holds every natural key twice. *)
Definition broken_template : Template :=
  mkTemplate [mkProviderYaml (val "openai") (val "OpenAI") (val "")]
             [mkModelYaml (val "openai") (val "o3") (val "o3") (val "")
                          (val true);
              mkModelYaml (val "ghost") (val "gpt-4") (val "GPT-4") (val "")
                          (val false);
              mkModelYaml (val "openai") (val "o4") (val "o4") (val "")
                          (val true)]
             [] [mkTaskYaml (val "triage") (val "Sort the issues.")].

Definition broken_world : World :=
  mkWorld sample_db {["broken" := broken_template]} [].

Definition duplicate_template : Template :=
  mkTemplate [mkProviderYaml (val "openai") (val "first") (val "");
              mkProviderYaml (val "openai") (val "second") (val "x")]
             [mkModelYaml (val "openai") (val "o3") (val "first") (val "")
                          (val true);
              mkModelYaml (val "openai") (val "o3") (val "second") (val "x")
                          (val false)]
             [mkAgentYaml (val "planner") (val "first") None (val "") (val "")
                          (val "low") (val "auto") (val "openai") (val "o3");
              mkAgentYaml (val "planner") (val "second") None (val "")
                          (val "") (val "high") (val "none") null null]
             [mkTaskYaml (val "triage") (val "first");
              mkTaskYaml (val "triage") (val "second")].

Definition duplicate_world : World :=
  mkWorld empty_db {["dup" := duplicate_template]} [].

Definition broken_w0 : World := (wipe_all broken_world).2.
Definition broken_provMap : gmap string Z :=
  match (import_providers "broken" broken_w0).1 with
  | Ok m => m
  | Throw _ => ∅
  end.
Definition broken_w1 : World := (import_providers "broken" broken_w0).2.
Definition broken_w2 : World :=
  (for_of [mkModelYaml (val "openai") (val "o3") (val "o3") (val "")
                       (val true)]
          (import_model broken_provMap) broken_w1).2.



(** Requests whose database operation throws on [sample_world]: a task
    name that is taken, and a model renamed onto another model's key. *)
Definition taken_task_request : Request TasksQuery TasksBody :=
  mkRequest "POST" (mkTasksQuery undefined undefined)
            (mkTasksBody undefined (val "triage") (val "again")).

Definition clashing_model_request : Request ModelsQuery ModelsBody :=
  mkRequest "PUT" (mkModelsQuery undefined undefined undefined)
            (mkModelsBody (val 1) (val 1) (val "gpt-4") undefined undefined).

Definition broken_import_request : Request TemplateQuery unit :=
  mkRequest "POST" (mkTemplateQuery (val "broken")) tt.

(** A provider and a model, then the provider is deleted. *)
Definition orphaned_model_db : DB :=
  deleteProvider 1 sample_models_db.
Definition orphaned_model_world : World := mkWorld orphaned_model_db ∅ [].

(** The sample database after its second model is deleted: the "coder"
    role keeps the id of the deleted model, the "critic" role has none. *)
Definition dangling_link_db : DB := deleteModel 2 sample_db.
Definition dangling_link_world : World := mkWorld dangling_link_db ∅ [].

(** Two models whose "provider_name:model_name" keys coincide, and an
    agent role on the first of them. *)
Definition colliding_keys_db : DB :=
  mkDB [mkProvider 1 "a" "a" (Some ""); mkProvider 2 "a:b" "a:b" (Some "")] 2
       [mkModel 1 1 "b:c" "x" (Some "") 1; mkModel 2 2 "c" "y" (Some "") 1] 2
       [mkAgent 1 "planner" (Some "") (Some [JStr "set_work_completed"])
                (Some "") (Some "") (Some 1) (Some "high") (Some "auto")] 1
       [] 0.

(** A provider with an empty name, a model under it and an agent role on
    that model. *)
Definition empty_name_db : DB :=
  mkDB [mkProvider 1 "" "" (Some "")] 1
       [mkModel 1 1 "o3" "o3" (Some "") 1] 1
       [mkAgent 1 "planner" (Some "") (Some [JStr "set_work_completed"])
                (Some "") (Some "") (Some 1) (Some "high") (Some "auto")] 1
       [] 0.

(** ** The export and tools routes *)

(** *** pages/api/templates/export.js *)

Definition templates_export_handler (req : Request TemplateQuery unit)
    : M Response :=
  if negb (bool_decide (method req = "POST")) then
    method_not_allowed ["POST"] "Method Not Allowed"
  else
    let templateName := or_else (q_name (query req)) "default" in
    try_catch
      (exportTemplate templateName ;;;
       respond 200 (json_message ("Exported template " +:+ dq +:+ templateName
                                    +:+ dq)))
      (fun error =>
         log_error "Error exporting template:" error ;;;
         respond 500 (json_error "Failed to export template")).

(** The status codes the routes use. *)
Definition route_statuses : list Z := [200; 201; 400; 404; 405; 500].

(** The status of the answer of a handler that returned. *)
Definition status_of (r : Result Response * World) : option Z :=
  match r.1 with
  | Ok resp => Some (status resp)
  | Throw _ => None
  end.

(** A method none of the entity routes handles. *)
Definition other_method (m : string) : Prop :=
  m <> "GET" /\ m <> "POST" /\ m <> "PUT" /\ m <> "DELETE".

(** The answer of the entity routes to such a method. *)
Definition not_allowed (text : string) : Response :=
  mkResponse 405 ["GET"; "POST"; "PUT"; "DELETE"] (plain_text text).

(** *** pages/api/tools.js

    The tools directory is the list of the file names in it, [None] when
    the directory does not exist.  A file name is a string of bytes; the
    prefix and the extension the code looks for are ASCII, so counting
    bytes there is counting UTF-16 units. *)

(** [s.startsWith(p)] *)
Definition startsWith (s p : string) : bool := String.prefix p s.

(** [s.endsWith(suffix)] *)
Definition endsWith (s suffix : string) : bool :=
  let len := String.length s in
  let n := String.length suffix in
  if (len <? n)%nat then false
  else bool_decide (String.substring (len - n) n s = suffix).

(** [s.slice(from, -back)]: from index [from], capped at the length, up to
    [back] characters before the end; empty when the two cross. *)
Definition slice (s : string) (from back : nat) : string :=
  let len := String.length s in
  let start := (from `min` len)%nat in
  let stop := (len - back)%nat in
  String.substring start (stop - start) s.

Record ToolsResponse : Type := mkToolsResponse {
  tools_status : Z;
  tools        : list string
}.

Definition tools_handler (toolsDir : option (list string)) : ToolsResponse :=
  match toolsDir with
  | None => mkToolsResponse 200 []
  | Some files =>
      let tools :=
        map (fun file => slice file (String.length "tool_")
                               (String.length ".py"))
            (filter (fun file => Is_true (startsWith file "tool_"
                                          && endsWith file ".py")) files) in
      mkToolsResponse 200 tools
  end.

(** The file of the tool module [t]. *)
Definition tool_file (t : string) : string := "tool_" +:+ t +:+ ".py".

(** ** The schema initialisers

    What the managers do to the database file when they are loaded.  A
    schema lists the tables in the order of their creation, each with its
    column names in declaration order, spelled as they were declared; the
    file is [None] until a connection creates it.  SQLite matches
    identifiers without regard to the case of the ASCII letters, while
    JavaScript compares the spellings. *)

Abbreviation Schema := (list (string * list string)).

(** The ASCII letters in lower case, as SQLite folds identifiers. *)
Definition fold_ascii (c : Ascii.ascii) : Ascii.ascii :=
  let n := Ascii.nat_of_ascii c in
  if bool_decide (65 <= n <= 90)%nat then Ascii.ascii_of_nat (n + 32) else c.

Fixpoint fold_case (s : string) : string :=
  match s with
  | EmptyString => EmptyString
  | String c s' => String (fold_ascii c) (fold_case s')
  end.

Definition same_identifier (a b : string) : bool :=
  bool_decide (fold_case a = fold_case b).

(** The columns of the table SQLite finds under a name. *)
Definition table (name : string) (s : Schema) : option (list string) :=
  snd <$> find (fun t => same_identifier t.1 name) s.

(** The schema with the columns of a table replaced. *)
Definition set_columns (name : string) (columns : list string) (s : Schema)
    : Schema :=
  map (fun t => if same_identifier t.1 name then (t.1, columns) else t) s.

(** [open({ filename: DB_FILE })] creates the file when it is missing. *)
Definition openDB (file : option Schema) : Schema := default [] file.

(** [CREATE TABLE IF NOT EXISTS name (columns)] *)
Definition create_table_if_not_exists (name : string)
    (columns : list string) (s : Schema) : Schema :=
  match table name s with
  | Some _ => s
  | None => s ++ [(name, columns)]
  end.

(** [ALTER TABLE name ADD COLUMN column] *)
Definition add_column (name column : string) (s : Schema) : Result Schema :=
  match table name s with
  | None => Throw (mkError ("SQLITE_ERROR: no such table: " +:+ name))
  | Some columns =>
      if existsb (same_identifier column) columns
      then Throw (mkError ("SQLITE_ERROR: duplicate column name: "
                             +:+ column))
      else Ok (set_columns name (columns ++ [column]) s)
  end.

(** [SELECT name FROM sqlite_master WHERE type='table' AND name=?]: the
    stored spelling is compared as text. *)
Definition has_table (name : string) (s : Schema) : bool :=
  existsb (fun t => bool_decide (t.1 = name)) s.

(** [PRAGMA table_info(name)], mapped to the column names: no rows for a
    table that does not exist. *)
Definition table_info (name : string) (s : Schema) : list string :=
  default [] (table name s).

Definition provider_columns : list string :=
  ["id"; "provider_name"; "display_name"; "extra_info"].

(** The models table as lib/agent_manager.js declares it, and as
    lib/model_manager.js does. *)
Definition agent_manager_model_columns : list string :=
  ["id"; "provider_id"; "model_name"; "display_name"; "extra_info"].

Definition agent_role_columns : list string :=
  ["id"; "agent_role"; "agent_description"; "allowed_tools";
   "default_developer_prompt"; "default_user_prompt"; "model_id";
   "reasoning_level"; "tool_choice"].

Definition task_columns : list string := ["id"; "task_name"; "task_prompt"].

(** lib/agent_manager.js *)
Definition initializeDB (file : option Schema) : Schema :=
  create_table_if_not_exists "agent_roles" agent_role_columns
    (create_table_if_not_exists "models" agent_manager_model_columns
       (create_table_if_not_exists "model_providers" provider_columns
          (openDB file))).

Definition columnFixes : list string :=
  ["agent_description"; "allowed_tools"; "default_developer_prompt";
   "default_user_prompt"; "model_id"; "reasoning_level"; "tool_choice"].

(** [for (const { name, sql } of columnFixes)
      if (!columns.includes(name)) ALTER TABLE agent_roles <sql>]:
    [columns] is read once, before the loop. *)
Fixpoint add_missing_columns (columns fixes : list string) (s : Schema)
    : Result Schema :=
  match fixes with
  | [] => Ok s
  | name :: rest =>
      if negb (bool_decide (name ∈ columns)) then
        match add_column "agent_roles" name s with
        | Ok s' => add_missing_columns columns rest s'
        | Throw e => Throw e
        end
      else add_missing_columns columns rest s
  end.

Definition checkAndUpgradeDBSchema (file : option Schema) : Result Schema :=
  match file with
  | None => Ok (initializeDB file)
  | Some _ =>
      let s := openDB file in
      match
        (if negb (has_table "agent_roles" s)
         then Ok (create_table_if_not_exists "agent_roles"
                    agent_role_columns s)
         else add_missing_columns (table_info "agent_roles" s) columnFixes s)
      with
      | Throw e => Throw e
      | Ok s1 =>
          let s2 :=
            if negb (has_table "models" s1)
            then create_table_if_not_exists "models"
                   agent_manager_model_columns s1
            else s1 in
          let s3 :=
            if negb (has_table "model_providers" s2)
            then create_table_if_not_exists "model_providers"
                   provider_columns s2
            else s2 in
          Ok s3
      end
  end.


(** lib/model_provider_manager.js *)
Definition initializeProviderTable (file : option Schema) : Schema :=
  create_table_if_not_exists "model_providers" provider_columns (openDB file).

(** lib/tasks.js, [checkDBSchema]: the statement behind the
    [checkDBSchema] of the tasks route above. *)
Definition ensure_tasks_table (file : option Schema) : Schema :=
  create_table_if_not_exists "tasks" task_columns (openDB file).


(** ** What a computation leaves alone *)

(** [m] keeps the property [P] of the database and does not write to the
    template folders, whether it returns or throws. *)
Definition keeps {A} (P : DB -> Prop) (m : M A) : Prop :=
  forall w, P (db w) ->
    P (db (m w).2) /\ templates (m w).2 = templates w.

(** ** More sample data *)

(** The sample database with its own export in the folder "default". *)
Definition exported_world : World :=
  mkWorld sample_db {["default" := snapshot sample_db]} [].

(** U+00A0, the no-break space, in UTF-8. *)
Definition no_break_space : string :=
  String (Ascii.ascii_of_nat 194) (String (Ascii.ascii_of_nat 160) "").

(** A database file from before the agent roles had models and tools, and
    one whose agent_roles table was declared in upper case. *)
Definition old_file : option Schema :=
  Some [("agent_roles", ["id"; "agent_role"; "allowed_tools"])].

Definition upper_case_file : option Schema :=
  Some [("agent_roles", ["ID"; "AGENT_ROLE"; "MODEL_ID"])].
(** * Properties *)

(** ** Basic facts *)

Lemma order_by_perm {A} (le : A -> A -> bool) (rows : list A) :
  order_by le rows ≡ₚ rows.
Proof. apply merge_sort_Permutation. Qed.

Lemma truthy_string_true (s : string) : truthy s = true <-> s <> "".
Proof.
  unfold truthy, truthy_string. case_bool_decide; simpl; split; congruence.
Qed.

Lemma or_else_truthy (x : js string) (d : string) :
  d <> "" -> or_else x d <> "".
Proof.
  intros Hd. destruct x as [| |s]; simpl; try done.
  destruct (truthy s) eqn:E; [by apply truthy_string_true|done].
Qed.

Lemma or_else_falsy (x : js string) (d : string) :
  truthy x = false -> or_else x d = d.
Proof.
  destruct x as [| |s]; simpl; try done.
  intros H. change (truthy s = false) in H. by rewrite H.
Qed.

Lemma or_else_val (s : string) : or_else (val s) "" = s.
Proof.
  simpl. destruct (truthy s) eqn:E; [done|].
  unfold truthy, truthy_string in E. by case_bool_decide.
Qed.

Lemma includes_app (l1 l2 : list json) (s : string) :
  includes (l1 ++ l2) s = includes l1 s || includes l2 s.
Proof. unfold includes. apply existsb_app. Qed.

Lemma ensureDefaultTool_includes (tools : option json) :
  includes (ensureDefaultTool tools) DEFAULT_TOOL = true.
Proof.
  unfold ensureDefaultTool.
  set (arr := match tools with Some (JArr l) => l | _ => [] end).
  cbv zeta. destruct (includes arr DEFAULT_TOOL) eqn:E; [done|].
  rewrite includes_app, E. reflexivity.
Qed.

Lemma ensureDefaultTool_fixed (l : list json) :
  includes l DEFAULT_TOOL = true -> ensureDefaultTool (Some (JArr l)) = l.
Proof. unfold ensureDefaultTool. cbv zeta. by intros ->. Qed.

Lemma find_elem {A} (f : A -> bool) (l : list A) (x : A) :
  find f l = Some x -> x ∈ l /\ f x = true.
Proof. intros H. apply find_some in H as [H1 H2]. by rewrite list_elem_of_In. Qed.

Lemma find_is_Some {A} (f : A -> bool) (l : list A) (x : A) :
  x ∈ l -> f x = true -> is_Some (find f l).
Proof.
  intros Hin Hf. destruct (find f l) eqn:E; [by eexists|].
  apply find_none with (x := x) in E; [congruence|by apply list_elem_of_In].
Qed.

Lemma find_none_all {A} (f : A -> bool) (l : list A) :
  (forall x, x ∈ l -> f x = false) -> find f l = None.
Proof.
  induction l as [|a l IH]; intros Hall; [reflexivity|]. simpl.
  rewrite (Hall a) by apply list_elem_of_here.
  apply IH. intros x Hx. by apply Hall, list_elem_of_further.
Qed.

Lemma existsb_false_elem {A} (f : A -> bool) (l : list A) (x : A) :
  existsb f l = false -> x ∈ l -> f x = false.
Proof.
  intros H Hin. destruct (f x) eqn:E; [|done].
  assert (existsb f l = true); [|congruence].
  apply existsb_exists. exists x. by rewrite <- list_elem_of_In.
Qed.

Lemma existsb_true_elem {A} (f : A -> bool) (l : list A) :
  existsb f l = true -> exists x, x ∈ l /\ f x = true.
Proof.
  intros (x & H1 & H2)%existsb_exists. exists x. by rewrite list_elem_of_In.
Qed.

(** ** What [setAgentDetails] writes *)

Lemma setAgentDetails_written d db db' :
  setAgentDetails d db = Ok db' ->
  exists role,
    ad_agent_role d = val role /\ role <> "" /\
    (exists r, getAgentByType role db' = Some r) /\
    (forall r, r ∈ agent_roles db' -> a_agent_role r = role ->
               r = written_agent d role (a_id r)).
Proof.
  unfold setAgentDetails. destruct (ad_agent_role d) as [| |role]; try done.
  destruct (truthy role) eqn:Hrole; simpl; [|done].
  apply truthy_string_true in Hrole.
  destruct (truthy (a_id <$> getAgentByType role db)) eqn:Hex.
  - intros [= <-]. exists role. split_and!; try done.
    + destruct (getAgentByType role db) as [r0|] eqn:E0; [|done].
      apply find_elem in E0 as [Hin Heq]. apply bool_decide_eq_true in Heq.
      unfold getAgentByType, update_agent_by_role; simpl.
      apply (find_is_Some _ _ (written_agent d role (a_id r0))).
      * apply list_elem_of_fmap. exists r0. split; [|done].
        rewrite bool_decide_eq_true_2 by done. by rewrite Heq.
      * by apply bool_decide_eq_true.
    + unfold update_agent_by_role; simpl. intros r Hin Hr.
      apply list_elem_of_fmap in Hin as (r0 & -> & Hin0).
      case_bool_decide as Hc; [|done]. by rewrite Hc.
  - unfold insert_agent.
    destruct (existsb _ (agent_roles db)) eqn:Hno; [done|].
    intros [= <-]. exists role. split_and!; try done.
    + unfold getAgentByType; simpl.
      apply (find_is_Some _ _ (written_agent d role (agent_roles_seq db + 1))).
      * apply elem_of_app. right. by apply list_elem_of_singleton.
      * by apply bool_decide_eq_true.
    + simpl. intros r Hin Hr. apply elem_of_app in Hin as [Hin|Hin].
      * apply (existsb_false_elem _ _ _ Hno) in Hin.
        by apply bool_decide_eq_false in Hin.
      * apply list_elem_of_singleton in Hin. by subst r.
Qed.

(** C2: every successful [setAgentDetails] call, whatever [allowed_tools]
    value it was given (missing, not an array, an array with or without
    the sentinel), leaves each row of that agent role with a stored tool
    list that contains "set_work_completed"; the row exists, and reading
    it back, through [getAllowedTools] or through the GET serialisation of
    the agent-roles route, yields a list that contains the sentinel. *)
Theorem C2_sentinel_tool_always_stored (d : AgentDetails) (db db' : DB) :
  setAgentDetails d db = Ok db' ->
  exists role,
    ad_agent_role d = val role /\
    (forall r, r ∈ agent_roles db' -> a_agent_role r = role ->
       exists l, a_allowed_tools r = Some l /\
                 includes l DEFAULT_TOOL = true) /\
    (exists r, getAgentByType role db' = Some r /\
               includes (aj_allowed_tools (agent_to_json r db')) DEFAULT_TOOL
               = true) /\
    includes (getAllowedTools role db') DEFAULT_TOOL = true.
Proof.
  intros H. apply setAgentDetails_written in H as (role & Hd & _ & [r Hr] & Hw).
  exists role. split; [done|].
  assert (Hstored : forall r, r ∈ agent_roles db' -> a_agent_role r = role ->
            a_allowed_tools r = Some (ensureDefaultTool (ad_allowed_tools d))).
  { intros r0 Hin Hrole. by rewrite (Hw r0 Hin Hrole). }
  split_and!.
  - intros r0 Hin Hrole. eexists. split; [by apply Hstored|].
    apply ensureDefaultTool_includes.
  - exists r. split; [done|]. unfold agent_to_json; simpl.
    apply ensureDefaultTool_includes.
  - unfold getAllowedTools. rewrite Hr.
    pose proof (find_elem _ _ _ Hr) as [Hin Heq].
    apply bool_decide_eq_true in Heq. rewrite (Hstored r Hin Heq).
    apply ensureDefaultTool_includes.
Qed.

Lemma C2_sentinel_tool_always_stored_witness :
  setAgentDetails sample_details empty_db = Ok sample_agent_db /\
  exists role,
    ad_agent_role sample_details = val role /\
    (forall r, r ∈ agent_roles sample_agent_db -> a_agent_role r = role ->
       exists l, a_allowed_tools r = Some l /\
                 includes l DEFAULT_TOOL = true) /\
    (exists r, getAgentByType role sample_agent_db = Some r /\
               includes (aj_allowed_tools (agent_to_json r sample_agent_db))
                        DEFAULT_TOOL = true) /\
    includes (getAllowedTools role sample_agent_db) DEFAULT_TOOL = true.
Proof.
  split; [reflexivity|].
  apply (C2_sentinel_tool_always_stored sample_details empty_db).
  reflexivity.
Defined.

(** C10: every row [setAgentDetails] writes has a non-empty
    [reasoning_level] and [tool_choice]: the stored values are
    [reasoning_level || "medium"] and [tool_choice || "auto"], so a falsy
    input (missing, null or the empty string) is stored as "medium",
    respectively "auto".  In particular, writing back the level that the
    GET route blanked for some agent stores "medium". *)
Theorem C10_falsy_levels_stored_as_defaults (d : AgentDetails) (db db' : DB) :
  setAgentDetails d db = Ok db' ->
  exists role,
    ad_agent_role d = val role /\
    (exists r, getAgentByType role db' = Some r) /\
    forall r, r ∈ agent_roles db' -> a_agent_role r = role ->
      (exists level choice,
         a_reasoning_level r = Some level /\ level <> "" /\
         a_tool_choice r = Some choice /\ choice <> "") /\
      (truthy (ad_reasoning_level d) = false ->
       a_reasoning_level r = Some "medium") /\
      (truthy (ad_tool_choice d) = false -> a_tool_choice r = Some "auto") /\
      (forall r0, r0 ∈ agent_roles db ->
         aj_reasoning_level (agent_to_json r0 db) = val "" ->
         ad_reasoning_level d = aj_reasoning_level (agent_to_json r0 db) ->
         a_reasoning_level r = Some "medium").
Proof.
  intros H. apply setAgentDetails_written in H as (role & Hd & _ & Hr & Hw).
  exists role. split_and!; try done.
  intros r Hin Hrole. rewrite (Hw r Hin Hrole). simpl. split_and!.
  - eexists _, _. split_and!; try done; by apply or_else_truthy.
  - intros Hf. by rewrite or_else_falsy.
  - intros Hf. by rewrite or_else_falsy.
  - intros r0 _ Hblank Heq. rewrite Heq, Hblank. done.
Qed.

Lemma C10_falsy_levels_stored_as_defaults_witness :
  setAgentDetails sample_details empty_db = Ok sample_agent_db /\
  exists role,
    ad_agent_role sample_details = val role /\
    (exists r, getAgentByType role sample_agent_db = Some r) /\
    forall r, r ∈ agent_roles sample_agent_db -> a_agent_role r = role ->
      (exists level choice,
         a_reasoning_level r = Some level /\ level <> "" /\
         a_tool_choice r = Some choice /\ choice <> "") /\
      (truthy (ad_reasoning_level sample_details) = false ->
       a_reasoning_level r = Some "medium") /\
      (truthy (ad_tool_choice sample_details) = false ->
       a_tool_choice r = Some "auto") /\
      (forall r0, r0 ∈ agent_roles empty_db ->
         aj_reasoning_level (agent_to_json r0 empty_db) = val "" ->
         ad_reasoning_level sample_details
         = aj_reasoning_level (agent_to_json r0 empty_db) ->
         a_reasoning_level r = Some "medium").
Proof.
  split; [reflexivity|].
  apply (C10_falsy_levels_stored_as_defaults sample_details empty_db).
  reflexivity.
Defined.

(** ** The agent-roles route *)

(** C8 as stated fails: the blank record's [tool_choice] is "auto", not
    empty. *)
Lemma C8_blank_agent_counterexample :
  ~ exists a w',
      agent_roles_handler
        (mkRequest "GET" (mkAgentRolesQuery (val "nonexistent")) no_details)
        empty_world
      = (Ok (mkResponse 200 [] (json_agent a)), w') /\
      aj_agent_role a = "nonexistent" /\
      aj_allowed_tools a = [JStr DEFAULT_TOOL] /\
      other_fields_empty a.
Proof.
  intros (a & w' & Hrun & _ & _ & Hempty).
  vm_compute in Hrun. injection Hrun as <- _.
  destruct Hempty as (_ & _ & _ & _ & _ & _ & _ & Hchoice). discriminate Hchoice.
Qed.

(** C8 (amended): GET /agent-roles?agent_role=K for a non-empty key K that
    matches no stored row answers HTTP 200, leaves the state alone, and
    returns a synthesized record whose [agent_role] is K, whose
    [allowed_tools] is exactly the one-element list with the sentinel
    tool, whose [tool_choice] is "auto", whose [model_id] is null, and
    whose other fields are empty strings. *)
Theorem C8_blank_agent_for_unknown_role
    (req : Request AgentRolesQuery AgentDetails) (K : string) (w : World) :
  method req = "GET" ->
  q_agent_role (query req) = val K ->
  K <> "" ->
  getAgentByType K (db w) = None ->
  agent_roles_handler req w
  = (Ok (mkResponse 200 [] (json_agent (blank_agent K))), w).
Proof.
  intros Hm Hq HK Hnone. unfold agent_roles_handler.
  rewrite Hm, Hq. simpl.
  apply truthy_string_true in HK as HK'.
  change (truthy (val K)) with (truthy K). rewrite HK'.
  unfold try_catch, bind, select, respond, ret. simpl.
  rewrite Hnone. unfold makeBlankAgent, blank_agent. simpl. by rewrite HK'.
Qed.

Lemma C8_blank_agent_for_unknown_role_witness :
  agent_roles_handler
    (mkRequest "GET" (mkAgentRolesQuery (val "nonexistent")) no_details)
    empty_world
  = (Ok (mkResponse 200 [] (json_agent (blank_agent "nonexistent"))),
     empty_world).
Proof.
  apply (C8_blank_agent_for_unknown_role _ "nonexistent" empty_world);
    [reflexivity | reflexivity | discriminate | reflexivity].
Defined.

(** ** Updates by an id that matches no row *)

Lemma existsb_no_hit {A} (f : A -> bool) (l : list A) :
  (forall x, x ∈ l -> f x = false) -> existsb f l = false.
Proof.
  intros H. destruct (existsb f l) eqn:E; [|done].
  apply existsb_true_elem in E as (x & Hin & Hx). rewrite (H x Hin) in Hx. done.
Qed.



Lemma truthy_Z_true (n : Z) : truthy n = true <-> n <> 0.
Proof.
  unfold truthy, truthy_Z. case_bool_decide; simpl; split; congruence.
Qed.



(** ** Reading agent roles *)

Lemma find_unique {A K} `{EqDecision K} (key : A -> K) (l : list A) (x : A) :
  NoDup (map key l) -> x ∈ l ->
  find (fun r => bool_decide (key r = key x)) l = Some x.
Proof.
  induction l as [|y l IH]; intros Hnd Hin; [by apply elem_of_nil in Hin|].
  rewrite fmap_cons in Hnd. apply NoDup_cons in Hnd as [Hy Hnd].
  simpl. case_bool_decide as Hk.
  - apply elem_of_cons in Hin as [->|Hin]; [done|].
    exfalso. apply Hy. rewrite Hk. apply list_elem_of_fmap. by exists x.
  - apply elem_of_cons in Hin as [->|Hin]; [done|]. by apply IH.
Qed.

Lemma getModelById_id (id : Z) (d : DB) (mi : ModelInfo) :
  getModelById id d = Some mi ->
  mi_row mi ∈ models d /\ m_id (mi_row mi) = id.
Proof.
  unfold getModelById. destruct (find _ (models d)) as [r|] eqn:E; [|done].
  intros [= <-]. apply find_elem in E as [Hin Heq].
  by apply bool_decide_eq_true in Heq.
Qed.

Lemma agent_to_json_reasoning_level (d : DB) (row : AgentRow) :
  ids_ok m_id (models d) (models_seq d) ->
  reasoning_level_rule d row (agent_to_json row d).
Proof.
  intros (Hnd & Hids & _). unfold reasoning_level_rule, agent_to_json; simpl.
  unfold normalizeReasoningLevel. split_and!.
  - by intros ->.
  - intros id m -> Hin <- Hsr. simpl.
    change (truthy (Some (m_id m))) with (truthy (m_id m)).
    destruct (truthy (m_id m)); simpl; [|done].
    unfold getModelById. rewrite (find_unique m_id _ m Hnd Hin). simpl.
    unfold truthy, truthy_Z. by rewrite Hsr.
  - intros id m -> Hin <- Hsr. simpl.
    change (truthy (Some (m_id m))) with (truthy (m_id m)).
    rewrite Forall_forall in Hids. specialize (Hids _ Hin).
    assert (truthy (m_id m) = true) as -> by (apply truthy_Z_true; lia).
    simpl. unfold getModelById. rewrite (find_unique m_id _ m Hnd Hin). simpl.
    by assert (truthy (m_supports_reasoning m) = true) as ->
      by (by apply truthy_Z_true).
  - intros id -> Hnone. simpl.
    change (truthy (Some id)) with (truthy id).
    destruct (truthy id); simpl; [|done].
    unfold getModelById. rewrite find_none_all; [done|].
    intros m Hm. apply bool_decide_eq_false. by apply Hnone.
Qed.

(** C3: on a database the managers can produce, GET /agent-roles, both
    for a single stored role and for the whole list, answers HTTP 200 and
    returns for every stored row a [reasoning_level] that is the empty
    string when the row's [model_id] is null or the row of the models
    table with that id has [supports_reasoning] 0, whatever level the row
    stores, and the stored level unchanged when that row has a non-zero
    [supports_reasoning]; a [model_id] that no model row has gives the
    empty string as well. *)
Theorem C3_reasoning_level_blanked_on_read
    (w : World) (row : AgentRow)
    (one all : Request AgentRolesQuery AgentDetails) :
  db_invariant (db w) ->
  row ∈ agent_roles (db w) ->
  method one = "GET" ->
  q_agent_role (query one) = val (a_agent_role row) ->
  method all = "GET" ->
  truthy (q_agent_role (query all)) = false ->
  (exists a,
     agent_roles_handler one w = (Ok (mkResponse 200 [] (json_agent a)), w) /\
     aj_id a = val (a_id row) /\
     reasoning_level_rule (db w) row a) /\
  (exists l,
     agent_roles_handler all w
     = (Ok (mkResponse 200 [] (json_agentTypes l)), w) /\
     row ∈ listAgentTypes (db w) /\
     Forall2 (fun r a => aj_id a = val (a_id r) /\
                         reasoning_level_rule (db w) r a)
             (listAgentTypes (db w)) l).
Proof.
  intros Hinv Hin Hm1 Hq1 Hm2 Hq2.
  pose proof (model_ids _ _ (inv_models _ Hinv)) as Hids.
  split.
  - exists (agent_to_json row (db w)). split_and!.
    + unfold agent_roles_handler. rewrite Hm1, Hq1. simpl.
      pose proof (agent_rows _ _ (inv_agents _ Hinv)) as Hrows.
      rewrite Forall_forall in Hrows.
      pose proof (role_ok _ (Hrows _ Hin)) as Hrole.
      apply truthy_string_true in Hrole.
      change (truthy (val (a_agent_role row))) with (truthy (a_agent_role row)).
      rewrite Hrole. unfold try_catch, bind, select, respond, ret. simpl.
      unfold getAgentByType.
      by rewrite (find_unique a_agent_role _ row
                   (agent_names _ _ (inv_agents _ Hinv)) Hin).
    + done.
    + by apply agent_to_json_reasoning_level.
  - exists (map (fun r => agent_to_json r (db w)) (listAgentTypes (db w))).
    split_and!.
    + unfold agent_roles_handler. rewrite Hm2, Hq2. simpl.
      by unfold try_catch, bind, select, respond, ret.
    + unfold listAgentTypes. by rewrite order_by_perm.
    + apply Forall2_fmap_r, Forall_Forall2_diag, Forall_forall.
      intros r _. split; [done|]. by apply agent_to_json_reasoning_level.
Qed.

(** ** The sample database is well-formed *)

Ltac solve_nodup :=
  repeat (apply NoDup_cons_2;
          [rewrite ?elem_of_cons, elem_of_nil; intuition discriminate|]);
  apply NoDup_nil_2.

Ltac solve_ids :=
  split; [solve_nodup | split; [repeat constructor; simpl; lia | simpl; lia]].

Ltac solve_rows :=
  repeat first
    [ apply Forall_nil_2
    | apply Forall_cons; split
    | split; simpl
    | by eexists
    | by (eexists; split; [reflexivity|])
    | reflexivity
    | discriminate ].

Lemma sample_db_invariant : db_invariant sample_db.
Proof.
  split; simpl; split; simpl;
    try solve_ids; try solve_nodup; solve_rows.
Qed.

Lemma C3_reasoning_level_blanked_on_read_witness :
  let planner := mkAgent 1 "planner" (Some "") (Some [JStr "set_work_completed"])
                         (Some "") (Some "") (Some 1) (Some "high")
                         (Some "auto") in
  let one := mkRequest "GET" (mkAgentRolesQuery (val "planner")) no_details in
  let all := mkRequest "GET" (mkAgentRolesQuery undefined) no_details in
  (exists a,
     agent_roles_handler one sample_world
     = (Ok (mkResponse 200 [] (json_agent a)), sample_world) /\
     aj_id a = val (a_id planner) /\
     aj_reasoning_level a = val "high") /\
  (exists l,
     agent_roles_handler all sample_world
     = (Ok (mkResponse 200 [] (json_agentTypes l)), sample_world) /\
     planner ∈ listAgentTypes (db sample_world) /\
     Forall2 (fun r a => aj_id a = val (a_id r) /\
                         reasoning_level_rule (db sample_world) r a)
             (listAgentTypes (db sample_world)) l).
Proof.
  intros planner one all.
  destruct (C3_reasoning_level_blanked_on_read sample_world planner one all)
    as [(a & Hrun & Hid & _ & _ & Hserved & _) Hall].
  - exact sample_db_invariant.
  - simpl. apply elem_of_cons. by left.
  - reflexivity.
  - reflexivity.
  - reflexivity.
  - reflexivity.
  - split; [|exact Hall]. exists a. split; [exact Hrun|]. split; [exact Hid|].
    apply (Hserved 1 (mkModel 1 1 "o3" "o3" (Some "") 1)).
    + reflexivity.
    + simpl. apply elem_of_cons. by left.
    + reflexivity.
    + discriminate.
Defined.

(** The three cases on the sample database: the "planner" role is on a
    reasoning model and its level is served, the "coder" role stores
    "high" on a model without reasoning and reads back blank, and so does
    the planner once its model is deleted. *)
Example sample_planner_level_is_served :
  (agent_roles_handler
     (mkRequest "GET" (mkAgentRolesQuery (val "planner")) no_details)
     sample_world).1
  = Ok (mkResponse 200 []
          (json_agent
             (mkAgentJson (val 1) "planner" (val "")
                          [JStr "set_work_completed"]
                          (val "") (val "") (val 1) "o3" (val "high")
                          (val "auto")))).
Proof. reflexivity. Qed.

Example sample_dangling_level_is_blanked :
  (agent_roles_handler
     (mkRequest "GET" (mkAgentRolesQuery (val "planner")) no_details)
     (mkWorld (deleteModel 1 sample_db) ∅ [])).1
  = Ok (mkResponse 200 []
          (json_agent
             (mkAgentJson (val 1) "planner" (val "")
                          [JStr "set_work_completed"]
                          (val "") (val "") (val 1) "" (val "")
                          (val "auto")))).
Proof. reflexivity. Qed.

Example sample_coder_level_is_blanked :
  (agent_roles_handler
     (mkRequest "GET" (mkAgentRolesQuery (val "coder")) no_details)
     sample_world).1
  = Ok (mkResponse 200 []
          (json_agent
             (mkAgentJson (val 2) "coder" (val "") [JStr "set_work_completed"]
                          (val "") (val "") (val 2) "gpt-4" (val "")
                          (val "auto")))).
Proof. reflexivity. Qed.

(** The "coder" role stores "high" on a model without reasoning: it reads
    back blank, and writing the read record back stores "medium". *)
Example sample_coder_level_becomes_medium :
  exists coder d',
    getAgentByType "coder" sample_db = Some coder /\
    a_reasoning_level coder = Some "high" /\
    aj_reasoning_level (agent_to_json coder sample_db) = val "" /\
    setAgentDetails (write_back (agent_to_json coder sample_db)) sample_db
    = Ok d' /\
    a_reasoning_level <$> getAgentByType "coder" d' = Some (Some "medium").
Proof. eexists _, _. split_and!; vm_compute; reflexivity. Qed.

(** ** Running monadic code *)

Lemma bind_ok {A B} (m : M A) (k : A -> M B) (w w' : World) (a : A) :
  m w = (Ok a, w') -> bind m k w = k a w'.
Proof. unfold bind. by intros ->. Qed.

Lemma bind_throw {A B} (m : M A) (k : A -> M B) (w w' : World) (e : Error) :
  m w = (Throw e, w') -> bind m k w = (Throw e, w').
Proof. unfold bind. by intros ->. Qed.

Lemma for_of_app {A} (l1 l2 : list A) (f : A -> M unit) (w : World) :
  for_of (l1 ++ l2) f w
  = match for_of l1 f w with
    | (Ok _, w') => for_of l2 f w'
    | (Throw e, w') => (Throw e, w')
    end.
Proof.
  revert w. induction l1 as [|x l1 IH]; intros w; simpl; [done|].
  unfold bind. destruct (f x w) as [[[]|e] w']; [apply IH|done].
Qed.

(** ** An unknown provider aborts the model loop *)

(** C5: when, after the wipe and the provider phase, a Model entry of
    models.yaml names a provider that the provider name-to-id map does not
    hold (or names none), [importTemplate] throws "Provider not found" at
    that entry.  The state it leaves is the one reached after the entries
    before it: no later Model entry is written, and the agent and task
    phases do not run. *)
Theorem C5_unknown_provider_aborts_model_loop
    (templateName : string) (wipe : bool) (w w0 w1 w2 : World)
    (provMap : gmap string Z) (pre post : list ModelYaml) (bad : ModelYaml) :
  (if wipe then wipe_all else ret tt) w = (Ok tt, w0) ->
  import_providers templateName w0 = (Ok provMap, w1) ->
  models_yaml (template_folder w1 templateName) = pre ++ bad :: post ->
  for_of pre (import_model provMap) w1 = (Ok tt, w2) ->
  is_nullish (Map_get provMap (my_provider_name bad)) = true ->
  importTemplate templateName wipe w
  = (Throw (provider_not_found (my_provider_name bad)), w2).
Proof.
  intros Hwipe Hprov Hfile Hpre Hbad. unfold importTemplate.
  rewrite (bind_ok _ _ _ _ _ Hwipe), (bind_ok _ _ _ _ _ Hprov).
  apply bind_throw. unfold import_models.
  unfold loadYAML at 1. unfold bind at 1. simpl. rewrite Hfile.
  apply bind_throw. rewrite for_of_app, Hpre. simpl.
  apply bind_throw. unfold import_model. apply bind_throw.
  by rewrite Hbad.
Qed.

Lemma C5_unknown_provider_aborts_model_loop_witness :
  importTemplate "broken" true broken_world
  = (Throw (provider_not_found (val "ghost")), broken_w2) /\
  models (db broken_w2) = [mkModel 3 2 "o3" "o3" (Some "") 1] /\
  agent_roles (db broken_w2) = [] /\
  tasks (db broken_w2) = [].
Proof.
  split; [|by vm_compute].
  apply (C5_unknown_provider_aborts_model_loop "broken" true broken_world
           broken_w0 broken_w1 broken_w2 broken_provMap
           [mkModelYaml (val "openai") (val "o3") (val "o3") (val "")
                        (val true)]
           [mkModelYaml (val "openai") (val "o4") (val "o4") (val "")
                        (val true)]
           (mkModelYaml (val "ghost") (val "gpt-4") (val "GPT-4") (val "")
                        (val false))).
  - vm_compute. reflexivity.
  - vm_compute. reflexivity.
  - vm_compute. reflexivity.
  - vm_compute. reflexivity.
  - vm_compute. reflexivity.
Defined.

(** ** An unknown model does not fail the agent loop *)

Lemma find_none_existsb {A} (f : A -> bool) (l : list A) :
  find f l = None -> existsb f l = false.
Proof.
  intros H. apply existsb_no_hit. intros x Hin.
  apply (find_none _ _ H). by apply list_elem_of_In.
Qed.




(** ** What the routes answer when an operation throws *)

(** C7 as stated fails: the import route catches the "Provider not found"
    error of the template manager and answers 500 with its own fixed text,
    not with the caught message. *)
Lemma C7_caught_message_not_exposed_counterexample :
  exists e w' resp w'',
    importTemplate "broken" true broken_world = (Throw e, w') /\
    templates_import_handler broken_import_request broken_world
    = (Ok resp, w'') /\
    status resp = 500 /\
    payload resp <> json_error (message e).
Proof.
  eexists _, _, _, _. split_and!.
  - vm_compute. reflexivity.
  - vm_compute. reflexivity.
  - reflexivity.
  - vm_compute. discriminate.
Qed.

(** C7 (amended): when the database operation behind the tasks route, the
    models POST/PUT route or the template import route throws, the route
    answers HTTP 500 with a JSON body whose [error] field is a fixed text
    chosen by the route ("Internal server error.", "Error updating
    model.", "Failed to import template. Check server logs for
    details."); the caught error only goes to the server console. *)
Theorem C7_routes_answer_500_with_fixed_text
    (treq : Request TasksQuery TasksBody) (wt wt' : World) (et : Error)
    (mreq : Request ModelsQuery ModelsBody) (wm : World) (em : Error)
    (ireq : Request TemplateQuery unit) (wi wi' : World) (ei : Error) :
  tasks_try treq wt = (Throw et, wt') ->
  method mreq = "POST" \/ method mreq = "PUT" ->
  truthy (mb_provider_id (body mreq)) = true ->
  truthy (mb_model_name (body mreq)) = true ->
  createOrUpdateModel (mb_id (body mreq)) (mb_provider_id (body mreq))
    (mb_model_name (body mreq)) undefined (mb_extra_info (body mreq))
    (mb_supports_reasoning (body mreq)) (db wm) = Throw em ->
  method ireq = "POST" ->
  importTemplate (or_else (q_name (query ireq)) "default") true wi
  = (Throw ei, wi') ->
  tasks_handler treq wt
  = (Ok (mkResponse 500 [] (json_error "Internal server error.")),
     with_error_logged "Error in tasks API:" et wt') /\
  models_handler mreq wm
  = (Ok (mkResponse 500 [] (json_error "Error updating model.")),
     with_error_logged "Error updating model:" em wm) /\
  templates_import_handler ireq wi
  = (Ok (mkResponse 500 []
           (json_error
              "Failed to import template. Check server logs for details.")),
     with_error_logged "Error importing template:" ei wi').
Proof.
  intros Ht Hmm Hmp Hmn Hm Him Hi. split_and!.
  - unfold tasks_handler, tasks_route, checkDBSchema, bind at 1, ret, try_catch.
    by rewrite Ht.
  - unfold models_handler.
    assert (bool_decide (method mreq = "GET") = false) as ->.
    { apply bool_decide_eq_false. by destruct Hmm as [-> | ->]. }
    assert (bool_decide (method mreq = "POST")
            || bool_decide (method mreq = "PUT") = true) as ->.
    { destruct Hmm as [-> | ->]; reflexivity. }
    rewrite Hmp, Hmn. simpl.
    unfold try_catch, bind at 1, exec_result. by rewrite Hm.
  - unfold templates_import_handler. rewrite Him. simpl.
    unfold try_catch, bind at 1. by rewrite Hi.
Qed.

Lemma C7_routes_answer_500_with_fixed_text_witness :
  tasks_handler taken_task_request sample_world
  = (Ok (mkResponse 500 [] (json_error "Internal server error.")),
     with_error_logged "Error in tasks API:" (sqlite_unique "tasks.task_name")
                       sample_world) /\
  models_handler clashing_model_request sample_world
  = (Ok (mkResponse 500 [] (json_error "Error updating model.")),
     with_error_logged "Error updating model:"
       (sqlite_unique "models.provider_id, models.model_name") sample_world) /\
  templates_import_handler broken_import_request broken_world
  = (Ok (mkResponse 500 []
           (json_error
              "Failed to import template. Check server logs for details.")),
     with_error_logged "Error importing template:"
       (provider_not_found (val "ghost")) broken_w2).
Proof.
  apply (C7_routes_answer_500_with_fixed_text
           taken_task_request sample_world sample_world
           (sqlite_unique "tasks.task_name")
           clashing_model_request sample_world
           (sqlite_unique "models.provider_id, models.model_name")
           broken_import_request broken_world broken_w2
           (provider_not_found (val "ghost"))).
  - vm_compute. reflexivity.
  - right. reflexivity.
  - reflexivity.
  - reflexivity.
  - vm_compute. reflexivity.
  - reflexivity.
  - vm_compute. reflexivity.
Defined.

(** ** Duplicate natural keys in one YAML file *)

(** C4 on the code: a template in which every file holds the same
    natural key twice.  The provider, model and agent loops each end with
    one row that holds the last record's values.  The task loop does not:
    [createTask] is a plain INSERT, so the second record violates the
    UNIQUE constraint, [importTemplate] throws, and the task row keeps the
    values of the first record. *)
Lemma C4_duplicate_task_name_aborts_import :
  exists w',
    importTemplate "dup" true duplicate_world
    = (Throw (sqlite_unique "tasks.task_name"), w') /\
    model_providers (db w') = [mkProvider 1 "openai" "second" (Some "x")] /\
    models (db w') = [mkModel 1 1 "o3" "second" (Some "x") 0] /\
    agent_roles (db w')
    = [mkAgent 1 "planner" (Some "second")
               (Some [JStr "set_work_completed"]) (Some "") (Some "") None
               (Some "high") (Some "none")] /\
    tasks (db w') = [mkTask 1 "triage" (Some "first")].
Proof. eexists. split_and!; vm_compute; reflexivity. Qed.

(** ** The task loop on a repeated name, in general *)

Lemma import_task_taken (y : TaskYaml) (n : string) (w : World) :
  ty_task_name y = val n ->
  n ∈ map t_task_name (tasks (db w)) ->
  import_task y w = (Throw (sqlite_unique "tasks.task_name"), w).
Proof.
  intros Hy (t & -> & Ht)%list_elem_of_fmap.
  unfold import_task, bind, exec_result, createTask. rewrite Hy. simpl.
  assert (existsb (fun r => bool_decide (t_task_name r = t_task_name t))
                  (tasks (db w)) = true) as ->; [|done].
  apply existsb_exists. exists t. split; [by apply list_elem_of_In|].
  by apply bool_decide_eq_true.
Qed.

Lemma import_task_names (y : TaskYaml) (w w' : World) :
  import_task y w = (Ok tt, w') ->
  (forall n, n ∈ map t_task_name (tasks (db w)) ->
             n ∈ map t_task_name (tasks (db w'))) /\
  (forall n, ty_task_name y = val n -> n ∈ map t_task_name (tasks (db w'))).
Proof.
  unfold import_task, bind, exec_result, print, createTask.
  destruct (bind_param (ty_task_name y)) as [n0|] eqn:Hn; [|done].
  destruct (existsb _ (tasks (db w))); [done|].
  simpl. intros [= <-]. simpl. split.
  - intros n Hin. rewrite fmap_app. apply elem_of_app. by left.
  - intros n Hy. rewrite Hy in Hn. injection Hn as <-.
    rewrite fmap_app. apply elem_of_app. right. by left.
Qed.

Lemma for_of_import_task_names (l : list TaskYaml) (w w' : World) :
  for_of l import_task w = (Ok tt, w') ->
  (forall n, n ∈ map t_task_name (tasks (db w)) ->
             n ∈ map t_task_name (tasks (db w'))) /\
  (forall y n, y ∈ l -> ty_task_name y = val n ->
               n ∈ map t_task_name (tasks (db w'))).
Proof.
  revert w. induction l as [|y l IH]; intros w; simpl.
  - intros [= <-]. split; [done|]. intros y n Hy. by apply elem_of_nil in Hy.
  - unfold bind. destruct (import_task y w) as [[[]|e] w1] eqn:E; [|done].
    intros Hrest. apply import_task_names in E as [Hkeep Hadd].
    apply IH in Hrest as [Hkeep' Hadd']. split.
    + intros n Hn. by apply Hkeep', Hkeep.
    + intros y0 n [->|Hy0]%elem_of_cons Hname.
      * by apply Hkeep', Hadd.
      * by apply (Hadd' y0).
Qed.

(** Whatever the store and the rest of tasks.yaml, a file with the same
    task name in two records makes the task loop throw. *)
Lemma duplicate_task_name_always_throws
    (l1 l2 l3 : list TaskYaml) (y1 y2 : TaskYaml) (n : string) (w : World) :
  ty_task_name y1 = val n ->
  ty_task_name y2 = val n ->
  exists e w',
    for_of (l1 ++ y1 :: l2 ++ y2 :: l3) import_task w = (Throw e, w').
Proof.
  intros H1 H2.
  replace (l1 ++ y1 :: l2 ++ y2 :: l3)
    with ((l1 ++ y1 :: l2) ++ y2 :: l3) by (by rewrite <- app_assoc).
  rewrite for_of_app.
  destruct (for_of (l1 ++ y1 :: l2) import_task w) as [[[]|e] w1] eqn:E;
    [|by eexists _, _].
  apply for_of_import_task_names in E as [_ Hadd].
  simpl. unfold bind.
  rewrite (import_task_taken y2 n w1 H2).
  - by eexists _, _.
  - apply (Hadd y1); [|done]. apply elem_of_app. right. by left.
Qed.

(** ** Tables: rowids and UNIQUE columns under the SQL statements *)

Section table.
Context {A K : Type} (id : A -> Z) (key : A -> K).

Lemma ids_ok_filter (P : A -> Prop) `{forall x, Decision (P x)}
    (rows : list A) (seq : Z) :
  ids_ok id rows seq -> ids_ok id (filter P rows) seq.
Proof.
  intros (Hnd & Hall & Hseq). split_and!; [| |done].
  - eapply sublist_NoDup; [done|]. apply fmap_sublist, sublist_filter.
  - apply Forall_forall. intros r [_ Hr]%list_elem_of_filter.
    rewrite Forall_forall in Hall. by apply Hall.
Qed.

Lemma ids_ok_grow (rows : list A) (seq : Z) :
  ids_ok id rows seq -> ids_ok id rows (seq + 1).
Proof.
  intros (Hnd & Hall & Hseq). split_and!; [done | | lia].
  eapply Forall_impl; [exact Hall|]. intros r Hr. simpl in Hr. lia.
Qed.

Lemma NoDup_key_filter (P : A -> Prop) `{forall x, Decision (P x)}
    (rows : list A) :
  NoDup (map key rows) -> NoDup (map key (filter P rows)).
Proof.
  intros Hnd. eapply sublist_NoDup; [done|].
  apply fmap_sublist, sublist_filter.
Qed.

Lemma ids_ok_snoc (rows : list A) (seq : Z) (r : A) :
  ids_ok id rows seq -> id r = seq + 1 ->
  ids_ok id (rows ++ [r]) (seq + 1).
Proof.
  intros (Hnd & Hall & Hseq) Hid. split_and!; [| |lia].
  - rewrite fmap_app. apply NoDup_app. split_and!; [done| |].
    + intros i Hi Hi'. apply list_elem_of_singleton in Hi'.
      apply list_elem_of_fmap in Hi as (r' & -> & Hr').
      rewrite Forall_forall in Hall. specialize (Hall _ Hr'). lia.
    + apply NoDup_singleton.
  - apply Forall_app. split.
    + eapply Forall_impl; [done|]. simpl. intros; lia.
    + apply Forall_singleton. lia.
Qed.

Lemma NoDup_key_snoc (rows : list A) (r : A) :
  NoDup (map key rows) ->
  (forall r', r' ∈ rows -> key r' <> key r) ->
  NoDup (map key (rows ++ [r])).
Proof.
  intros Hnd Hfresh. rewrite fmap_app. apply NoDup_app. split_and!; [done| |].
  - intros k Hk Hk'. apply list_elem_of_singleton in Hk'.
    apply list_elem_of_fmap in Hk as (r' & -> & Hr'). by apply (Hfresh r').
  - apply NoDup_singleton.
Qed.

(** An UPDATE that leaves the column alone. *)
Lemma update_keeps_column {B} (col : A -> B) (hit : A -> bool)
    (f : A -> A) (rows : list A) :
  (forall r, hit r = true -> col (f r) = col r) ->
  map col (map (fun r => if hit r then f r else r) rows) = map col rows.
Proof.
  intros Hf. rewrite <- list_fmap_compose. apply list_fmap_ext.
  intros i r _. simpl. destruct (hit r) eqn:E; [by apply Hf|done].
Qed.

Lemma ids_ok_update (hit : A -> bool) (f : A -> A) (rows : list A)
    (seq : Z) :
  (forall r, id (f r) = id r) ->
  ids_ok id rows seq ->
  ids_ok id (map (fun r => if hit r then f r else r) rows) seq.
Proof.
  intros Hf (Hnd & Hall & Hseq). split_and!; [| |done].
  - by rewrite update_keeps_column.
  - apply Forall_fmap. eapply Forall_impl; [done|].
    intros r Hr. simpl. destruct (hit r); [by rewrite Hf|done].
Qed.

Lemma Forall_update (P : A -> Prop) (hit : A -> bool) (f : A -> A)
    (rows : list A) :
  (forall r, P r -> hit r = true -> P (f r)) ->
  Forall P rows ->
  Forall P (map (fun r => if hit r then f r else r) rows).
Proof.
  intros Hf Hall. apply Forall_fmap. eapply Forall_impl; [done|].
  intros r Hr. simpl. destruct (hit r) eqn:E; [by apply Hf|done].
Qed.

(** An UPDATE by rowid that sets the UNIQUE column to [n], after the
    engine checked that no other row holds [n]. *)
Lemma update_by_id_keeps_unique (i : Z) (n : K) (hit : A -> bool)
    (f : A -> A) (rows : list A) :
  (forall r, hit r = true <-> id r = i) ->
  NoDup (map id rows) ->
  NoDup (map key rows) ->
  (forall r, key (f r) = n) ->
  (forall r, r ∈ rows -> hit r = false -> key r <> n) ->
  NoDup (map key (map (fun r => if hit r then f r else r) rows)).
Proof.
  intros Hhit Hid Hkey Hf Hother.
  induction rows as [|r rows IH]; [by apply NoDup_nil_2|].
  rewrite !fmap_cons in *.
  apply NoDup_cons in Hid as [Hr Hid]. apply NoDup_cons in Hkey as [Hk Hkey].
  apply NoDup_cons. split.
  - intros Hin. apply list_elem_of_fmap in Hin as (r' & Heq & Hin).
    apply list_elem_of_fmap in Hin as (r0 & -> & Hr0).
    assert (Hne : id r0 <> id r).
    { intros E. apply Hr. rewrite <- E. apply list_elem_of_fmap. by exists r0. }
    assert (Hkne : key r0 <> key r).
    { intros E. apply Hk. rewrite <- E. apply list_elem_of_fmap. by exists r0. }
    destruct (hit r) eqn:H1; destruct (hit r0) eqn:H2.
    + apply Hhit in H1, H2. congruence.
    + rewrite Hf in Heq. apply (Hother r0); [by right|done|done].
    + rewrite Hf in Heq. apply (Hother r); [by left|done|done].
    + congruence.
  - apply IH; [done|done|]. intros r' Hr'. apply Hother. by right.
Qed.
End table.

(** ** The managers keep the database well-formed *)

Lemma safeDisplayName_settled (display_name : js string) (n dn : string) :
  bind_param (safeDisplayName display_name (val n)) = Some dn ->
  safeDisplayName (val dn) (val n) = val dn.
Proof.
  unfold safeDisplayName. destruct display_name as [| |d0]; simpl.
  - intros [= <-]. by destruct (_ && _).
  - intros [= <-]. by destruct (_ && _).
  - destruct (truthy d0 && _) eqn:E; simpl; intros [= <-].
    + by rewrite E.
    + by destruct (truthy n && _).
Qed.

Lemma bind_param_val {A} (x : js A) (a : A) :
  bind_param x = Some a -> x = val a.
Proof. destruct x; simpl; congruence. Qed.

Lemma truthy_js_val {A} `{Truthy A} (x : js A) :
  truthy x = true -> exists a, x = val a /\ truthy a = true.
Proof. destruct x as [| |a]; try done. intros Ha. by exists a. Qed.

Lemma createOrUpdateProvider_invariant d d' id provider_name display_name
    extra_info :
  db_invariant d ->
  createOrUpdateProvider id provider_name display_name extra_info d = Ok d' ->
  db_invariant d'.
Proof.
  intros [[Hids Hnames Hrows] Hm Ha Ht]. unfold createOrUpdateProvider.
  destruct (truthy id) eqn:Hid.
  - apply truthy_js_val in Hid as (i & -> & _). simpl.
    unfold update_provider_by_id.
    destruct (existsb _ (model_providers d)) eqn:Hhit; [|by intros [= <-]].
    destruct (bind_param provider_name) as [n|] eqn:Hn; [|done].
    destruct (bind_param (safeDisplayName _ _)) as [dn|] eqn:Hdn; [|done].
    destruct (existsb _ (model_providers d)) eqn:Hclash in |- *; [done|].
    intros [= <-]. split; try done. simpl. split.
    + by apply ids_ok_update.
    + apply (update_by_id_keeps_unique p_id p_provider_name i n);
        try done; [|apply Hids|].
      * intros r. rewrite bool_decide_eq_true. split; congruence.
      * intros r Hr Hmiss. apply (existsb_false_elem _ _ _ Hclash) in Hr.
        rewrite Hmiss in Hr. simpl in Hr. by apply bool_decide_eq_false in Hr.
    + apply Forall_update; [|done]. intros r _ _. split; simpl; [|by eexists].
      apply bind_param_val in Hn as ->.
      by apply (safeDisplayName_settled display_name).
  - unfold upsert_provider.
    destruct (bind_param provider_name) as [n|] eqn:Hn; [|done].
    destruct (bind_param (safeDisplayName _ _)) as [dn|] eqn:Hdn; [|done].
    apply bind_param_val in Hn as ->.
    apply safeDisplayName_settled in Hdn.
    destruct (existsb _ (model_providers d)) eqn:Hsame; intros [= <-];
      (split; try done); simpl; split.
    + by apply ids_ok_grow, ids_ok_update.
    + rewrite update_keeps_column; [done|].
      intros r Hr. simpl. by apply bool_decide_eq_true in Hr.
    + apply Forall_update; [|done]. intros r _ _. split; simpl; [done|by eexists].
    + by apply ids_ok_snoc.
    + apply NoDup_key_snoc; [done|]. intros r Hr. simpl.
      apply (existsb_false_elem _ _ _ Hsame) in Hr.
      by apply bool_decide_eq_false in Hr.
    + apply Forall_app. split; [done|]. apply Forall_singleton.
      split; simpl; [done|by eexists].
Qed.

Lemma deleteProvider_invariant d id :
  db_invariant d -> db_invariant (deleteProvider id d).
Proof.
  intros [[Hids Hnames Hrows] Hm Ha Ht]. split; try done. simpl. split.
  - by apply ids_ok_filter.
  - by apply NoDup_key_filter.
  - apply Forall_forall. intros r [_ Hr]%list_elem_of_filter.
    rewrite Forall_forall in Hrows. by apply Hrows.
Qed.

Lemma createOrUpdateModel_invariant d d' id provider_id model_name
    display_name extra_info supports_reasoning :
  db_invariant d ->
  createOrUpdateModel id provider_id model_name display_name extra_info
                      supports_reasoning d = Ok d' ->
  db_invariant d'.
Proof.
  intros [Hp [Hids Hkeys] Ha Ht]. unfold createOrUpdateModel.
  destruct (truthy id) eqn:Hid.
  - apply truthy_js_val in Hid as (i & -> & _). simpl.
    unfold update_model_by_id.
    destruct (existsb _ (models d)) eqn:Hhit; [|by intros [= <-]].
    destruct (bind_param provider_id) as [pid|]; [|done].
    destruct (bind_param model_name) as [n|]; [|done].
    destruct (bind_param (default_param display_name model_name)) as [dn|];
      [|done].
    destruct (existsb _ (models d)) eqn:Hclash in |- *; [done|].
    intros [= <-]. split; try done. simpl. split.
    + by apply ids_ok_update.
    + apply (update_by_id_keeps_unique m_id
               (fun r => (m_provider_id r, m_model_name r)) i (pid, n));
        try done; [|apply Hids|].
      * intros r. rewrite bool_decide_eq_true. split; congruence.
      * intros r Hr Hmiss. apply (existsb_false_elem _ _ _ Hclash) in Hr.
        rewrite Hmiss in Hr. simpl in Hr. intros [= H1 H2].
        rewrite !bool_decide_eq_true_2 in Hr by done. done.
  - unfold upsert_model.
    destruct (bind_param provider_id) as [pid|]; [|done].
    destruct (bind_param model_name) as [n|]; [|done].
    destruct (bind_param (default_param display_name model_name)) as [dn|];
      [|done].
    destruct (existsb _ (models d)) eqn:Hsame; intros [= <-];
      (split; try done); simpl; split.
    + by apply ids_ok_grow, ids_ok_update.
    + rewrite update_keeps_column; [done|].
      intros r Hr. simpl. apply andb_true_iff in Hr as [H1 H2].
      apply bool_decide_eq_true in H1, H2. congruence.
    + by apply ids_ok_snoc.
    + apply NoDup_key_snoc; [done|]. intros r Hr. simpl.
      apply (existsb_false_elem _ _ _ Hsame) in Hr. intros [= H1 H2].
      rewrite !bool_decide_eq_true_2 in Hr by done. done.
Qed.

Lemma deleteModel_invariant d id :
  db_invariant d -> db_invariant (deleteModel id d).
Proof.
  intros [Hp [Hids Hkeys] Ha Ht]. split; try done. simpl. split.
  - by apply ids_ok_filter.
  - by apply (NoDup_key_filter (fun r => (m_provider_id r, m_model_name r))).
Qed.

Lemma written_agent_ok (d : AgentDetails) (role : string) (id : Z) :
  role <> "" -> agent_row_ok (written_agent d role id).
Proof.
  intros Hrole. split; simpl; try done; try by eexists.
  - eexists. split; [done|]. apply ensureDefaultTool_includes.
  - eexists. split; [done|]. by apply or_else_truthy.
  - eexists. split; [done|]. by apply or_else_truthy.
Qed.

Lemma setAgentDetails_invariant d d' details :
  db_invariant d -> setAgentDetails details d = Ok d' -> db_invariant d'.
Proof.
  intros [Hp Hm [Hids Hnames Hrows] Ht]. unfold setAgentDetails.
  destruct (ad_agent_role details) as [| |role]; try done.
  destruct (truthy role) eqn:Hrole; simpl; [|done].
  apply truthy_string_true in Hrole.
  destruct (truthy (a_id <$> getAgentByType role d)).
  - intros [= <-]. split; try done. simpl. split.
    + by apply ids_ok_update.
    + by rewrite update_keeps_column.
    + apply Forall_update; [|done]. intros r Hr Hhit.
      apply bool_decide_eq_true in Hhit. rewrite Hhit.
      by apply (written_agent_ok details role (a_id r)).
  - unfold insert_agent.
    destruct (existsb _ (agent_roles d)) eqn:Hsame; [done|].
    intros [= <-]. split; try done. simpl. split.
    + by apply ids_ok_snoc.
    + apply NoDup_key_snoc; [done|]. intros r Hr. simpl.
      apply (existsb_false_elem _ _ _ Hsame) in Hr.
      by apply bool_decide_eq_false in Hr.
    + apply Forall_app. split; [done|]. apply Forall_singleton.
      by apply (written_agent_ok details role).
Qed.

Lemma setAllowedTools_invariant d agent_role tools :
  db_invariant d -> db_invariant (setAllowedTools agent_role tools d).
Proof.
  intros [Hp Hm [Hids Hnames Hrows] Ht]. split; try done. simpl. split.
  - by apply ids_ok_update.
  - by rewrite update_keeps_column.
  - apply Forall_update; [|done]. intros r [] _. split; simpl; try done.
    eexists. split; [done|]. apply ensureDefaultTool_includes.
Qed.

Lemma setDefaultPrompts_invariant d agent_role developerPrompt userPrompt :
  db_invariant d ->
  db_invariant (setDefaultPrompts agent_role developerPrompt userPrompt d).
Proof.
  intros [Hp Hm [Hids Hnames Hrows] Ht]. split; try done. simpl. split.
  - by apply ids_ok_update.
  - by rewrite update_keeps_column.
  - apply Forall_update; [|done]. intros r [] _.
    split; simpl; try done; by eexists.
Qed.

Lemma deleteAgentType_invariant d agent_role :
  db_invariant d -> db_invariant (deleteAgentType agent_role d).
Proof.
  intros [Hp Hm [Hids Hnames Hrows] Ht]. split; try done. simpl. split.
  - by apply ids_ok_filter.
  - by apply NoDup_key_filter.
  - apply Forall_forall. intros r [_ Hr]%list_elem_of_filter.
    rewrite Forall_forall in Hrows. by apply Hrows.
Qed.

Lemma createTask_invariant d d' task_name task_prompt :
  db_invariant d -> createTask task_name task_prompt d = Ok d' ->
  db_invariant d'.
Proof.
  intros [Hp Hm Ha [Hids Hnames]]. unfold createTask.
  destruct (bind_param task_name) as [n|]; [|done].
  destruct (existsb _ (tasks d)) eqn:Hsame; [done|].
  intros [= <-]. split; try done. simpl. split.
  - by apply ids_ok_snoc.
  - apply NoDup_key_snoc; [done|]. intros r Hr. simpl.
    apply (existsb_false_elem _ _ _ Hsame) in Hr.
    by apply bool_decide_eq_false in Hr.
Qed.

Lemma updateTask_invariant d d' n id task_name task_prompt :
  db_invariant d -> updateTask id task_name task_prompt d = Ok (n, d') ->
  db_invariant d'.
Proof.
  intros [Hp Hm Ha [Hids Hnames]]. unfold updateTask.
  destruct (existsb _ (tasks d)) eqn:Hhit; [|by intros [= _ <-]].
  destruct (bind_param task_name) as [name|]; [|done].
  destruct (existsb _ (tasks d)) eqn:Hclash in |- *; [done|].
  intros [= _ <-]. split; try done. simpl. split.
  - by apply ids_ok_update.
  - apply (update_by_id_keeps_unique t_id t_task_name id name);
      try done; [|apply Hids|].
    + intros r. by rewrite bool_decide_eq_true.
    + intros r Hr Hmiss. apply (existsb_false_elem _ _ _ Hclash) in Hr.
      rewrite Hmiss in Hr. simpl in Hr. by apply bool_decide_eq_false in Hr.
Qed.

Lemma deleteTask_invariant d id :
  db_invariant d -> db_invariant (deleteTask id d).2.
Proof.
  intros [Hp Hm Ha [Hids Hnames]]. split; try done. simpl. split.
  - by apply ids_ok_filter.
  - by apply NoDup_key_filter.
Qed.

Lemma empty_db_invariant : db_invariant empty_db.
Proof.
  split; split; simpl; try apply NoDup_nil_2; try apply Forall_nil_2;
    (split_and!; [apply NoDup_nil_2 | apply Forall_nil_2 | done]).
Qed.

Lemma reachable_invariant (d : DB) : reachable d -> db_invariant d.
Proof.
  induction 1;
    eauto using empty_db_invariant, createOrUpdateProvider_invariant,
      deleteProvider_invariant, createOrUpdateModel_invariant,
      deleteModel_invariant, setAgentDetails_invariant,
      setAllowedTools_invariant, setDefaultPrompts_invariant,
      deleteAgentType_invariant, createTask_invariant, updateTask_invariant,
      deleteTask_invariant.
Qed.

(** ** Export and wipe *)

Lemma exportTemplate_run (templateName : string) (w : World) :
  exists w',
    exportTemplate templateName w = (Ok tt, w') /\
    db w' = db w /\
    template_folder w' templateName = snapshot (db w).
Proof.
  unfold exportTemplate, bind, select, saveYAML, print. simpl.
  eexists. split; [reflexivity|]. split; [reflexivity|].
  unfold template_folder. simpl. rewrite !lookup_insert_eq. simpl.
  reflexivity.
Qed.

Lemma for_of_exec {A} (l : list A) (f : A -> DB -> DB) (w : World) :
  for_of l (fun x => exec (f x)) w
  = (Ok tt, mkWorld (foldl (fun d x => f x d) (db w) l)
                    (templates w) (console w)).
Proof.
  revert w. induction l as [|x l IH]; intros w; simpl; [by destruct w|].
  unfold bind, exec at 1. by rewrite IH.
Qed.

Lemma empty_of_no_elem {A} (l : list A) : (forall x, x ∉ l) -> l = [].
Proof. destruct l as [|x l]; [done|]. intros H. destruct (H x). by left. Qed.

Lemma wipe_providers (l : list ProviderRow) (d : DB) :
  (forall r, r ∈ model_providers d -> r ∈ l) ->
  foldl (fun d p => deleteProvider (p_id p) d) d l
  = set_providers [] (model_providers_seq d) d.
Proof.
  revert d. induction l as [|p l IH]; intros d Hall; simpl.
  - destruct d as [rows ? ? ? ? ? ? ?]. unfold set_providers; simpl in *.
    f_equal. apply empty_of_no_elem. intros r Hr. by apply Hall, elem_of_nil in Hr.
  - rewrite IH; [done|]. intros r [Hne Hr]%list_elem_of_filter.
    apply Hall, elem_of_cons in Hr as [->|Hr]; done.
Qed.

Lemma wipe_models (l : list ModelInfo) (d : DB) :
  (forall r, r ∈ models d -> exists i, i ∈ l /\ m_id (mi_row i) = m_id r) ->
  foldl (fun d m => deleteModel (m_id (mi_row m)) d) d l
  = set_models [] (models_seq d) d.
Proof.
  revert d. induction l as [|m l IH]; intros d Hall; simpl.
  - destruct d as [? ? rows ? ? ? ? ?]. unfold set_models; simpl in *.
    f_equal. apply empty_of_no_elem. intros r Hr.
    destruct (Hall r Hr) as (i & Hi & _). by apply elem_of_nil in Hi.
  - rewrite IH; [done|]. intros r [Hne Hr]%list_elem_of_filter.
    destruct (Hall r Hr) as (i & Hi & Hid).
    apply elem_of_cons in Hi as [->|Hi]; [done|]. by exists i.
Qed.

Lemma wipe_agents (l : list AgentRow) (d : DB) :
  (forall r, r ∈ agent_roles d -> r ∈ l) ->
  foldl (fun d a => deleteAgentType (a_agent_role a) d) d l
  = set_agents [] (agent_roles_seq d) d.
Proof.
  revert d. induction l as [|a l IH]; intros d Hall; simpl.
  - destruct d as [? ? ? ? rows ? ? ?]. unfold set_agents; simpl in *.
    f_equal. apply empty_of_no_elem. intros r Hr. by apply Hall, elem_of_nil in Hr.
  - rewrite IH; [done|]. intros r [Hne Hr]%list_elem_of_filter.
    apply Hall, elem_of_cons in Hr as [->|Hr]; done.
Qed.

Lemma wipe_tasks (l : list TaskRow) (d : DB) :
  (forall r, r ∈ tasks d -> r ∈ l) ->
  foldl (fun d t => (deleteTask (t_id t) d).2) d l
  = set_tasks [] (tasks_seq d) d.
Proof.
  revert d. induction l as [|t l IH]; intros d Hall; simpl.
  - destruct d as [? ? ? ? ? ? rows ?]. unfold set_tasks; simpl in *.
    f_equal. apply empty_of_no_elem. intros r Hr. by apply Hall, elem_of_nil in Hr.
  - rewrite IH; [done|]. intros r [Hne Hr]%list_elem_of_filter.
    apply Hall, elem_of_cons in Hr as [->|Hr]; done.
Qed.

Lemma log_wiped_run {A} (rows : list A) (what : string) (w : World) :
  exists c, log_wiped rows what w = (Ok tt, mkWorld (db w) (templates w) c).
Proof.
  unfold log_wiped. case_bool_decide.
  - exists (console w). by destruct w.
  - eexists. reflexivity.
Qed.

Lemma wipe_all_run (w : World) :
  exists w',
    wipe_all w = (Ok tt, w') /\
    templates w' = templates w /\
    db w' = wiped (db w).
Proof.
  unfold wipe_all.
  erewrite bind_ok; [|reflexivity].
  erewrite bind_ok; [|apply for_of_exec].
  rewrite wipe_providers
    by (intros r Hr; unfold listProviders; by rewrite order_by_perm).
  match goal with |- context [bind (log_wiped ?l ?s) _ ?w0] =>
    destruct (log_wiped_run l s w0) as [c1 H1] end.
  erewrite bind_ok; [|exact H1]. clear H1.
  erewrite bind_ok; [|reflexivity].
  erewrite bind_ok; [|apply for_of_exec]. simpl db at 1.
  rewrite wipe_models.
  2:{ intros r Hr. eexists (join_provider _ r). split; [|done].
      unfold listModelsWithProviderInfo.
      rewrite order_by_perm. apply list_elem_of_fmap. by exists r. }
  match goal with |- context [bind (log_wiped ?l ?s) _ ?w0] =>
    destruct (log_wiped_run l s w0) as [c2 H2] end.
  erewrite bind_ok; [|exact H2]. clear H2.
  erewrite bind_ok; [|reflexivity].
  erewrite bind_ok; [|apply for_of_exec]. simpl db at 1.
  rewrite wipe_agents
    by (intros r Hr; unfold listAgentTypes; by rewrite order_by_perm).
  match goal with |- context [bind (log_wiped ?l ?s) _ ?w0] =>
    destruct (log_wiped_run l s w0) as [c3 H3] end.
  erewrite bind_ok; [|exact H3]. clear H3.
  erewrite bind_ok; [|reflexivity].
  erewrite bind_ok; [|apply for_of_exec]. simpl db at 1.
  rewrite wipe_tasks
    by (intros r Hr; unfold getAllTasks; by rewrite order_by_perm).
  match goal with |- context [log_wiped ?l ?s ?w0] =>
    destruct (log_wiped_run l s w0) as [c4 H4] end.
  rewrite H4. eexists. split; [reflexivity|]. split; reflexivity.
Qed.

(** ** Lookups in UNIQUE columns and in [Map]s *)

Lemma NoDup_key_inj {A K} (key : A -> K) (l : list A) (x y : A) :
  NoDup (map key l) -> x ∈ l -> y ∈ l -> key x = key y -> x = y.
Proof.
  induction l as [|z l IH]; intros Hnd Hx Hy Hk; [by apply elem_of_nil in Hx|].
  rewrite fmap_cons in Hnd. apply NoDup_cons in Hnd as [Hz Hnd].
  apply elem_of_cons in Hx as [->|Hx]; apply elem_of_cons in Hy as [->|Hy].
  - done.
  - destruct Hz. rewrite Hk. apply list_elem_of_fmap. by exists y.
  - destruct Hz. rewrite <- Hk. apply list_elem_of_fmap. by exists x.
  - by apply IH.
Qed.

Lemma NoDup_key_transfer {A K1 K2} (f : A -> K1) (g : A -> K2) (l : list A) :
  NoDup (map g l) ->
  (forall x y, x ∈ l -> y ∈ l -> f x = f y -> g x = g y) ->
  NoDup (map f l).
Proof.
  induction l as [|z l IH]; intros Hnd Hfg; [apply NoDup_nil_2|].
  rewrite fmap_cons in *. apply NoDup_cons in Hnd as [Hz Hnd].
  apply NoDup_cons. split.
  - intros (y & Hfy & Hy)%list_elem_of_fmap. apply Hz.
    apply list_elem_of_fmap. exists y. split; [|done].
    apply Hfg; [by left|by right|done].
  - apply IH; [done|]. intros x y Hx Hy. apply Hfg; by right.
Qed.

Lemma new_Map_from {V} (m : gmap string V) (l : list (string * V))
    (k : string) (v : V) :
  (forall v', (k, v') ∈ l -> v' = v) ->
  (k, v) ∈ l \/ m !! k = Some v ->
  foldl (fun m kv => <[kv.1 := kv.2]> m) m l !! k = Some v.
Proof.
  revert m. induction l as [|[k0 v0] l IH]; intros m Huniq Hin; simpl.
  - destruct Hin as [Hin|Hin]; [by apply elem_of_nil in Hin|done].
  - apply IH; [intros v' Hv'; apply Huniq; by right|].
    destruct Hin as [Hin|Hin].
    + apply elem_of_cons in Hin as [[= <- <-]|Hin]; [|by left].
      right. apply lookup_insert_eq.
    + right. destruct (decide (k0 = k)) as [->|Hne].
      * rewrite (Huniq v0) by (by left). apply lookup_insert_eq.
      * by rewrite lookup_insert_ne.
Qed.

Lemma new_Map_lookup {V} (l : list (string * V)) (k : string) (v : V) :
  (k, v) ∈ l -> (forall v', (k, v') ∈ l -> v' = v) ->
  new_Map l !! k = Some v.
Proof. intros Hin Huniq. apply new_Map_from; [done|by left]. Qed.

Lemma getProviderById_unique (d : DB) (p : ProviderRow) :
  NoDup (map p_id (model_providers d)) -> p ∈ model_providers d ->
  getProviderById (p_id p) d = Some p.
Proof. intros Hnd Hin. by apply (find_unique p_id). Qed.

Lemma getProviderById_elem (d : DB) (id : Z) (p : ProviderRow) :
  getProviderById id d = Some p -> p ∈ model_providers d /\ p_id p = id.
Proof.
  intros [Hin Heq]%find_elem. by apply bool_decide_eq_true in Heq.
Qed.

(** ** Loading the providers of an exported file *)

Lemma createOrUpdateProvider_fresh (r : ProviderRow) (d : DB) :
  provider_row_ok r ->
  (forall r', r' ∈ model_providers d -> p_provider_name r' <> p_provider_name r) ->
  createOrUpdateProvider undefined (val (p_provider_name r))
    (val (p_display_name r)) (of_column (p_extra_info r)) d
  = Ok (set_providers
          (model_providers d ++
             [mkProvider (model_providers_seq d + 1) (p_provider_name r)
                         (p_display_name r) (p_extra_info r)])
          (model_providers_seq d + 1) d).
Proof.
  intros [Hdisplay [s Hextra]] Hfresh. unfold createOrUpdateProvider.
  change (truthy (@undefined Z)) with false. cbv iota.
  rewrite Hdisplay, Hextra. simpl bind_param. simpl of_column.
  rewrite or_else_val. unfold upsert_provider.
  rewrite existsb_no_hit; [done|].
  intros r' Hr'. apply bool_decide_eq_false. by apply Hfresh.
Qed.

Lemma import_providers_loop (l : list ProviderRow) (w : World) :
  db_invariant (db w) ->
  Forall provider_row_ok l ->
  NoDup (map p_provider_name l) ->
  (forall r r', r ∈ l -> r' ∈ model_providers (db w) ->
                p_provider_name r' <> p_provider_name r) ->
  exists w' T s,
    for_of (map export_provider l) import_provider w = (Ok tt, w') /\
    templates w' = templates w /\
    db w' = set_providers (model_providers (db w) ++ T) s (db w) /\
    map export_provider T = map export_provider l /\
    db_invariant (db w').
Proof.
  revert w. induction l as [|r l IH]; intros w Hinv Hok Hnd Hfresh.
  - exists w, [], (model_providers_seq (db w)). simpl.
    rewrite app_nil_r. split_and!; try done. by destruct w as [[] ? ?].
  - apply Forall_cons in Hok as [Hr Hok]. rewrite fmap_cons in Hnd.
    apply NoDup_cons in Hnd as [Hrl Hnd].
    pose proof (createOrUpdateProvider_fresh r (db w) Hr
                  (fun r' Hr' => Hfresh r r' (ltac:(by left)) Hr')) as Hstep.
    set (row := mkProvider (model_providers_seq (db w) + 1) (p_provider_name r)
                           (p_display_name r) (p_extra_info r)) in *.
    set (d1 := set_providers (model_providers (db w) ++ [row])
                             (model_providers_seq (db w) + 1) (db w)) in *.
    assert (Hrun : exists c, import_provider (export_provider r) w
                             = (Ok tt, mkWorld d1 (templates w) c)).
    { unfold import_provider, bind, exec_result, print. simpl.
      rewrite Hstep. simpl. by eexists. }
    destruct Hrun as [c Hrun].
    destruct (IH (mkWorld d1 (templates w) c)) as (w' & T & s & H1 & H2 & H3 & H4 & H5);
      try done.
    { simpl. by eapply createOrUpdateProvider_invariant. }
    { intros r0 r' Hr0 Hr'. simpl in Hr'.
      apply elem_of_app in Hr' as [Hr'|Hr'].
      - apply Hfresh; [by right|done].
      - apply list_elem_of_singleton in Hr'. subst r'. simpl.
        intros E. apply Hrl. rewrite E. apply list_elem_of_fmap. by exists r0. }
    exists w', (row :: T), s. split_and!; try done.
    + rewrite fmap_cons. simpl. unfold bind at 1. by rewrite Hrun.
    + rewrite H3. simpl. unfold set_providers. simpl.
      by rewrite <- app_assoc.
    + rewrite !fmap_cons, H4. done.
Qed.

(** ** Loading the models of an exported file *)

Lemma truthy_sr (sr : Z) :
  truthy (if truthy sr then 1 else 0) = truthy sr.
Proof. by destruct (truthy sr). Qed.

Lemma createOrUpdateModel_fresh (mi : ModelInfo) (pid : Z) (d : DB) :
  (forall m', m' ∈ models d ->
     ~ (m_provider_id m' = pid /\ m_model_name m' = m_model_name (mi_row mi))) ->
  createOrUpdateModel undefined (val pid) (val (m_model_name (mi_row mi)))
    (val (m_display_name (mi_row mi))) (of_column (m_extra_info (mi_row mi)))
    (val (truthy (m_supports_reasoning (mi_row mi)))) d
  = Ok (set_models
          (models d ++
             [mkModel (models_seq d + 1) pid (m_model_name (mi_row mi))
                      (m_display_name (mi_row mi)) (m_extra_info (mi_row mi))
                      (if truthy (m_supports_reasoning (mi_row mi))
                       then 1 else 0)])
          (models_seq d + 1) d).
Proof.
  intros Hfresh. unfold createOrUpdateModel.
  change (truthy (@undefined Z)) with false. cbv iota.
  assert (bind_param (default_param (of_column (m_extra_info (mi_row mi)))
                                    (val "")) = m_extra_info (mi_row mi)) as ->
    by (by destruct (m_extra_info (mi_row mi))).
  simpl. unfold upsert_model. rewrite existsb_no_hit; [done|].
  intros m' Hm'. apply andb_false_iff.
  destruct (decide (m_provider_id m' = pid)) as [H1|H1];
    [|left; by apply bool_decide_eq_false].
  right. apply bool_decide_eq_false. intros H2. by apply (Hfresh m').
Qed.

Lemma import_models_loop (provMap : gmap string Z) (l : list ModelInfo)
    (w : World) :
  db_invariant (db w) ->
  (forall mi, mi ∈ l ->
     exists pn p', mi_provider_name mi = Some pn /\
                   provMap !! pn = Some (p_id p') /\
                   getProviderById (p_id p') (db w) = Some p' /\
                   p_provider_name p' = pn) ->
  NoDup (map model_names l) ->
  (forall mi m', mi ∈ l -> m' ∈ models (db w) ->
                 model_names (join_provider (db w) m') <> model_names mi) ->
  exists w' T s,
    for_of (map export_model l) (import_model provMap) w = (Ok tt, w') /\
    templates w' = templates w /\
    db w' = set_models (models (db w) ++ T) s (db w) /\
    map (fun m' => export_model (join_provider (db w) m')) T
    = map export_model l /\
    db_invariant (db w').
Proof.
  revert w. induction l as [|mi l IH]; intros w Hinv Hres Hnd Hfresh.
  - exists w, [], (models_seq (db w)). simpl.
    rewrite app_nil_r. split_and!; try done. by destruct w as [[] ? ?].
  - rewrite fmap_cons in Hnd. apply NoDup_cons in Hnd as [Hmi Hnd].
    destruct (Hres mi) as (pn & p' & Hpn & Hmap & Hget & Hname); [by left|].
    set (row := mkModel (models_seq (db w) + 1) (p_id p')
                        (m_model_name (mi_row mi)) (m_display_name (mi_row mi))
                        (m_extra_info (mi_row mi))
                        (if truthy (m_supports_reasoning (mi_row mi))
                         then 1 else 0)).
    set (d1 := set_models (models (db w) ++ [row]) (models_seq (db w) + 1)
                          (db w)).
    assert (Hstep : createOrUpdateModel undefined (val (p_id p'))
              (val (m_model_name (mi_row mi))) (val (m_display_name (mi_row mi)))
              (of_column (m_extra_info (mi_row mi)))
              (val (truthy (m_supports_reasoning (mi_row mi)))) (db w) = Ok d1).
    { apply createOrUpdateModel_fresh. intros m' Hm' [H1 H2].
      apply (Hfresh mi m'); [by left|done|].
      unfold model_names, join_provider. simpl. rewrite H1, Hget. simpl.
      by rewrite Hname, Hpn, H2. }
    assert (Hview : export_model (join_provider (db w) row) = export_model mi).
    { unfold export_model, join_provider. simpl. rewrite Hget. simpl.
      by rewrite Hname, Hpn, truthy_sr. }
    assert (Hrun : exists c, import_model provMap (export_model mi) w
                             = (Ok tt, mkWorld d1 (templates w) c)).
    { unfold import_model. simpl. rewrite Hpn. simpl. rewrite Hmap. simpl.
      unfold bind, ret, exec_result, print. simpl.
      rewrite Hstep. simpl. by eexists. }
    destruct Hrun as [c Hrun].
    destruct (IH (mkWorld d1 (templates w) c))
      as (w' & T & s & H1 & H2 & H3 & H4 & H5).
    { simpl. by eapply createOrUpdateModel_invariant. }
    { intros mi0 Hmi0. destruct (Hres mi0) as (pn0 & p0 & ?); [by right|].
      by exists pn0, p0. }
    { done. }
    { intros mi0 m' Hmi0 Hm'. simpl in Hm'.
      apply elem_of_app in Hm' as [Hm'|Hm'].
      - apply Hfresh; [by right|done].
      - apply list_elem_of_singleton in Hm'. subst m'.
        assert (Hnm : model_names (join_provider (db w) row) = model_names mi).
        { unfold model_names, join_provider. simpl. rewrite Hget. simpl.
          by rewrite Hname, Hpn. }
        intros E.
        change (join_provider (db (mkWorld d1 (templates w) c)) row)
          with (join_provider (db w) row) in E.
        rewrite Hnm in E. apply Hmi. rewrite E.
        apply list_elem_of_fmap. by exists mi0. }
    exists w', (row :: T), s. split_and!; try done.
    + rewrite fmap_cons. simpl. unfold bind at 1. by rewrite Hrun.
    + rewrite H3. simpl. unfold set_models. simpl. by rewrite <- app_assoc.
    + rewrite !fmap_cons. f_equal; [done|]. apply H4.
Qed.

(** ** Loading the agents of an exported file *)

Lemma or_else_nonempty (s d : string) : s <> "" -> or_else (val s) d = s.
Proof. intros H%truthy_string_true. simpl. by rewrite H. Qed.

Lemma setAgentDetails_fresh (ai : AgentInfo) (model_id : js Z) (d : DB) :
  agent_row_ok (ai_row ai) ->
  (forall r', r' ∈ agent_roles d -> a_agent_role r' <> a_agent_role (ai_row ai)) ->
  setAgentDetails (agent_details (export_agent ai) model_id) d
  = Ok (set_agents
          (agent_roles d ++
             [mkAgent (agent_roles_seq d + 1) (a_agent_role (ai_row ai))
                      (a_agent_description (ai_row ai))
                      (a_allowed_tools (ai_row ai))
                      (a_default_developer_prompt (ai_row ai))
                      (a_default_user_prompt (ai_row ai))
                      (bind_param model_id)
                      (a_reasoning_level (ai_row ai))
                      (a_tool_choice (ai_row ai))])
          (agent_roles_seq d + 1) d).
Proof.
  intros [Hrole [ds Hds] (tl & Htl & Hinc) [dv Hdv] [us Hus]
          (rl & Hrl & Hrl') (tc & Htc & Htc')] Hfresh.
  unfold setAgentDetails, agent_details, export_agent. simpl.
  apply truthy_string_true in Hrole as Hrole'. rewrite Hrole'. simpl.
  assert (getAgentByType (a_agent_role (ai_row ai)) d = None) as ->.
  { unfold getAgentByType. destruct (find _ _) as [r'|] eqn:E; [|done].
    apply find_elem in E as [Hin Heq]. apply bool_decide_eq_true in Heq.
    by destruct (Hfresh r' Hin). }
  change (truthy (a_id <$> None)) with false. cbv iota.
  rewrite Hds, Htl, Hdv, Hus, Hrl, Htc. simpl of_column. simpl default.
  rewrite !or_else_val, !or_else_nonempty by done.
  rewrite ensureDefaultTool_fixed by done.
  unfold insert_agent. rewrite existsb_no_hit; [done|].
  intros r' Hr'. apply bool_decide_eq_false. by apply Hfresh.
Qed.

Lemma import_agents_loop (modelMap : gmap string Z) (l : list AgentInfo)
    (w : World) :
  db_invariant (db w) ->
  Forall (fun ai => agent_row_ok (ai_row ai)) l ->
  NoDup (map (fun ai => a_agent_role (ai_row ai)) l) ->
  (forall ai r', ai ∈ l -> r' ∈ agent_roles (db w) ->
                 a_agent_role r' <> a_agent_role (ai_row ai)) ->
  (forall ai, ai ∈ l ->
     (ai_provider_name ai = None /\ ai_model_name ai = None) \/
     (exists pn mn m',
        ai_provider_name ai = Some pn /\ ai_model_name ai = Some mn /\
        pn <> "" /\ mn <> "" /\
        modelMap !! model_key (val pn) (val mn) = Some (m_id m') /\
        find (fun r => bool_decide (m_id r = m_id m')) (models (db w))
        = Some m' /\
        m_model_name m' = mn /\
        mi_provider_name (join_provider (db w) m') = Some pn)) ->
  exists w' T s,
    for_of (map export_agent l) (import_agent modelMap) w = (Ok tt, w') /\
    templates w' = templates w /\
    db w' = set_agents (agent_roles (db w) ++ T) s (db w) /\
    map (fun r' => export_agent (join_model (db w) r')) T
    = map export_agent l /\
    Forall (fun r' => forall id, a_model_id r' = Some id ->
                        exists m, m ∈ models (db w) /\ m_id m = id) T /\
    db_invariant (db w').
Proof.
  revert w. induction l as [|ai l IH]; intros w Hinv Hok Hnd Hfresh Hlink.
  - exists w, [], (agent_roles_seq (db w)). simpl.
    rewrite app_nil_r. split_and!; try done. by destruct w as [[] ? ?].
  - apply Forall_cons in Hok as [Hai Hok]. rewrite fmap_cons in Hnd.
    apply NoDup_cons in Hnd as [Hail Hnd].
    assert (Hstep : exists model_id c,
      let row := mkAgent (agent_roles_seq (db w) + 1) (a_agent_role (ai_row ai))
                   (a_agent_description (ai_row ai))
                   (a_allowed_tools (ai_row ai))
                   (a_default_developer_prompt (ai_row ai))
                   (a_default_user_prompt (ai_row ai))
                   model_id
                   (a_reasoning_level (ai_row ai))
                   (a_tool_choice (ai_row ai)) in
      let d1 := set_agents (agent_roles (db w) ++ [row])
                           (agent_roles_seq (db w) + 1) (db w) in
      import_agent modelMap (export_agent ai) w
      = (Ok tt, mkWorld d1 (templates w) c) /\
      setAgentDetails (agent_details (export_agent ai)
                         (match model_id with Some i => val i | None => null end))
                      (db w) = Ok d1 /\
      export_agent (join_model (db w) row) = export_agent ai /\
      (forall id, model_id = Some id ->
                  exists m, m ∈ models (db w) /\ m_id m = id)).
    { destruct (Hlink ai) as [[Hp Hm]|(pn & mn & m' & Hp & Hm & Hpn & Hmn
                                         & Hmap & Hfind & Hname & Hprov)];
        [by left| |].
      - exists None. eexists. cbv zeta. split_and!.
        + unfold import_agent. simpl ay_provider_name. rewrite Hp. simpl.
          unfold bind, print, ret, exec_result. simpl.
          rewrite (setAgentDetails_fresh ai null (db w)); [|done|].
          * simpl. reflexivity.
          * intros r' Hr'. apply (Hfresh ai); [by left|done].
        + apply (setAgentDetails_fresh ai null (db w)); [done|].
          intros r' Hr'. apply (Hfresh ai); [by left|done].
        + unfold export_agent, join_model, linked_model. simpl.
          by rewrite Hp, Hm.
        + discriminate.
      - exists (Some (m_id m')). eexists. cbv zeta. split_and!.
        + unfold import_agent. simpl ay_provider_name. simpl ay_model_name.
          rewrite Hp, Hm. simpl of_column.
          apply truthy_string_true in Hpn, Hmn.
          change (truthy (val pn)) with (truthy pn).
          change (truthy (val mn)) with (truthy mn).
          rewrite Hpn, Hmn. simpl andb. cbv iota.
          unfold Map_get. rewrite Hmap. simpl is_nullish. cbv iota.
          unfold bind, print, ret, exec_result. simpl.
          rewrite (setAgentDetails_fresh ai (val (m_id m')) (db w)); [|done|].
          * simpl. reflexivity.
          * intros r' Hr'. apply (Hfresh ai); [by left|done].
        + apply (setAgentDetails_fresh ai (val (m_id m')) (db w)); [done|].
          intros r' Hr'. apply (Hfresh ai); [by left|done].
        + unfold export_agent, join_model, linked_model. simpl.
          rewrite Hfind. simpl. unfold join_provider in Hprov. simpl in Hprov.
          by rewrite Hprov, Hname, Hp, Hm.
        + intros id [= <-]. exists m'. split; [|done].
          by apply find_elem in Hfind as [Hin _]. }
    destruct Hstep as (model_id & c & Hrun & Hset & Hview & Hfound).
    cbv zeta in Hrun, Hset, Hview.
    set (row := mkAgent (agent_roles_seq (db w) + 1) (a_agent_role (ai_row ai))
                  (a_agent_description (ai_row ai)) (a_allowed_tools (ai_row ai))
                  (a_default_developer_prompt (ai_row ai))
                  (a_default_user_prompt (ai_row ai)) model_id
                  (a_reasoning_level (ai_row ai)) (a_tool_choice (ai_row ai)))
      in *.
    set (d1 := set_agents (agent_roles (db w) ++ [row])
                          (agent_roles_seq (db w) + 1) (db w)) in *.
    destruct (IH (mkWorld d1 (templates w) c))
      as (w' & T & s & H1 & H2 & H3 & H4 & H6 & H5).
    { simpl. by eapply setAgentDetails_invariant. }
    { done. }
    { done. }
    { intros ai0 r' Hai0 Hr'. simpl in Hr'.
      apply elem_of_app in Hr' as [Hr'|Hr'].
      - apply Hfresh; [by right|done].
      - apply list_elem_of_singleton in Hr'. subst r'. simpl.
        intros E. apply Hail. rewrite E. apply list_elem_of_fmap. by exists ai0. }
    { intros ai0 Hai0. apply (Hlink ai0). by right. }
    exists w', (row :: T), s. split_and!; try done.
    + rewrite fmap_cons. simpl. unfold bind at 1. by rewrite Hrun.
    + rewrite H3. simpl. unfold set_agents. simpl. by rewrite <- app_assoc.
    + rewrite !fmap_cons. f_equal; [done|]. apply H4.
    + apply Forall_cons. split; [exact Hfound | exact H6].
Qed.

(** ** Loading the tasks of an exported file *)

Lemma createTask_fresh (t : TaskRow) (d : DB) :
  (forall t', t' ∈ tasks d -> t_task_name t' <> t_task_name t) ->
  createTask (val (t_task_name t)) (of_column (t_task_prompt t)) d
  = Ok (set_tasks
          (tasks d ++ [mkTask (tasks_seq d + 1) (t_task_name t)
                              (t_task_prompt t)])
          (tasks_seq d + 1) d).
Proof.
  intros Hfresh. unfold createTask. simpl.
  rewrite existsb_no_hit.
  - by destruct (t_task_prompt t).
  - intros t' Ht'. apply bool_decide_eq_false. by apply Hfresh.
Qed.

Lemma import_tasks_loop (l : list TaskRow) (w : World) :
  db_invariant (db w) ->
  NoDup (map t_task_name l) ->
  (forall t t', t ∈ l -> t' ∈ tasks (db w) -> t_task_name t' <> t_task_name t) ->
  exists w' T s,
    for_of (map export_task l) import_task w = (Ok tt, w') /\
    templates w' = templates w /\
    db w' = set_tasks (tasks (db w) ++ T) s (db w) /\
    map export_task T = map export_task l /\
    db_invariant (db w').
Proof.
  revert w. induction l as [|t l IH]; intros w Hinv Hnd Hfresh.
  - exists w, [], (tasks_seq (db w)). simpl.
    rewrite app_nil_r. split_and!; try done. by destruct w as [[] ? ?].
  - rewrite fmap_cons in Hnd. apply NoDup_cons in Hnd as [Htl Hnd].
    pose proof (createTask_fresh t (db w)
                  (fun t' Ht' => Hfresh t t' (ltac:(by left)) Ht')) as Hstep.
    set (row := mkTask (tasks_seq (db w) + 1) (t_task_name t)
                       (t_task_prompt t)) in *.
    set (d1 := set_tasks (tasks (db w) ++ [row]) (tasks_seq (db w) + 1)
                         (db w)) in *.
    assert (Hrun : exists c, import_task (export_task t) w
                             = (Ok tt, mkWorld d1 (templates w) c)).
    { unfold import_task, bind, exec_result, print. simpl.
      rewrite Hstep. simpl. by eexists. }
    destruct Hrun as [c Hrun].
    destruct (IH (mkWorld d1 (templates w) c))
      as (w' & T & s & H1 & H2 & H3 & H4 & H5); try done.
    { simpl. by eapply createTask_invariant. }
    { intros t0 t' Ht0 Ht'. simpl in Ht'.
      apply elem_of_app in Ht' as [Ht'|Ht'].
      - apply Hfresh; [by right|done].
      - apply list_elem_of_singleton in Ht'. subst t'. simpl.
        intros E. apply Htl. rewrite E. apply list_elem_of_fmap. by exists t0. }
    exists w', (row :: T), s. split_and!; try done.
    + rewrite fmap_cons. simpl. unfold bind at 1. by rewrite Hrun.
    + rewrite H3. simpl. unfold set_tasks. simpl. by rewrite <- app_assoc.
    + rewrite !fmap_cons, H4. done.
Qed.

Lemma wiped_invariant (d : DB) : db_invariant d -> db_invariant (wiped d).
Proof.
  intros [[(_ & _ & H1) _ _] [(_ & _ & H2) _] [(_ & _ & H3) _ _]
          [(_ & _ & H4) _]].
  split; split; simpl; try apply NoDup_nil_2; try apply Forall_nil_2;
    (split_and!; [apply NoDup_nil_2 | apply Forall_nil_2 | done]).
Qed.

(** ** The four phases of an import of an exported template *)

Section roundtrip.
(** [d] is the database that was exported. *)
Variable d : DB.
Hypothesis d_invariant : db_invariant d.
Hypothesis d_providers : models_have_providers d.
Hypothesis d_links : agent_links_resolvable d.
Variable templateName : string.

Lemma import_providers_run (w : World) :
  db_invariant (db w) ->
  model_providers (db w) = [] ->
  providers_yaml (template_folder w templateName)
  = map export_provider (listProviders d) ->
  exists w' T s,
    import_providers templateName w
    = (Ok (new_Map (map (fun p => (p_provider_name p, p_id p))
                        (listProviders (db w')))), w') /\
    templates w' = templates w /\
    db w' = set_providers T s (db w) /\
    map export_provider T = map export_provider (listProviders d) /\
    db_invariant (db w').
Proof.
  intros Hinv Hempty Hfile.
  destruct d_invariant as [[_ Hnames Hrows] _ _ _].
  destruct (import_providers_loop (listProviders d) w)
    as (w' & T & s & H1 & H2 & H3 & H4 & H5).
  - done.
  - unfold listProviders. by rewrite order_by_perm.
  - unfold listProviders. by rewrite order_by_perm.
  - intros r r' _ Hr'. rewrite Hempty in Hr'. by apply elem_of_nil in Hr'.
  - rewrite Hempty in H3. simpl in H3.
    exists (mkWorld (db w') (templates w')
                    (console w' ++
                       [console_log ("[import] Inserted/updated "
                          +:+ count_of (providers_yaml
                                          (template_folder w templateName))
                          +:+ " providers")])), T, s.
    split_and!; try done.
    unfold import_providers. unfold bind at 1, loadYAML at 1.
    simpl file_content. rewrite Hfile.
    erewrite bind_ok; [|exact H1]. reflexivity.
Qed.

(** The provider of an exported model is found again, by name, in the
    map built from the re-loaded providers. *)
Lemma provider_found_again (w : World) (mi : ModelInfo) :
  db_invariant (db w) ->
  map export_provider (model_providers (db w))
  = map export_provider (listProviders d) ->
  mi ∈ listModelsWithProviderInfo d ->
  exists pn p',
    mi_provider_name mi = Some pn /\
    new_Map (map (fun p => (p_provider_name p, p_id p))
                 (listProviders (db w))) !! pn = Some (p_id p') /\
    getProviderById (p_id p') (db w) = Some p' /\
    p_provider_name p' = pn.
Proof.
  intros [[(Hids & _) Hnames _] _ _ _] Hsame Hmi.
  unfold listModelsWithProviderInfo in Hmi. rewrite order_by_perm in Hmi.
  apply list_elem_of_fmap in Hmi as (m & -> & Hm).
  destruct (d_providers m Hm) as [p Hp].
  apply getProviderById_elem in Hp as Hp'. destruct Hp' as [Hpin _].
  assert (Hex : export_provider p ∈ map export_provider (model_providers (db w))).
  { rewrite Hsame. apply list_elem_of_fmap. exists p. split; [done|].
    unfold listProviders. by rewrite order_by_perm. }
  apply list_elem_of_fmap in Hex as (p' & Heq & Hp'in).
  assert (Hname : p_provider_name p' = p_provider_name p).
  { unfold export_provider in Heq. by injection Heq as -> _ _. }
  exists (p_provider_name p), p'. split_and!.
  - unfold join_provider. simpl. by rewrite Hp.
  - apply new_Map_lookup.
    + apply list_elem_of_fmap. exists p'. split; [by rewrite Hname|].
      unfold listProviders. by rewrite order_by_perm.
    + intros v' (p'' & Hpair & Hp'')%list_elem_of_fmap.
      unfold listProviders in Hp''. rewrite order_by_perm in Hp''.
      injection Hpair as Hn ->. f_equal.
      apply (NoDup_key_inj p_provider_name (model_providers (db w)));
        try done. congruence.
  - by apply getProviderById_unique.
  - done.
Qed.

Lemma exported_model_names_unique :
  NoDup (map model_names (listModelsWithProviderInfo d)).
Proof.
  destruct d_invariant as [[_ Hnames _] [_ Hkeys] _ _].
  unfold listModelsWithProviderInfo. rewrite order_by_perm.
  rewrite <- list_fmap_compose.
  apply (NoDup_key_transfer _ (fun r => (m_provider_id r, m_model_name r)));
    [done|].
  intros m1 m2 Hm1 Hm2. unfold model_names, join_provider. simpl.
  destruct (d_providers m1 Hm1) as [p1 Hp1].
  destruct (d_providers m2 Hm2) as [p2 Hp2].
  rewrite Hp1, Hp2. simpl. intros [= Hn Hmn].
  apply getProviderById_elem in Hp1 as [Hin1 Hid1].
  apply getProviderById_elem in Hp2 as [Hin2 Hid2].
  assert (p1 = p2) as ->
    by (by apply (NoDup_key_inj p_provider_name (model_providers d))).
  congruence.
Qed.

Lemma import_models_run (w : World) :
  db_invariant (db w) ->
  models (db w) = [] ->
  map export_provider (model_providers (db w))
  = map export_provider (listProviders d) ->
  models_yaml (template_folder w templateName)
  = map export_model (listModelsWithProviderInfo d) ->
  exists w' T s,
    import_models templateName
      (new_Map (map (fun p => (p_provider_name p, p_id p))
                    (listProviders (db w)))) w
    = (Ok (new_Map
             (map (fun m => (model_key (of_column (mi_provider_name m))
                                       (val (m_model_name (mi_row m))),
                             m_id (mi_row m)))
                  (listModelsWithProviderInfo (db w')))), w') /\
    templates w' = templates w /\
    db w' = set_models T s (db w) /\
    map (fun m' => export_model (join_provider (db w) m')) T
    = map export_model (listModelsWithProviderInfo d) /\
    db_invariant (db w').
Proof.
  intros Hinv Hempty Hsame Hfile.
  destruct (import_models_loop
              (new_Map (map (fun p => (p_provider_name p, p_id p))
                            (listProviders (db w))))
              (listModelsWithProviderInfo d) w)
    as (w' & T & s & H1 & H2 & H3 & H4 & H5).
  - done.
  - intros mi Hmi. by apply provider_found_again.
  - apply exported_model_names_unique.
  - intros mi m' _ Hm'. rewrite Hempty in Hm'. by apply elem_of_nil in Hm'.
  - rewrite Hempty in H3. simpl in H3.
    exists (mkWorld (db w') (templates w')
                    (console w' ++
                       [console_log ("[import] Inserted/updated "
                          +:+ count_of (models_yaml
                                          (template_folder w templateName))
                          +:+ " models")])), T, s.
    split_and!; try done.
    unfold import_models. unfold bind at 1, loadYAML at 1.
    simpl file_content. rewrite Hfile.
    erewrite bind_ok; [|exact H1]. reflexivity.
Qed.
Lemma of_column_inj {A} (x y : option A) :
  of_column x = of_column y -> x = y.
Proof. destruct x, y; simpl; congruence. Qed.

Lemma export_model_names (mi1 mi2 : ModelInfo) :
  export_model mi1 = export_model mi2 ->
  mi_provider_name mi1 = mi_provider_name mi2 /\
  m_model_name (mi_row mi1) = m_model_name (mi_row mi2).
Proof.
  intros H. split.
  - apply of_column_inj. exact (f_equal my_provider_name H).
  - pose proof (f_equal my_model_name H) as Hn. simpl in Hn. congruence.
Qed.

Lemma linked_model_elem (a : AgentRow) (m : ModelRow) (d0 : DB) :
  linked_model d0 a = Some m -> m ∈ models d0.
Proof.
  unfold linked_model. destruct (a_model_id a); simpl; [|done].
  by intros [? _]%find_elem.
Qed.

(** In a well-formed database the provider's name and the model's name
    identify the model row. *)
Lemma model_names_identify (d0 : DB) (m1 m2 : ModelRow) (pn : string) :
  db_invariant d0 ->
  m1 ∈ models d0 -> m2 ∈ models d0 ->
  mi_provider_name (join_provider d0 m1) = Some pn ->
  mi_provider_name (join_provider d0 m2) = Some pn ->
  m_model_name m1 = m_model_name m2 ->
  m1 = m2.
Proof.
  intros [[_ Hnames _] [_ Hkeys] _ _] Hm1 Hm2.
  unfold join_provider. simpl.
  destruct (getProviderById (m_provider_id m1) d0) as [p1|] eqn:Hp1; [|done].
  destruct (getProviderById (m_provider_id m2) d0) as [p2|] eqn:Hp2; [|done].
  simpl. intros [= Hn1] [= Hn2] Hmn.
  apply getProviderById_elem in Hp1 as [Hin1 Hid1].
  apply getProviderById_elem in Hp2 as [Hin2 Hid2].
  assert (p1 = p2) as ->.
  { apply (NoDup_key_inj p_provider_name (model_providers d0)); try done.
    congruence. }
  apply (NoDup_key_inj (fun r => (m_provider_id r, m_model_name r))
                       (models d0)); try done.
  simpl. congruence.
Qed.

(** The model an exported agent points to is found again, by its key,
    in the map built from the re-loaded models. *)
Lemma model_found_again (w : World) (ai : AgentInfo) :
  db_invariant (db w) ->
  map (fun m' => export_model (join_provider (db w) m')) (models (db w))
  = map export_model (listModelsWithProviderInfo d) ->
  ai ∈ listAgentTypesWithModelInfo d ->
  (ai_provider_name ai = None /\ ai_model_name ai = None) \/
  (exists pn mn m',
     ai_provider_name ai = Some pn /\ ai_model_name ai = Some mn /\
     pn <> "" /\ mn <> "" /\
     new_Map
       (map (fun m => (model_key (of_column (mi_provider_name m))
                                 (val (m_model_name (mi_row m))),
                       m_id (mi_row m)))
            (listModelsWithProviderInfo (db w)))
       !! model_key (val pn) (val mn) = Some (m_id m') /\
     find (fun r => bool_decide (m_id r = m_id m')) (models (db w))
     = Some m' /\
     m_model_name m' = mn /\
     mi_provider_name (join_provider (db w) m') = Some pn).
Proof.
  intros Hinv Hsame Hai.
  unfold listAgentTypesWithModelInfo in Hai.
  apply list_elem_of_fmap in Hai as (a & -> & Ha).
  unfold listAgentTypes in Ha. rewrite order_by_perm in Ha.
  destruct (linked_model d a) as [m|] eqn:Hl.
  2:{ left. unfold join_model. by rewrite Hl. }
  right. apply linked_model_elem in Hl as Hm.
  destruct (d_providers m Hm) as [p Hp].
  destruct (d_links a m Ha Hl) as (Hpn & Hmn & Huniq).
  assert (Hjoin : mi_provider_name (join_provider d m)
                  = Some (p_provider_name p)).
  { unfold join_provider. simpl. by rewrite Hp. }
  (* the re-loaded counterpart of [m] *)
  assert (Hex : export_model (join_provider d m)
                ∈ map (fun m' => export_model (join_provider (db w) m'))
                      (models (db w))).
  { rewrite Hsame. apply list_elem_of_fmap. exists (join_provider d m).
    split; [done|]. unfold listModelsWithProviderInfo.
    rewrite order_by_perm. apply list_elem_of_fmap. by exists m. }
  apply list_elem_of_fmap in Hex as (m' & Heq & Hm').
  apply export_model_names in Heq as [Hpn' Hmn'].
  rewrite Hjoin in Hpn'. simpl in Hmn'. symmetry in Hpn', Hmn'.
  exists (p_provider_name p), (m_model_name m), m'. split_and!.
  - unfold join_model. rewrite Hl. simpl. by rewrite Hp.
  - unfold join_model. by rewrite Hl.
  - intros E. apply Hpn. by rewrite Hjoin, E.
  - done.
  - apply new_Map_lookup.
    + apply list_elem_of_fmap. exists (join_provider (db w) m').
      split; [rewrite Hpn'; simpl; by rewrite Hmn'|].
      unfold listModelsWithProviderInfo. rewrite order_by_perm.
      apply list_elem_of_fmap. by exists m'.
    + intros v' (mi'' & Hpair & Hmi'')%list_elem_of_fmap.
      unfold listModelsWithProviderInfo in Hmi''.
      rewrite order_by_perm in Hmi''.
      apply list_elem_of_fmap in Hmi'' as (m'' & -> & Hm'').
      injection Hpair as Hkey ->. simpl. f_equal.
      (* the exported counterpart of [m''] *)
      assert (Hex2 : export_model (join_provider (db w) m'')
                     ∈ map export_model (listModelsWithProviderInfo d)).
      { rewrite <- Hsame. apply list_elem_of_fmap. by exists m''. }
      apply list_elem_of_fmap in Hex2 as (mi2 & Heq2 & Hmi2).
      unfold listModelsWithProviderInfo in Hmi2.
      rewrite order_by_perm in Hmi2.
      apply list_elem_of_fmap in Hmi2 as (m2 & -> & Hm2).
      apply export_model_names in Heq2 as [Hc1 Hc2]. simpl in Hc2.
      destruct (Huniq m2 Hm2) as [Hn2 Hmn2].
      { unfold model_key_of. rewrite <- Hc1, <- Hc2, Hjoin.
        symmetry. exact Hkey. }
      apply (model_names_identify (db w) m'' m' (p_provider_name p));
        try done.
      * by rewrite Hc1, Hn2.
      * by rewrite Hc2, Hmn2.
  - destruct Hinv as [_ [(Hids & _) _] _ _]. by apply (find_unique m_id).
  - done.
  - done.
Qed.

Lemma import_agents_run (w : World) :
  db_invariant (db w) ->
  agent_roles (db w) = [] ->
  map (fun m' => export_model (join_provider (db w) m')) (models (db w))
  = map export_model (listModelsWithProviderInfo d) ->
  agents_yaml (template_folder w templateName)
  = map export_agent (listAgentTypesWithModelInfo d) ->
  exists w' T s,
    import_agents templateName
      (new_Map
         (map (fun m => (model_key (of_column (mi_provider_name m))
                                   (val (m_model_name (mi_row m))),
                         m_id (mi_row m)))
              (listModelsWithProviderInfo (db w)))) w
    = (Ok tt, w') /\
    templates w' = templates w /\
    db w' = set_agents T s (db w) /\
    map (fun r' => export_agent (join_model (db w) r')) T
    = map export_agent (listAgentTypesWithModelInfo d) /\
    Forall (fun r' => forall id, a_model_id r' = Some id ->
                        exists m, m ∈ models (db w) /\ m_id m = id) T /\
    db_invariant (db w').
Proof.
  intros Hinv Hempty Hsame Hfile.
  destruct d_invariant as [_ _ [_ Hnames Hrows] _].
  destruct (import_agents_loop
              (new_Map
                 (map (fun m => (model_key (of_column (mi_provider_name m))
                                           (val (m_model_name (mi_row m))),
                                 m_id (mi_row m)))
                      (listModelsWithProviderInfo (db w))))
              (listAgentTypesWithModelInfo d) w)
    as (w' & T & s & H1 & H2 & H3 & H4 & H6 & H5).
  - done.
  - unfold listAgentTypesWithModelInfo, listAgentTypes.
    apply Forall_fmap. rewrite order_by_perm.
    eapply Forall_impl; [done|]. by intros a Ha.
  - unfold listAgentTypesWithModelInfo, listAgentTypes.
    rewrite <- list_fmap_compose. by rewrite order_by_perm.
  - intros ai r' _ Hr'. rewrite Hempty in Hr'. by apply elem_of_nil in Hr'.
  - intros ai Hai. by apply model_found_again.
  - rewrite Hempty in H3. simpl in H3.
    exists (mkWorld (db w') (templates w')
                    (console w' ++
                       [console_log ("[import] Inserted/updated "
                          +:+ count_of (agents_yaml
                                          (template_folder w templateName))
                          +:+ " agents")])), T, s.
    split_and!; try done.
    unfold import_agents. unfold bind at 1, loadYAML at 1.
    simpl file_content. rewrite Hfile.
    unfold bind. rewrite H1. reflexivity.
Qed.

Lemma import_tasks_run (w : World) :
  db_invariant (db w) ->
  tasks (db w) = [] ->
  tasks_yaml (template_folder w templateName)
  = map export_task (getAllTasks d) ->
  exists w' T s,
    import_tasks templateName w = (Ok tt, w') /\
    templates w' = templates w /\
    db w' = set_tasks T s (db w) /\
    map export_task T = map export_task (getAllTasks d) /\
    db_invariant (db w').
Proof.
  intros Hinv Hempty Hfile.
  destruct d_invariant as [_ _ _ [_ Hnames]].
  destruct (import_tasks_loop (getAllTasks d) w)
    as (w' & T & s & H1 & H2 & H3 & H4 & H5).
  - done.
  - unfold getAllTasks. by rewrite order_by_perm.
  - intros t t' _ Ht'. rewrite Hempty in Ht'. by apply elem_of_nil in Ht'.
  - rewrite Hempty in H3. simpl in H3.
    exists (mkWorld (db w') (templates w')
                    (console w' ++
                       [console_log ("[import] Inserted/updated "
                          +:+ count_of (tasks_yaml
                                          (template_folder w templateName))
                          +:+ " tasks")])), T, s.
    split_and!; try done.
    unfold import_tasks. unfold bind at 1, loadYAML at 1.
    simpl file_content. rewrite Hfile.
    unfold bind. rewrite H1. reflexivity.
Qed.
End roundtrip.

(** ** The store as the specification sees it, and the managers' queries *)

Lemma head_filter_find {A} (P : A -> Prop) `{forall x, Decision (P x)}
    (l : list A) :
  head (filter P l) = find (fun x => bool_decide (P x)) l.
Proof.
  induction l as [|a l IH]; [reflexivity|]. simpl.
  destruct (decide (P a)) as [Hp|Hp].
  - by rewrite filter_cons_True, bool_decide_eq_true_2.
  - by rewrite filter_cons_False, bool_decide_eq_false_2.
Qed.

Lemma provider_with_id_get (d : DB) (id : Z) :
  provider_with_id d id = getProviderById id d.
Proof. apply head_filter_find. Qed.

Lemma model_of_linked (d : DB) (a : AgentRow) :
  model_of d a = linked_model d a.
Proof.
  unfold model_of, linked_model. destruct (a_model_id a); [|reflexivity].
  apply head_filter_find.
Qed.

Lemma read_export_provider (p : ProviderRow) :
  read_provider (export_provider p) = Some (provider_entity p).
Proof. unfold read_provider, provider_entity. simpl. by destruct (p_extra_info p). Qed.

Lemma value_of_column {A} (c : option A) : value_of (of_column c) = c.
Proof. by destruct c. Qed.

Lemma read_export_model (d : DB) (m : ModelRow) :
  read_model (export_model (join_provider d m)) = Some (model_entity d m).
Proof.
  unfold read_model, model_entity, export_model, join_provider. simpl.
  by rewrite !value_of_column, provider_with_id_get.
Qed.

Lemma read_export_agent (d : DB) (a : AgentRow) :
  is_Some (a_allowed_tools a) ->
  read_agent (export_agent (join_model d a)) = Some (agent_entity d a).
Proof.
  intros [l Hl]. unfold read_agent, agent_entity, export_agent, join_model.
  simpl. rewrite !value_of_column, Hl, model_of_linked. simpl.
  do 2 f_equal. destruct (linked_model d a) as [m|]; [|reflexivity].
  simpl. by rewrite provider_with_id_get.
Qed.

Lemma read_export_task (t : TaskRow) :
  read_task (export_task t) = Some (task_entity t).
Proof. unfold read_task, task_entity. simpl. by rewrite value_of_column. Qed.

Lemma Permutation_Some_inv {A} (l1 l2 : list A) :
  map Some l1 ≡ₚ map Some l2 -> l1 ≡ₚ l2.
Proof.
  intros Hperm.
  assert (forall l : list A, omap id (map Some l) = l) as Hback.
  { induction l as [|a l IH]; [reflexivity|]. simpl. f_equal. exact IH. }
  rewrite <- (Hback l1), <- (Hback l2). by rewrite Hperm.
Qed.

Lemma Permutation_of_eq {A} (l1 l2 : list A) : l1 = l2 -> l1 ≡ₚ l2.
Proof. by intros ->. Qed.

(** The snapshot of a well-formed database holds its entities. *)
Lemma snapshot_holds (d : DB) :
  db_invariant d -> folder_holds (snapshot d) d.
Proof.
  intros Hinv. unfold folder_holds, snapshot. simpl. split_and!.
  - rewrite <- list_fmap_compose. unfold listProviders. rewrite order_by_perm.
    apply Permutation_of_eq, list_fmap_ext. intros _ p _. apply read_export_provider.
  - unfold listModelsWithProviderInfo. rewrite order_by_perm.
    rewrite <- !list_fmap_compose.
    apply Permutation_of_eq, list_fmap_ext. intros _ m _. apply read_export_model.
  - unfold listAgentTypesWithModelInfo, listAgentTypes.
    rewrite <- !list_fmap_compose. rewrite order_by_perm.
    apply Permutation_of_eq, list_fmap_ext. intros i a Ha.
    apply read_export_agent.
    pose proof (agent_rows _ _ (inv_agents _ Hinv)) as Hrows.
    rewrite Forall_forall in Hrows.
    destruct (tools_ok _ (Hrows a (list_elem_of_lookup_2 _ _ _ Ha)))
      as (l & Hl & _).
    by eexists.
  - rewrite <- list_fmap_compose. unfold getAllTasks. rewrite order_by_perm.
    apply Permutation_of_eq, list_fmap_ext. intros _ t _. apply read_export_task.
Qed.

Lemma folders_same_store (t1 t2 : Template) (d1 d2 : DB) :
  folder_holds t1 d1 -> folder_holds t2 d2 ->
  same_entities t1 t2 -> same_store d1 d2.
Proof.
  intros (Hp1 & Hm1 & Ha1 & Ht1) (Hp2 & Hm2 & Ha2 & Ht2) (Hp & Hm & Ha & Ht).
  unfold same_store. split_and!; apply Permutation_Some_inv;
    rewrite <- !list_fmap_compose.
  - rewrite <- Hp1, <- Hp2. by rewrite Hp.
  - rewrite <- Hm1, <- Hm2. by rewrite Hm.
  - rewrite <- Ha1, <- Ha2. by rewrite Ha.
  - rewrite <- Ht1, <- Ht2. by rewrite Ht.
Qed.

Lemma same_entities_same_store (d1 d2 : DB) :
  db_invariant d1 -> db_invariant d2 ->
  same_entities (snapshot d1) (snapshot d2) -> same_store d1 d2.
Proof.
  intros H1 H2. apply folders_same_store; by apply snapshot_holds.
Qed.

Lemma every_model_has_its_provider_found (d : DB) :
  every_model_has_its_provider d -> models_have_providers d.
Proof.
  intros Hall m Hm. destruct (Hall m Hm) as (p & Hp & Hid).
  apply (find_is_Some _ _ p Hp). by apply bool_decide_eq_true.
Qed.

Lemma agent_models_identified_resolvable (d : DB) :
  every_model_has_its_provider d ->
  agent_models_identified_by_key d ->
  agent_links_resolvable d.
Proof.
  intros Hprov Hkey a m Ha Hl.
  assert (m ∈ models d /\ a_model_id a = Some (m_id m)) as [Hm Hid].
  { unfold linked_model in Hl. destruct (a_model_id a) as [id|]; [|done].
    simpl in Hl. apply find_elem in Hl as [Hm Hid].
    apply bool_decide_eq_true in Hid. by subst id. }
  destruct (every_model_has_its_provider_found d Hprov m Hm) as [p Hp].
  apply getProviderById_elem in Hp as Hp'. destruct Hp' as [Hpin Hpid].
  destruct (Hkey a m p Ha Hm Hid Hpin Hpid) as (Hpn & Hmn & Huniq).
  unfold join_provider. simpl. rewrite Hp. simpl.
  split; [congruence|]. split; [exact Hmn|].
  intros m' Hm' Hsame.
  destruct (every_model_has_its_provider_found d Hprov m' Hm') as [p' Hp'].
  apply getProviderById_elem in Hp' as Hp''. destruct Hp'' as [Hpin' Hpid'].
  unfold model_key_of, join_provider in Hsame. simpl in Hsame.
  rewrite Hp, Hp' in Hsame. simpl in Hsame.
  rewrite Hp'. simpl.
  destruct (Huniq m' p' Hm' Hpin' Hpid' Hsame) as [-> ->]. done.
Qed.

Lemma unlinked_roles_come_back_null (d d' : DB) :
  same_store d' d -> links_resolve d' -> unlinked_roles_have_null d d'.
Proof.
  intros (_ & _ & Hagents & _) Hlinks a Ha Hnone.
  assert (agent_entity d a ∈ map (agent_entity d') (agent_roles d'))
    as (a' & Hsame & Ha')%list_elem_of_fmap.
  { rewrite Hagents. apply list_elem_of_fmap. by exists a. }
  exists a'. split; [exact Ha'|].
  split; [exact (eq_sym (f_equal ae_agent_role Hsame))|].
  assert (model_of d a = None) as Hunlinked.
  { unfold model_of. destruct (a_model_id a) as [id|]; [|reflexivity].
    simpl. unfold model_with_id. rewrite head_filter_find.
    apply find_none_all. intros m Hm. apply bool_decide_eq_false.
    by apply (Hnone id). }
  pose proof (f_equal ae_model Hsame) as Hmodel. simpl in Hmodel.
  rewrite Hunlinked in Hmodel. simpl in Hmodel.
  destruct (a_model_id a') as [id|] eqn:Hid; [|reflexivity].
  destruct (Hlinks a' id Ha' Hid) as (m & Hm & Hmid).
  unfold model_of in Hmodel. rewrite Hid in Hmodel. simpl in Hmodel.
  unfold model_with_id in Hmodel. rewrite head_filter_find in Hmodel.
  destruct (find_is_Some (fun x => bool_decide (m_id x = id)) _ m Hm)
    as [m0 Hm0]; [by apply bool_decide_eq_true|].
  rewrite Hm0 in Hmodel. discriminate.
Qed.

(** ** Export followed by import *)

Lemma template_folder_same (w w' : World) (templateName : string) :
  templates w' = templates w ->
  template_folder w' templateName = template_folder w templateName.
Proof. unfold template_folder. by intros ->. Qed.

Lemma importTemplate_of_export (d : DB) (templateName : string) (w : World) :
  db_invariant d ->
  models_have_providers d ->
  agent_links_resolvable d ->
  db_invariant (db w) ->
  template_folder w templateName = snapshot d ->
  exists w',
    importTemplate templateName true w = (Ok tt, w') /\
    reproduces d (db w').
Proof.
  intros Hd Hprov Hlinks Hinv Hfile.
  destruct (wipe_all_run w) as (w0 & Hrun0 & Ht0 & Hdb0).
  pose proof (template_folder_same _ _ templateName Ht0) as Hf0.
  rewrite Hfile in Hf0.
  destruct (import_providers_run d Hd templateName w0)
    as (w1 & T1 & s1 & Hrun1 & Ht1 & Hdb1 & Hv1 & Hinv1).
  { rewrite Hdb0. by apply wiped_invariant. }
  { by rewrite Hdb0. }
  { by rewrite Hf0. }
  pose proof (template_folder_same _ _ templateName Ht1) as Hf1.
  rewrite Hf0 in Hf1.
  destruct (import_models_run d Hd Hprov templateName w1)
    as (w2 & T2 & s2 & Hrun2 & Ht2 & Hdb2 & Hv2 & Hinv2).
  { done. }
  { by rewrite Hdb1, Hdb0. }
  { by rewrite Hdb1. }
  { by rewrite Hf1. }
  pose proof (template_folder_same _ _ templateName Ht2) as Hf2.
  rewrite Hf1 in Hf2.
  destruct (import_agents_run d Hd Hprov Hlinks templateName w2)
    as (w3 & T3 & s3 & Hrun3 & Ht3 & Hdb3 & Hv3 & Hfound & Hinv3).
  { done. }
  { by rewrite Hdb2, Hdb1, Hdb0. }
  { rewrite Hdb2. exact Hv2. }
  { by rewrite Hf2. }
  pose proof (template_folder_same _ _ templateName Ht3) as Hf3.
  rewrite Hf2 in Hf3.
  destruct (import_tasks_run d Hd templateName w3)
    as (w4 & T4 & s4 & Hrun4 & Ht4 & Hdb4 & Hv4 & Hinv4).
  { done. }
  { by rewrite Hdb3, Hdb2, Hdb1, Hdb0. }
  { by rewrite Hf3. }
  assert (same_entities (snapshot (db w4)) (snapshot d)) as Hsame.
  { rewrite Hdb4.
    unfold same_entities, snapshot. simpl. split_and!.
    + unfold listProviders at 1. rewrite order_by_perm. simpl.
      rewrite Hdb3, Hdb2, Hdb1. simpl. by rewrite Hv1.
    + unfold listModelsWithProviderInfo at 1. rewrite order_by_perm. simpl.
      rewrite <- list_fmap_compose.
      rewrite Hdb3, Hdb2. simpl. by rewrite <- Hv2.
    + unfold listAgentTypesWithModelInfo at 1, listAgentTypes at 1.
      rewrite order_by_perm. simpl. rewrite <- list_fmap_compose.
      rewrite Hdb3. simpl. by rewrite <- Hv3.
    + unfold getAllTasks at 1. rewrite order_by_perm. simpl. by rewrite Hv4. }
  assert (same_store (db w4) d) as Hstore
    by (by apply same_entities_same_store).
  assert (links_resolve (db w4)) as Hresolve.
  { intros a id Ha Hid. rewrite Hdb4, Hdb3 in Ha |- *. simpl in Ha |- *.
    rewrite Forall_forall in Hfound. by apply (Hfound a Ha). }
  eexists. split.
  - unfold importTemplate.
    erewrite bind_ok; [|exact Hrun0].
    erewrite bind_ok; [|exact Hrun1].
    erewrite bind_ok; [|exact Hrun2].
    erewrite bind_ok; [|exact Hrun3].
    erewrite bind_ok; [|exact Hrun4].
    reflexivity.
  - simpl db. split; [exact Hsame|]. split; [exact Hstore|].
    split; [exact Hresolve|]. by apply unlinked_roles_come_back_null.
Qed.

Tactic Notation "reach_by" uconstr(step) :=
  match goal with
  | R : reachable _ |- _ => eapply step in R; [|vm_compute; reflexivity]
  end.

Lemma sample_models_db_reachable : reachable sample_models_db.
Proof.
  pose proof reach_empty as R.
  reach_by (reach_createOrUpdateProvider _ _ undefined (val "openai")
              undefined undefined).
  reach_by (reach_createOrUpdateModel _ _ undefined (val 1) (val "gpt-4")
              undefined undefined undefined).
  exact R.
Qed.

Lemma sample_db_reachable : reachable sample_db.
Proof.
  pose proof reach_empty as R.
  reach_by (reach_createOrUpdateProvider _ _ undefined (val "openai")
              (val "OpenAI") undefined).
  reach_by (reach_createOrUpdateModel _ _ undefined (val 1) (val "o3")
              undefined undefined undefined).
  reach_by (reach_createOrUpdateModel _ _ undefined (val 1) (val "gpt-4")
              (val "GPT-4") undefined (val false)).
  reach_by (reach_setAgentDetails _ _
              (mkAgentDetails (val "planner") undefined None undefined
                              undefined (val 1) (val "high") undefined)).
  reach_by (reach_setAgentDetails _ _
              (mkAgentDetails (val "coder") undefined None undefined
                              undefined (val 2) (val "high") undefined)).
  reach_by (reach_setAgentDetails _ _
              (mkAgentDetails (val "critic") undefined None undefined
                              undefined null (val "low") (val "none"))).
  reach_by (reach_createTask _ _ (val "triage") (val "Sort the issues.")).
  exact R.
Qed.

(** C1 as stated fails: after a provider with a model is deleted (a state
    the managers reach, since deletes do not cascade), the export writes
    the model with a null provider_name, the import wipes the store and
    then throws in the model loop, and the model is gone. *)
Lemma C1_roundtrip_counterexample :
  reachable orphaned_model_db /\
  exists e w',
    (exportTemplate "default" ;;; importTemplate "default" true)
      orphaned_model_world = (Throw e, w') /\
    ~ same_entities (snapshot (db w')) (snapshot orphaned_model_db).
Proof.
  split.
  - apply reach_deleteProvider, sample_models_db_reachable.
  - eexists _, _. split; [vm_compute; reflexivity|].
    intros (_ & Hm & _). apply Permutation_length in Hm.
    vm_compute in Hm. discriminate.
Qed.

(** C1 (amended): for every database state the four entity managers can
    reach in which every Model's provider row exists and every Model an
    Agent role points to has non-empty provider and model names and shares
    its "provider_name:model_name" key with no differently named Model,
    and for every plain template name, [exportTemplate(name)] followed by
    [importTemplate(name, {wipe:true})] returns normally and leaves a
    store with the same Providers, Models, Agent roles and Tasks up to
    order and internal ids: the rows of the four tables have the same
    natural keys and field values, each model the same provider name and
    each agent the same model names.  In the store that comes back no
    model reference dangles, and every agent role whose reference was null
    or dangling has a null reference.  The stored tool lists already hold
    the sentinel, so they come back unchanged.  The same holds when the
    exported folder is imported into any other well-formed store. *)
Theorem C1_export_import_roundtrip (templateName : string) (w : World) :
  reachable (db w) ->
  plain_name templateName = true ->
  every_model_has_its_provider (db w) ->
  agent_models_identified_by_key (db w) ->
  (exists w',
     (exportTemplate templateName ;;; importTemplate templateName true) w
     = (Ok tt, w') /\
     same_entities (snapshot (db w')) (snapshot (db w)) /\
     same_store (db w') (db w) /\
     links_resolve (db w') /\
     unlinked_roles_have_null (db w) (db w')) /\
  (forall target,
     db_invariant (db target) ->
     template_folder target templateName = snapshot (db w) ->
     exists w',
       importTemplate templateName true target = (Ok tt, w') /\
       same_entities (snapshot (db w')) (snapshot (db w)) /\
       same_store (db w') (db w) /\
       links_resolve (db w') /\
       unlinked_roles_have_null (db w) (db w')).
Proof.
  intros Hreach _ Hmodels Hkeys.
  apply reachable_invariant in Hreach as Hinv.
  pose proof (every_model_has_its_provider_found _ Hmodels) as Hprov.
  pose proof (agent_models_identified_resolvable _ Hmodels Hkeys) as Hlinks.
  split.
  - destruct (exportTemplate_run templateName w) as (we & Hexp & Hdb & Hfile).
    destruct (importTemplate_of_export (db w) templateName we)
      as (w' & Hrun & Hsame); try done.
    { by rewrite Hdb. }
    exists w'. split; [|exact Hsame]. by erewrite bind_ok; [|exact Hexp].
  - intros target Htarget Hfile.
    by apply importTemplate_of_export.
Qed.

Lemma dangling_link_db_reachable : reachable dangling_link_db.
Proof. apply reach_deleteModel, sample_db_reachable. Qed.

Lemma dangling_link_db_rows :
  dangling_link_db
  = mkDB [mkProvider 1 "openai" "OpenAI" (Some "")] 1
         [mkModel 1 1 "o3" "o3" (Some "") 1] 2
         (agent_roles sample_db) 3 (tasks sample_db) 1.
Proof. reflexivity. Qed.

Lemma dangling_link_db_models : every_model_has_its_provider dangling_link_db.
Proof.
  rewrite dangling_link_db_rows. intros m Hm. simpl in Hm.
  apply list_elem_of_singleton in Hm as ->. eexists. split; [by left | done].
Qed.

Lemma dangling_link_db_keys : agent_models_identified_by_key dangling_link_db.
Proof.
  rewrite dangling_link_db_rows. intros a m p _ Hm _ Hp _. simpl in Hm, Hp.
  apply list_elem_of_singleton in Hm as ->.
  apply list_elem_of_singleton in Hp as ->.
  split; [done|]. split; [done|].
  intros m' p' Hm' Hp' _ _. simpl in Hm', Hp'.
  apply list_elem_of_singleton in Hm' as ->.
  by apply list_elem_of_singleton in Hp' as ->.
Qed.

Lemma C1_export_import_roundtrip_witness :
  plain_name "default" = true /\
  (exists w',
     (exportTemplate "default" ;;; importTemplate "default" true)
       dangling_link_world
     = (Ok tt, w') /\
     same_entities (snapshot (db w')) (snapshot dangling_link_db) /\
     same_store (db w') dangling_link_db /\
     links_resolve (db w') /\
     unlinked_roles_have_null dangling_link_db (db w')) /\
  (forall target,
     db_invariant (db target) ->
     template_folder target "default" = snapshot dangling_link_db ->
     exists w',
       importTemplate "default" true target = (Ok tt, w') /\
       same_entities (snapshot (db w')) (snapshot dangling_link_db) /\
       same_store (db w') dangling_link_db /\
       links_resolve (db w') /\
       unlinked_roles_have_null dangling_link_db (db w')).
Proof.
  split; [reflexivity|].
  apply (C1_export_import_roundtrip "default" dangling_link_world).
  - exact dangling_link_db_reachable.
  - reflexivity.
  - exact dangling_link_db_models.
  - exact dangling_link_db_keys.
Defined.

(** The round trip of that database, row by row: the model comes back
    under a new id and the "planner" role follows it, and the "coder"
    role, whose model was gone, comes back without a model id. *)
Example roundtrip_of_a_dangling_link :
  let w' := ((exportTemplate "default" ;;; importTemplate "default" true)
               dangling_link_world).2 in
  map (fun a => (a_agent_role a, a_model_id a)) (agent_roles dangling_link_db)
  = [("planner", Some 1); ("coder", Some 2); ("critic", None)] /\
  map m_id (models dangling_link_db) = [1] /\
  map (fun a => (a_agent_role a, a_model_id a)) (agent_roles (db w'))
  = [("planner", Some 3); ("coder", None); ("critic", None)] /\
  map m_id (models (db w')) = [3].
Proof. split_and!; vm_compute; reflexivity. Qed.

(** The sample database, which has no dangling link, comes back with the
    same entities; the models come back in the order of their names. *)
Example roundtrip_of_the_sample_database :
  let w' := ((exportTemplate "default" ;;; importTemplate "default" true)
               sample_world).2 in
  map provider_entity (model_providers (db w'))
  = map provider_entity (model_providers sample_db) /\
  map (model_entity (db w')) (models (db w'))
  = reverse (map (model_entity sample_db) (models sample_db)) /\
  map (agent_entity (db w')) (agent_roles (db w'))
  = map (agent_entity sample_db) (agent_roles sample_db) /\
  map task_entity (tasks (db w')) = map task_entity (tasks sample_db).
Proof. split_and!; vm_compute; reflexivity. Qed.

(** Why the links must be resolvable: with two models whose keys
    coincide, an agent on provider "a", model "b:c" comes back on provider
    "a:b", model "c". *)
Example roundtrip_relinks_agent_on_key_collision :
  let w' := ((exportTemplate "default" ;;; importTemplate "default" true)
               (mkWorld colliding_keys_db ∅ [])).2 in
  map (fun a => (ay_provider_name a, ay_model_name a))
      (agents_yaml (snapshot colliding_keys_db))
  = [(val "a", val "b:c")] /\
  map (fun a => (ay_provider_name a, ay_model_name a))
      (agents_yaml (snapshot (db w')))
  = [(val "a:b", val "c")].
Proof. split; vm_compute; reflexivity. Qed.

(** Why the names must be non-empty: an agent on a model of a provider
    named "" comes back without a model, because the import takes an
    empty provider_name for "no model specified". *)
Example roundtrip_drops_link_on_empty_name :
  let w' := ((exportTemplate "default" ;;; importTemplate "default" true)
               (mkWorld empty_name_db ∅ [])).2 in
  map (fun a => (ay_provider_name a, ay_model_name a))
      (agents_yaml (snapshot empty_name_db))
  = [(val "", val "o3")] /\
  map (fun a => (ay_provider_name a, ay_model_name a))
      (agents_yaml (snapshot (db w')))
  = [(null, null)].
Proof. split; vm_compute; reflexivity. Qed.

(** * Further properties of the managers, the routes and the initialisers *)

(** ** Lookups after an update or a delete *)

Lemma find_update {A} (p hit : A -> bool) (f : A -> A) (l : list A) :
  (forall r, hit r = true -> p (f r) = p r) ->
  find p (map (fun r => if hit r then f r else r) l)
  = (fun r => if hit r then f r else r) <$> find p l.
Proof.
  intros Hp. induction l as [|a l IH]; [reflexivity|].
  rewrite fmap_cons. simpl.
  assert (p (if hit a then f a else a) = p a) as ->.
  { destruct (hit a) eqn:E; [by apply Hp | reflexivity]. }
  destruct (p a); [reflexivity|]. exact IH.
Qed.

Lemma update_no_hit {A} (hit : A -> bool) (f : A -> A) (l : list A) :
  (forall r, r ∈ l -> hit r = false) ->
  map (fun r => if hit r then f r else r) l = l.
Proof.
  induction l as [|a l IH]; intros H; [reflexivity|].
  rewrite fmap_cons, (H a) by apply list_elem_of_here.
  f_equal. apply IH. intros r Hr. apply H. by apply list_elem_of_further.
Qed.

Lemma find_filter_other {A} (p : A -> bool) (Q : A -> Prop)
    `{forall x, Decision (Q x)} (l : list A) :
  (forall r, p r = true -> Q r) ->
  find p (filter Q l) = find p l.
Proof.
  intros HpQ. induction l as [|a l IH]; [reflexivity|].
  rewrite filter_cons. destruct (decide (Q a)) as [q|nq]; simpl.
  - destruct (p a); [reflexivity | exact IH].
  - destruct (p a) eqn:E; [by destruct nq; apply HpQ | exact IH].
Qed.

Lemma find_filter_gone {A} (p : A -> bool) (Q : A -> Prop)
    `{forall x, Decision (Q x)} (l : list A) :
  (forall r, p r = true -> ~ Q r) ->
  find p (filter Q l) = None.
Proof.
  intros HpQ. induction l as [|a l IH]; [reflexivity|].
  rewrite filter_cons. destruct (decide (Q a)) as [q|nq]; simpl; [|exact IH].
  destruct (p a) eqn:E; [by destruct (HpQ a E) | exact IH].
Qed.

Lemma set_agents_same (d : DB) :
  set_agents (agent_roles d) (agent_roles_seq d) d = d.
Proof. by destruct d. Qed.
Lemma set_tasks_same (d : DB) : set_tasks (tasks d) (tasks_seq d) d = d.
Proof. by destruct d. Qed.

Lemma update_agent_by_role_lookup (role other : string)
    (f : AgentRow -> AgentRow) (d : DB) :
  (forall r, a_agent_role (f r) = a_agent_role r) ->
  getAgentByType other (update_agent_by_role role f d)
  = (fun r => if bool_decide (a_agent_role r = role) then f r else r)
    <$> getAgentByType other d.
Proof.
  intros Hf. unfold getAgentByType, update_agent_by_role. simpl.
  apply (find_update (fun r => bool_decide (a_agent_role r = other))
                     (fun r => bool_decide (a_agent_role r = role))).
  intros r _. by rewrite Hf.
Qed.

Lemma update_agent_by_role_miss (role : string) (f : AgentRow -> AgentRow)
    (d : DB) :
  getAgentByType role d = None -> update_agent_by_role role f d = d.
Proof.
  intros Hnone. unfold update_agent_by_role.
  rewrite update_no_hit; [apply set_agents_same|].
  intros r Hr. apply find_none_existsb in Hnone.
  exact (existsb_false_elem _ _ _ Hnone Hr).
Qed.

(** X1.  [setAllowedTools] followed by [getAllowedTools] on an existing
    role gives the list that was set, with the sentinel tool added when it
    was missing; every other role reads as before. *)
Theorem setAllowedTools_then_getAllowedTools
    (role : string) (tools : option json) (d : DB) :
  is_Some (getAgentByType role d) ->
  getAllowedTools role (setAllowedTools role tools d) = ensureDefaultTool tools
  /\ includes (getAllowedTools role (setAllowedTools role tools d))
              DEFAULT_TOOL = true
  /\ forall other, other <> role ->
       getAllowedTools other (setAllowedTools role tools d)
       = getAllowedTools other d.
Proof.
  intros [r Hr]. unfold getAllowedTools, setAllowedTools.
  assert (getAllowedTools role (setAllowedTools role tools d)
          = ensureDefaultTool tools) as Hget.
  { unfold getAllowedTools, setAllowedTools.
    rewrite update_agent_by_role_lookup by reflexivity. rewrite Hr. simpl.
    apply find_elem in Hr as [_ Hr]. by rewrite Hr. }
  unfold getAllowedTools, setAllowedTools in Hget.
  split; [exact Hget|]. split.
  - rewrite Hget. apply ensureDefaultTool_includes.
  - intros other Hother.
    rewrite update_agent_by_role_lookup by reflexivity.
    destruct (getAgentByType other d) as [r'|] eqn:Hr'; [|reflexivity].
    simpl. apply find_elem in Hr' as [_ Hr'].
    apply bool_decide_eq_true in Hr'.
    rewrite bool_decide_eq_false_2 by congruence. reflexivity.
Qed.

Lemma setAllowedTools_then_getAllowedTools_witness :
  getAllowedTools "coder"
    (setAllowedTools "coder" (Some (JArr [JStr "read_file"])) sample_db)
  = ensureDefaultTool (Some (JArr [JStr "read_file"]))
  /\ includes (getAllowedTools "coder"
       (setAllowedTools "coder" (Some (JArr [JStr "read_file"])) sample_db))
       DEFAULT_TOOL = true
  /\ forall other, other <> "coder" ->
       getAllowedTools other
         (setAllowedTools "coder" (Some (JArr [JStr "read_file"])) sample_db)
       = getAllowedTools other sample_db.
Proof.
  apply (setAllowedTools_then_getAllowedTools "coder"
           (Some (JArr [JStr "read_file"])) sample_db).
  vm_compute. by eexists.
Defined.

Lemma filter_all {A} (P : A -> Prop) `{forall x, Decision (P x)}
    (l : list A) :
  (forall r, r ∈ l -> P r) -> filter P l = l.
Proof.
  induction l as [|a l IH]; intros Hall; [reflexivity|].
  rewrite filter_cons_True by (apply Hall, list_elem_of_here).
  f_equal. apply IH. intros r Hr. by apply Hall, list_elem_of_further.
Qed.

Lemma find_none_elem {A} (f : A -> bool) (l : list A) (x : A) :
  find f l = None -> x ∈ l -> f x = false.
Proof.
  intros Hnone. apply existsb_false_elem. by apply find_none_existsb.
Qed.

Lemma deleteAgentType_miss (role : string) (d : DB) :
  getAgentByType role d = None -> deleteAgentType role d = d.
Proof.
  intros Hnone. unfold deleteAgentType.
  rewrite filter_all; [apply set_agents_same|].
  intros r Hr Heq. pose proof (find_none_elem _ _ _ Hnone Hr) as Hf.
  simpl in Hf. by rewrite bool_decide_eq_true_2 in Hf.
Qed.

(** X2.  A write to a role that has no row is silently ignored: the three
    role-keyed writers leave the database as it is, and the readers answer
    with the empty list and the empty prompts. *)
Theorem unknown_role_is_ignored (role : string) (d : DB) :
  getAgentByType role d = None ->
  (forall tools, setAllowedTools role tools d = d) /\
  (forall developerPrompt userPrompt,
     setDefaultPrompts role developerPrompt userPrompt d = d) /\
  deleteAgentType role d = d /\
  getAllowedTools role d = [] /\
  getDefaultPrompts role d = ("", "").
Proof.
  intros Hnone. repeat split.
  - intros tools. by apply update_agent_by_role_miss.
  - intros dev usr. by apply update_agent_by_role_miss.
  - by apply deleteAgentType_miss.
  - unfold getAllowedTools. by rewrite Hnone.
  - unfold getDefaultPrompts. by rewrite Hnone.
Qed.

Lemma unknown_role_is_ignored_witness :
  (forall tools, setAllowedTools "ghost" tools sample_db = sample_db) /\
  (forall developerPrompt userPrompt,
     setDefaultPrompts "ghost" developerPrompt userPrompt sample_db
     = sample_db) /\
  deleteAgentType "ghost" sample_db = sample_db /\
  getAllowedTools "ghost" sample_db = [] /\
  getDefaultPrompts "ghost" sample_db = ("", "").
Proof.
  apply (unknown_role_is_ignored "ghost" sample_db). vm_compute. reflexivity.
Defined.

(** X3.  [setDefaultPrompts] followed by [getDefaultPrompts] on an
    existing role gives the two prompts back, a missing or empty prompt as
    the empty string, and does not touch the role's tools. *)
Theorem setDefaultPrompts_then_getDefaultPrompts
    (role : string) (developerPrompt userPrompt : js string) (d : DB) :
  is_Some (getAgentByType role d) ->
  getDefaultPrompts role (setDefaultPrompts role developerPrompt userPrompt d)
  = (or_else developerPrompt "", or_else userPrompt "") /\
  getAllowedTools role (setDefaultPrompts role developerPrompt userPrompt d)
  = getAllowedTools role d.
Proof.
  intros [r Hr]. unfold getDefaultPrompts, getAllowedTools, setDefaultPrompts.
  rewrite update_agent_by_role_lookup by reflexivity. rewrite Hr. simpl.
  apply find_elem in Hr as [_ Hr]. rewrite Hr. simpl.
  change (if truthy (or_else developerPrompt "")
          then or_else developerPrompt "" else "")
    with (or_else (val (or_else developerPrompt "")) "").
  change (if truthy (or_else userPrompt "") then or_else userPrompt "" else "")
    with (or_else (val (or_else userPrompt "")) "").
  by rewrite !or_else_val.
Qed.

Lemma setDefaultPrompts_then_getDefaultPrompts_witness :
  getDefaultPrompts "coder"
    (setDefaultPrompts "coder" (val "Be terse.") undefined sample_db)
  = (or_else (val "Be terse.") "", or_else undefined "") /\
  getAllowedTools "coder"
    (setDefaultPrompts "coder" (val "Be terse.") undefined sample_db)
  = getAllowedTools "coder" sample_db.
Proof.
  apply (setDefaultPrompts_then_getDefaultPrompts "coder" (val "Be terse.")
           undefined sample_db).
  vm_compute. by eexists.
Defined.

(** X4.  [ensureDefaultTool] is idempotent, keeps the given array as a
    prefix of its result, adds nothing but the sentinel, and turns
    anything that is not an array into the list holding the sentinel
    alone. *)
Theorem ensureDefaultTool_adds_only_the_sentinel (tools : option json) :
  ensureDefaultTool (Some (JArr (ensureDefaultTool tools)))
  = ensureDefaultTool tools /\
  (forall l, tools = Some (JArr l) ->
     l `prefix_of` ensureDefaultTool tools /\
     forall v, v <> JStr DEFAULT_TOOL ->
               (v ∈ ensureDefaultTool tools <-> v ∈ l)) /\
  ((forall l, tools <> Some (JArr l)) ->
   ensureDefaultTool tools = [JStr DEFAULT_TOOL]).
Proof.
  split; [|split].
  - apply ensureDefaultTool_fixed, ensureDefaultTool_includes.
  - intros l ->. unfold ensureDefaultTool.
    destruct (includes l DEFAULT_TOOL); split; try done.
    + by apply prefix_app_r.
    + intros v Hv. rewrite elem_of_app, list_elem_of_singleton. tauto.
  - intros Hnot. unfold ensureDefaultTool.
    destruct tools as [[| | | |l|]|]; try reflexivity.
    by destruct (Hnot l).
Qed.

(** X5.  Reading a stored role never adds a second sentinel: for every
    row of a database the managers can reach, the tools the agent-roles
    route serialises are exactly the stored ones. *)
Theorem stored_tools_are_served_unchanged (d : DB) (r : AgentRow) :
  reachable d -> r ∈ agent_roles d ->
  a_allowed_tools r = Some (aj_allowed_tools (agent_to_json r d)) /\
  getAllowedTools (a_agent_role r) d = aj_allowed_tools (agent_to_json r d).
Proof.
  intros Hreach Hr. apply reachable_invariant in Hreach as [_ _ [_ Hnames Hrows] _].
  pose proof (proj1 (Forall_forall _ _) Hrows r Hr) as [_ _ [l [Hl Hincl]] _ _ _ _].
  unfold agent_to_json, getAllowedTools, getAgentByType. simpl.
  rewrite (find_unique a_agent_role _ r Hnames Hr).
  rewrite Hl. simpl. by rewrite ensureDefaultTool_fixed.
Qed.

Lemma stored_tools_are_served_unchanged_witness :
  let coder := mkAgent 2 "coder" (Some "") (Some [JStr "set_work_completed"])
                       (Some "") (Some "") (Some 2) (Some "high") (Some "auto") in
  a_allowed_tools coder = Some (aj_allowed_tools (agent_to_json coder sample_db))
  /\ getAllowedTools (a_agent_role coder) sample_db
     = aj_allowed_tools (agent_to_json coder sample_db).
Proof.
  apply (stored_tools_are_served_unchanged sample_db).
  - exact sample_db_reachable.
  - vm_compute. apply list_elem_of_further, list_elem_of_here.
Defined.

(** X6.  Every agent-role row of a database the managers can reach has a
    non-empty role, tools that include the sentinel and non-empty
    reasoning level and tool choice, whichever writer stored it; a
    provider's display name is its provider name or is not blank; and
    each natural key names one row. *)
Theorem stored_rows_are_well_formed (d : DB) :
  reachable d ->
  (forall r, r ∈ agent_roles d ->
     a_agent_role r <> "" /\
     (exists l, a_allowed_tools r = Some l /\ includes l DEFAULT_TOOL = true) /\
     (exists level, a_reasoning_level r = Some level /\ level <> "") /\
     (exists choice, a_tool_choice r = Some choice /\ choice <> "")) /\
  (forall p, p ∈ model_providers d ->
     p_display_name p = p_provider_name p \/ trim (p_display_name p) <> "") /\
  NoDup (map p_provider_name (model_providers d)) /\
  NoDup (map (fun r => (m_provider_id r, m_model_name r)) (models d)) /\
  NoDup (map a_agent_role (agent_roles d)) /\
  NoDup (map t_task_name (tasks d)).
Proof.
  intros Hreach.
  apply reachable_invariant in Hreach
    as [[_ Hpn Hprows] [_ Hmk] [_ Han Harows] [_ Htn]].
  split; [|split; [|done]].
  - intros r Hr. by destruct (proj1 (Forall_forall _ _) Harows r Hr).
  - intros p Hp.
    destruct (proj1 (Forall_forall _ _) Hprows p Hp) as [Hdisplay _].
    unfold safeDisplayName in Hdisplay.
    destruct (truthy (p_display_name p)
              && negb (bool_decide (trim (p_display_name p) = ""))) eqn:E.
    + right. apply andb_true_iff in E as [_ E].
      apply negb_true_iff, bool_decide_eq_false in E. exact E.
    + left. congruence.
Qed.

Lemma stored_rows_are_well_formed_witness :
  (forall r, r ∈ agent_roles sample_db ->
     a_agent_role r <> "" /\
     (exists l, a_allowed_tools r = Some l /\ includes l DEFAULT_TOOL = true) /\
     (exists level, a_reasoning_level r = Some level /\ level <> "") /\
     (exists choice, a_tool_choice r = Some choice /\ choice <> "")) /\
  (forall p, p ∈ model_providers sample_db ->
     p_display_name p = p_provider_name p \/ trim (p_display_name p) <> "") /\
  NoDup (map p_provider_name (model_providers sample_db)) /\
  NoDup (map (fun r => (m_provider_id r, m_model_name r)) (models sample_db)) /\
  NoDup (map a_agent_role (agent_roles sample_db)) /\
  NoDup (map t_task_name (tasks sample_db)).
Proof.
  apply (stored_rows_are_well_formed sample_db). exact sample_db_reachable.
Defined.

(** X7.  What [setAgentDetails] wrote is what the agent-roles route
    serialises for that role afterwards: the given texts (a missing one
    as the empty string), the tools with the sentinel, the model id, and
    the tool choice, "auto" when none was given. *)
Theorem agent_details_read_back_as_written
    (details : AgentDetails) (d d' : DB) :
  setAgentDetails details d = Ok d' ->
  exists role r,
    ad_agent_role details = val role /\
    getAgentByType role d' = Some r /\
    aj_agent_role (agent_to_json r d') = role /\
    aj_agent_description (agent_to_json r d')
    = val (or_else (ad_agent_description details) "") /\
    aj_allowed_tools (agent_to_json r d')
    = ensureDefaultTool (ad_allowed_tools details) /\
    aj_default_developer_prompt (agent_to_json r d')
    = val (or_else (ad_default_developer_prompt details) "") /\
    aj_default_user_prompt (agent_to_json r d')
    = val (or_else (ad_default_user_prompt details) "") /\
    aj_model_id (agent_to_json r d')
    = of_column (bind_param (ad_model_id details)) /\
    aj_tool_choice (agent_to_json r d')
    = val (or_else (ad_tool_choice details) "auto").
Proof.
  intros Hset.
  destruct (setAgentDetails_written _ _ _ Hset)
    as (role & Hrole & _ & [r Hr] & Hrows).
  exists role, r. split; [exact Hrole|]. split; [exact Hr|].
  apply find_elem in Hr as [Hin Hkey]. apply bool_decide_eq_true in Hkey.
  rewrite (Hrows r Hin Hkey) at 1 2 3 4 5 6 7.
  unfold agent_to_json, written_agent. simpl.
  repeat split.
  apply ensureDefaultTool_fixed, ensureDefaultTool_includes.
Qed.

Lemma agent_details_read_back_as_written_witness :
  exists role r,
    ad_agent_role sample_details = val role /\
    getAgentByType role sample_agent_db = Some r /\
    aj_agent_role (agent_to_json r sample_agent_db) = role /\
    aj_agent_description (agent_to_json r sample_agent_db)
    = val (or_else (ad_agent_description sample_details) "") /\
    aj_allowed_tools (agent_to_json r sample_agent_db)
    = ensureDefaultTool (ad_allowed_tools sample_details) /\
    aj_default_developer_prompt (agent_to_json r sample_agent_db)
    = val (or_else (ad_default_developer_prompt sample_details) "") /\
    aj_default_user_prompt (agent_to_json r sample_agent_db)
    = val (or_else (ad_default_user_prompt sample_details) "") /\
    aj_model_id (agent_to_json r sample_agent_db)
    = of_column (bind_param (ad_model_id sample_details)) /\
    aj_tool_choice (agent_to_json r sample_agent_db)
    = val (or_else (ad_tool_choice sample_details) "auto").
Proof.
  apply (agent_details_read_back_as_written sample_details empty_db).
  vm_compute. reflexivity.
Defined.

Lemma find_snoc_other {A} (p : A -> bool) (l : list A) (x : A) :
  p x = false -> find p (l ++ [x]) = find p l.
Proof.
  intros Hx. induction l as [|a l IH]; simpl; [by rewrite Hx|].
  destruct (p a); [reflexivity | exact IH].
Qed.

(** X8.  [setAgentDetails] writes one role and nothing else: the other
    three tables and every other role are as before, and a role that
    existed keeps its rowid. *)
Theorem setAgentDetails_touches_one_role
    (details : AgentDetails) (role : string) (d d' : DB) :
  setAgentDetails details d = Ok d' ->
  ad_agent_role details = val role ->
  model_providers d' = model_providers d /\
  models d' = models d /\
  tasks d' = tasks d /\
  (forall other, other <> role ->
     getAgentByType other d' = getAgentByType other d) /\
  (forall r0, getAgentByType role d = Some r0 ->
     a_id <$> getAgentByType role d' = Some (a_id r0) /\
     length (agent_roles d') = length (agent_roles d)).
Proof.
  unfold setAgentDetails. intros Hset Hrole. rewrite Hrole in Hset.
  destruct (negb (truthy role)); [discriminate|].
  destruct (truthy (a_id <$> getAgentByType role d)) eqn:Hex.
  - injection Hset as <-.
    split; [reflexivity|]. split; [reflexivity|]. split; [reflexivity|].
    split.
    + intros other Hother.
      rewrite update_agent_by_role_lookup by reflexivity.
      destruct (getAgentByType other d) as [r'|] eqn:Hr'; [|reflexivity].
      simpl. apply find_elem in Hr' as [_ Hr'].
      apply bool_decide_eq_true in Hr'.
      by rewrite bool_decide_eq_false_2 by congruence.
    + intros r0 Hr0. split.
      * rewrite update_agent_by_role_lookup by reflexivity. rewrite Hr0.
        simpl. apply find_elem in Hr0 as [_ Hr0]. by rewrite Hr0.
      * unfold update_agent_by_role. simpl. by rewrite length_fmap.
  - unfold insert_agent in Hset.
    destruct (existsb _ (agent_roles d)) eqn:Htaken; [discriminate|].
    injection Hset as <-.
    split; [reflexivity|]. split; [reflexivity|]. split; [reflexivity|].
    split.
    + intros other Hother. unfold getAgentByType. simpl.
      apply find_snoc_other. simpl. by apply bool_decide_eq_false_2.
    + intros r0 Hr0. exfalso. apply find_elem in Hr0 as [Hin Hkey].
      pose proof (existsb_false_elem _ _ _ Htaken Hin) as Hno. simpl in Hno.
      congruence.
Qed.

Lemma setAgentDetails_touches_one_role_witness :
  exists d',
    setAgentDetails sample_details sample_db = Ok d' /\
    model_providers d' = model_providers sample_db /\
    models d' = models sample_db /\
    tasks d' = tasks sample_db /\
    (forall other, other <> "planner" ->
       getAgentByType other d' = getAgentByType other sample_db) /\
    (forall r0, getAgentByType "planner" sample_db = Some r0 ->
       a_id <$> getAgentByType "planner" d' = Some (a_id r0) /\
       length (agent_roles d') = length (agent_roles sample_db)).
Proof.
  eexists. split; [vm_compute; reflexivity|].
  apply (setAgentDetails_touches_one_role sample_details "planner" sample_db);
    vm_compute; reflexivity.
Defined.

(** After [deleteAgentType] the role is gone, every other role is
    found as before, and models, providers and tasks are untouched. *)
Lemma deleteAgentType_removes_one_role (role : string) (d : DB) :
  getAgentByType role (deleteAgentType role d) = None /\
  (forall other, other <> role ->
     getAgentByType other (deleteAgentType role d) = getAgentByType other d) /\
  model_providers (deleteAgentType role d) = model_providers d /\
  models (deleteAgentType role d) = models d /\
  tasks (deleteAgentType role d) = tasks d.
Proof.
  unfold getAgentByType, deleteAgentType. simpl. repeat split.
  - apply find_filter_gone. intros r Hr Hne.
    by apply bool_decide_eq_true in Hr.
  - intros other Hother. apply find_filter_other.
    intros r Hr. apply bool_decide_eq_true in Hr. congruence.
Qed.

(** ** Providers and models *)

Lemma trim_nonempty (s : string) : trim s <> "" -> s <> "".
Proof. intros H ->. by apply H. Qed.

Lemma safeDisplayName_cases (display : js string) (n : string) :
  exists x,
    safeDisplayName display (val n) = val x /\
    (forall s, display = val s -> trim s <> "" -> x = s) /\
    ((forall s, display = val s -> trim s = "") -> x = n).
Proof.
  destruct display as [| |s]; simpl.
  - exists n. by repeat split.
  - exists n. by repeat split.
  - destruct (truthy s && negb (bool_decide (trim s = ""))) eqn:E.
    + exists s. split; [reflexivity|]. split; [congruence|].
      intros Hblank. apply andb_true_iff in E as [_ E].
      apply negb_true_iff, bool_decide_eq_false in E.
      by destruct E; apply Hblank.
    + exists n. split; [reflexivity|]. split; [|done].
      intros s' [= <-] Htrim. exfalso.
      apply andb_false_iff in E as [E|E].
      * apply trim_nonempty, truthy_string_true in Htrim. congruence.
      * apply negb_false_iff, bool_decide_eq_true in E. congruence.
Qed.

(** X9.  Creating or upserting a provider by name always succeeds and
    leaves a row under that name whose display name is the given one,
    unless that is missing, empty or blank (nothing is left of it when
    the white space of [String.prototype.trim], Unicode spaces included,
    is removed): then it is the provider name.  A missing extra_info is
    stored as the empty string. *)
Theorem provider_display_name_defaults_to_name
    (id : js Z) (n : string) (display_name extra_info : js string) (d : DB) :
  truthy id = false ->
  exists d' r,
    createOrUpdateProvider id (val n) display_name extra_info d = Ok d' /\
    r ∈ model_providers d' /\
    p_provider_name r = n /\
    p_extra_info r = Some (or_else extra_info "") /\
    (forall s, display_name = val s -> trim s <> "" -> p_display_name r = s) /\
    ((forall s, display_name = val s -> trim s = "") -> p_display_name r = n).
Proof.
  intros Hid. unfold createOrUpdateProvider. rewrite Hid.
  destruct (safeDisplayName_cases display_name n) as (x & -> & Hgiven & Hblank).
  unfold upsert_provider. simpl.
  destruct (existsb _ (model_providers d)) eqn:Hex.
  - apply existsb_true_elem in Hex as (r0 & Hr0 & Hsame).
    eexists _, (mkProvider (p_id r0) n x (Some (or_else extra_info ""))).
    split; [reflexivity|]. split; [|by repeat split].
    simpl. apply list_elem_of_fmap. exists r0. by rewrite Hsame.
  - eexists _, (mkProvider _ n x (Some (or_else extra_info ""))).
    split; [reflexivity|]. split; [|by repeat split].
    simpl. apply elem_of_app. right. apply list_elem_of_here.
Qed.

Lemma provider_display_name_defaults_to_name_witness :
  truthy (@undefined Z) = false /\
  exists d' r,
    createOrUpdateProvider undefined (val "mistral") (val no_break_space)
                           undefined sample_db = Ok d' /\
    r ∈ model_providers d' /\
    p_provider_name r = "mistral" /\
    p_extra_info r = Some (or_else undefined "") /\
    (forall s, val no_break_space = val s -> trim s <> "" ->
               p_display_name r = s) /\
    ((forall s, val no_break_space = val s -> trim s = "") ->
     p_display_name r = "mistral").
Proof.
  split; [reflexivity|].
  apply (provider_display_name_defaults_to_name undefined "mistral"
           (val no_break_space) undefined sample_db).
  reflexivity.
Defined.

(** A display name of Unicode white space is blank: the provider name is
    stored.  White space inside a name stays. *)
Example trim_removes_unicode_white_space :
  trim no_break_space = "" /\
  trim (no_break_space +:+ " Open AI" +:+ no_break_space) = "Open AI".
Proof. split; vm_compute; reflexivity. Qed.

Example blank_display_name_is_replaced :
  createOrUpdateProvider undefined (val "mistral") (val no_break_space)
                         undefined empty_db
  = Ok (mkDB [mkProvider 1 "mistral" "mistral" (Some "")] 1 [] 0 [] 0 [] 0).
Proof. vm_compute. reflexivity. Qed.

Lemma getProviderById_update (i : Z) (hit : ProviderRow -> bool)
    (f : ProviderRow -> ProviderRow) (d : DB) (seq : Z) :
  (forall r, p_id (f r) = p_id r) ->
  getProviderById i
    (set_providers (map (fun r => if hit r then f r else r)
                        (model_providers d)) seq d)
  = (fun r => if hit r then f r else r) <$> getProviderById i d.
Proof.
  intros Hf. unfold getProviderById. simpl.
  apply (find_update (fun r => bool_decide (p_id r = i))).
  intros r _. by rewrite Hf.
Qed.

Lemma createOrUpdateProvider_new_id (n : string) (d : DB) :
  (forall r, r ∈ model_providers d -> p_provider_name r <> n) ->
  exists d',
    createOrUpdateProvider undefined (val n) undefined undefined d = Ok d' /\
    mkProvider (model_providers_seq d + 1) n n (Some "") ∈ model_providers d'.
Proof.
  intros Hfresh. unfold createOrUpdateProvider, upsert_provider. simpl.
  rewrite existsb_no_hit
    by (intros r Hr; apply bool_decide_eq_false_2; by apply Hfresh).
  eexists. split; [reflexivity|]. simpl.
  apply elem_of_app. right. apply list_elem_of_here.
Qed.

(** X10.  Upserting a provider under a name that is taken rewrites that
    row in place: rowids and names are as before, so every model keeps the
    provider it had.  The statement has drawn a rowid all the same: the
    counter is one further, and the next new provider skips a rowid. *)
Theorem provider_upsert_keeps_rowid_and_links
    (r0 : ProviderRow) (display_name extra_info : js string) (d : DB) :
  r0 ∈ model_providers d ->
  exists d',
    createOrUpdateProvider undefined (val (p_provider_name r0)) display_name
                           extra_info d = Ok d' /\
    map p_id (model_providers d') = map p_id (model_providers d) /\
    map p_provider_name (model_providers d')
    = map p_provider_name (model_providers d) /\
    model_providers_seq d' = model_providers_seq d + 1 /\
    models d' = models d /\ agent_roles d' = agent_roles d /\
    tasks d' = tasks d /\
    (forall m, mi_provider_name (join_provider d' m)
               = mi_provider_name (join_provider d m)) /\
    (forall n,
       (forall r, r ∈ model_providers d -> p_provider_name r <> n) ->
       exists d'',
         createOrUpdateProvider undefined (val n) undefined undefined d'
         = Ok d'' /\
         mkProvider (model_providers_seq d + 2) n n (Some "")
         ∈ model_providers d'').
Proof.
  intros Hr0. unfold createOrUpdateProvider.
  change (truthy (@undefined Z)) with false. cbv iota.
  destruct (safeDisplayName_cases display_name (p_provider_name r0))
    as (x & -> & _).
  unfold upsert_provider. simpl.
  rewrite (proj2 (existsb_exists _ _)); cycle 1.
  { exists r0. split; [by apply list_elem_of_In|]. by apply bool_decide_eq_true_2. }
  eexists. split; [reflexivity|].
  match goal with |- map p_id (model_providers ?d1) = _ /\ _ =>
    set (dd := d1)
  end.
  assert (map p_provider_name (model_providers dd)
          = map p_provider_name (model_providers d)) as Hnames.
  { unfold dd. simpl. apply update_keeps_column. intros r Hr. simpl.
    by apply bool_decide_eq_true in Hr. }
  split; [unfold dd; simpl; by apply update_keeps_column|].
  split; [exact Hnames|].
  split; [reflexivity|]. split; [reflexivity|]. split; [reflexivity|].
  split; [reflexivity|]. split.
  - intros m. unfold dd, join_provider. simpl.
    rewrite getProviderById_update by reflexivity.
    destruct (getProviderById (m_provider_id m) d) as [p|]; [|reflexivity].
    simpl.
    destruct (bool_decide (p_provider_name p = p_provider_name r0)) eqn:E;
      [|reflexivity].
    apply bool_decide_eq_true in E. simpl. congruence.
  - intros n Hfresh.
    destruct (createOrUpdateProvider_new_id n dd) as (d'' & Hrun & Hin).
    { intros r Hr Hn.
      assert (p_provider_name r ∈ map p_provider_name (model_providers d))
        as Hold.
      { rewrite <- Hnames. apply list_elem_of_fmap. by exists r. }
      apply list_elem_of_fmap in Hold as (r' & Heq & Hr').
      apply (Hfresh r' Hr'). congruence. }
    exists d''. split; [exact Hrun|]. simpl in Hin.
    by replace (model_providers_seq d + 2) with (model_providers_seq d + 1 + 1)
      by lia.
Qed.

Lemma provider_upsert_keeps_rowid_and_links_witness :
  exists d',
    createOrUpdateProvider undefined (val "openai") (val "OpenAI Inc.")
                           (val "billing: team") sample_db = Ok d' /\
    map p_id (model_providers d') = map p_id (model_providers sample_db) /\
    map p_provider_name (model_providers d')
    = map p_provider_name (model_providers sample_db) /\
    model_providers_seq d' = model_providers_seq sample_db + 1 /\
    models d' = models sample_db /\ agent_roles d' = agent_roles sample_db /\
    tasks d' = tasks sample_db /\
    (forall m, mi_provider_name (join_provider d' m)
               = mi_provider_name (join_provider sample_db m)) /\
    (forall n,
       (forall r, r ∈ model_providers sample_db -> p_provider_name r <> n) ->
       exists d'',
         createOrUpdateProvider undefined (val n) undefined undefined d'
         = Ok d'' /\
         mkProvider (model_providers_seq sample_db + 2) n n (Some "")
         ∈ model_providers d'').
Proof.
  apply (provider_upsert_keeps_rowid_and_links
           (mkProvider 1 "openai" "OpenAI" (Some "")) (val "OpenAI Inc.")
           (val "billing: team") sample_db).
  vm_compute. apply list_elem_of_here.
Defined.

(** X11.  Deleting a provider does not cascade: models and agent roles are
    untouched, and a model of the deleted provider is listed from then on
    with no provider name. *)
Theorem deleteProvider_does_not_cascade (id : Z) (d : DB) :
  getProviderById id (deleteProvider id d) = None /\
  models (deleteProvider id d) = models d /\
  agent_roles (deleteProvider id d) = agent_roles d /\
  (forall m, m ∈ models d -> m_provider_id m = id ->
     m ∈ map mi_row (listModelsWithProviderInfo (deleteProvider id d)) /\
     mi_provider_name (join_provider (deleteProvider id d) m) = None /\
     mi_provider_display_name (join_provider (deleteProvider id d) m) = None)
  /\
  (forall other, other <> id ->
     getProviderById other (deleteProvider id d) = getProviderById other d).
Proof.
  assert (getProviderById id (deleteProvider id d) = None) as Hgone.
  { unfold getProviderById, deleteProvider. simpl.
    apply find_filter_gone. intros r Hr Hne.
    by apply bool_decide_eq_true in Hr. }
  split; [exact Hgone|]. split; [reflexivity|]. split; [reflexivity|]. split.
  - intros m Hm Hid. split; [|split].
    + unfold listModelsWithProviderInfo. rewrite order_by_perm.
      rewrite <- list_fmap_compose. simpl.
      apply list_elem_of_fmap. by exists m.
    + unfold join_provider. rewrite Hid, Hgone. reflexivity.
    + unfold join_provider. rewrite Hid, Hgone. reflexivity.
  - intros other Hother. unfold getProviderById, deleteProvider. simpl.
    apply find_filter_other. intros r Hr.
    apply bool_decide_eq_true in Hr. congruence.
Qed.

Lemma getModelById_deleted (id : Z) (d : DB) :
  getModelById id (deleteModel id d) = None.
Proof.
  unfold getModelById, deleteModel. simpl.
  rewrite find_filter_gone; [reflexivity|].
  intros r Hr Hne. by apply bool_decide_eq_true in Hr.
Qed.

(** X12.  Deleting a model does not cascade either: an agent role that
    pointed to it keeps the dangling id, and the agent-roles route serves
    it with that id, an empty model name and an empty reasoning level. *)
Theorem deleteModel_leaves_dangling_agent_link
    (id : Z) (a : AgentRow) (d : DB) :
  a ∈ agent_roles d -> a_model_id a = Some id ->
  a ∈ agent_roles (deleteModel id d) /\
  linked_model (deleteModel id d) a = None /\
  aj_model_id (agent_to_json a (deleteModel id d)) = val id /\
  aj_model_name (agent_to_json a (deleteModel id d)) = "" /\
  aj_reasoning_level (agent_to_json a (deleteModel id d)) = val "".
Proof.
  intros Ha Hid. split; [exact Ha|].
  pose proof (getModelById_deleted id d) as Hgone.
  split.
  { unfold linked_model. rewrite Hid. simpl.
    apply find_filter_gone. intros r Hr Hne.
    by apply bool_decide_eq_true in Hr. }
  unfold agent_to_json, lookup_model_name, normalizeReasoningLevel. simpl.
  rewrite Hid. simpl. rewrite Hgone.
  split; [reflexivity|]. by destruct (truthy (Some id)).
Qed.

Lemma deleteModel_leaves_dangling_agent_link_witness :
  let coder := mkAgent 2 "coder" (Some "") (Some [JStr "set_work_completed"])
                       (Some "") (Some "") (Some 2) (Some "high") (Some "auto") in
  coder ∈ agent_roles (deleteModel 2 sample_db) /\
  linked_model (deleteModel 2 sample_db) coder = None /\
  aj_model_id (agent_to_json coder (deleteModel 2 sample_db)) = val 2 /\
  aj_model_name (agent_to_json coder (deleteModel 2 sample_db)) = "" /\
  aj_reasoning_level (agent_to_json coder (deleteModel 2 sample_db)) = val "".
Proof.
  apply (deleteModel_leaves_dangling_agent_link 2 _ sample_db).
  - vm_compute. apply list_elem_of_further, list_elem_of_here.
  - reflexivity.
Defined.

(** X13.  A default parameter stands in for a missing field only.  A model
    written without a display name gets its model name and, without
    supports_reasoning, the value 1; an explicit null display name is
    bound as NULL and rejected by the NOT NULL column. *)
Theorem model_defaults_apply_to_missing_fields_only
    (id : js Z) (pid : Z) (n : string) (extra_info : js string) (d : DB) :
  truthy id = false ->
  (forall supports_reasoning,
     createOrUpdateModel id (val pid) (val n) null extra_info
                         supports_reasoning d
     = Throw (sqlite_not_null "models.display_name")) /\
  (exists d' r,
     createOrUpdateModel id (val pid) (val n) undefined extra_info undefined d
     = Ok d' /\
     r ∈ models d' /\ m_provider_id r = pid /\ m_model_name r = n /\
     m_display_name r = n /\ m_supports_reasoning r = 1).
Proof.
  intros Hid. unfold createOrUpdateModel. rewrite Hid. split.
  - reflexivity.
  - unfold upsert_model. simpl.
    destruct (existsb _ (models d)) eqn:Hex.
    + apply existsb_true_elem in Hex as (r0 & Hr0 & Hsame).
      eexists _, (mkModel (m_id r0) pid n n _ 1).
      split; [reflexivity|]. split; [|by repeat split].
      simpl. apply list_elem_of_fmap. exists r0. by rewrite Hsame.
    + eexists _, (mkModel _ pid n n _ 1).
      split; [reflexivity|]. split; [|by repeat split].
      simpl. apply elem_of_app. right. apply list_elem_of_here.
Qed.

Lemma model_defaults_apply_to_missing_fields_only_witness :
  (forall supports_reasoning,
     createOrUpdateModel undefined (val 1) (val "o4") null undefined
                         supports_reasoning sample_db
     = Throw (sqlite_not_null "models.display_name")) /\
  (exists d' r,
     createOrUpdateModel undefined (val 1) (val "o4") undefined undefined
                         undefined sample_db
     = Ok d' /\
     r ∈ models d' /\ m_provider_id r = 1 /\ m_model_name r = "o4" /\
     m_display_name r = "o4" /\ m_supports_reasoning r = 1).
Proof.
  apply (model_defaults_apply_to_missing_fields_only undefined 1 "o4"
           undefined sample_db).
  reflexivity.
Defined.

Lemma createOrUpdateModel_rows (id provider_id : js Z)
    (model_name extra_info : js string) (supports_reasoning : js bool)
    (d d' : DB) :
  createOrUpdateModel id provider_id model_name undefined extra_info
                      supports_reasoning d = Ok d' ->
  forall r, r ∈ models d' ->
    r ∈ models d \/ m_display_name r = m_model_name r.
Proof.
  unfold createOrUpdateModel. simpl. intros Hrun r Hr.
  destruct (truthy id).
  - unfold update_model_by_id in Hrun.
    destruct (existsb _ (models d)); [|by injection Hrun as <-; left].
    destruct (bind_param provider_id) as [pid|]; [|discriminate].
    destruct (bind_param model_name) as [n|] eqn:Hn; [|discriminate].
    destruct (existsb _ (models d)); [discriminate|].
    injection Hrun as <-. simpl in Hr.
    apply list_elem_of_fmap in Hr as (r0 & -> & Hr0).
    destruct (bool_decide _); [by right | by left].
  - unfold upsert_model in Hrun.
    destruct (bind_param provider_id) as [pid|]; [|discriminate].
    destruct (bind_param model_name) as [n|] eqn:Hn; [|discriminate].
    destruct (existsb _ (models d)).
    + injection Hrun as <-. simpl in Hr.
      apply list_elem_of_fmap in Hr as (r0 & -> & Hr0).
      destruct (_ && _); [by right | by left].
    + injection Hrun as <-. simpl in Hr.
      apply elem_of_app in Hr as [Hr|Hr]; [by left|].
      apply list_elem_of_singleton in Hr as ->. by right.
Qed.

Lemma createOrUpdateProvider_rows (id : js Z)
    (provider_name extra_info : js string) (d d' : DB) :
  createOrUpdateProvider id provider_name undefined extra_info d = Ok d' ->
  forall r, r ∈ model_providers d' ->
    r ∈ model_providers d \/ p_display_name r = p_provider_name r.
Proof.
  unfold createOrUpdateProvider. simpl. intros Hrun r Hr.
  destruct (truthy id).
  - unfold update_provider_by_id in Hrun.
    destruct (existsb _ (model_providers d)); [|by injection Hrun as <-; left].
    destruct (bind_param provider_name) as [n|] eqn:Hn; [|discriminate].
    destruct (existsb _ (model_providers d)); [discriminate|].
    injection Hrun as <-. simpl in Hr.
    apply list_elem_of_fmap in Hr as (r0 & -> & Hr0).
    destruct (bool_decide _); [by right | by left].
  - unfold upsert_provider in Hrun.
    destruct (bind_param provider_name) as [n|] eqn:Hn; [|discriminate].
    destruct (existsb _ (model_providers d)).
    + injection Hrun as <-. simpl in Hr.
      apply list_elem_of_fmap in Hr as (r0 & -> & Hr0).
      destruct (bool_decide _); [by right | by left].
    + injection Hrun as <-. simpl in Hr.
      apply elem_of_app in Hr as [Hr|Hr]; [by left|].
      apply list_elem_of_singleton in Hr as ->. by right.
Qed.

(** ** Routes *)

Ltac run_route :=
  unfold try_catch, bind, select, exec, exec_result, exec_changes, respond,
         method_not_allowed, log_error, print, ret, throw;
  simpl.

(** X14.  The models and model-providers routes never forward a display
    name: every row such a request leaves in the table was there before or
    has its name as its display name. *)
Theorem routes_store_name_as_display_name
    (mreq : Request ModelsQuery ModelsBody)
    (preq : Request ProvidersQuery ProvidersBody) (w : World) :
  (forall r, r ∈ models (db (models_handler mreq w).2) ->
     r ∈ models (db w) \/ m_display_name r = m_model_name r) /\
  (forall r, r ∈ model_providers (db (model_providers_handler preq w).2) ->
     r ∈ model_providers (db w) \/ p_display_name r = p_provider_name r).
Proof.
  split.
  - unfold models_handler.
    destruct (bool_decide (method mreq = "GET")).
    { destruct (truthy (q_model_id (query mreq))); run_route.
      - destruct (getModelById _ _); simpl; by left.
      - destruct (truthy (q_withProviders (query mreq))); simpl; by left. }
    destruct (bool_decide (method mreq = "POST")
              || bool_decide (method mreq = "PUT")).
    { destruct (negb _ || negb _); run_route; [by left|].
      destruct (createOrUpdateModel _ _ _ _ _ _ (db w)) as [d'|e] eqn:Hrun;
        simpl; [|by left].
      by apply (createOrUpdateModel_rows _ _ _ _ _ _ _ Hrun). }
    destruct (bool_decide (method mreq = "DELETE")); run_route; [|by left].
    destruct (negb _); simpl; [by left|].
    intros r Hr. left. by apply list_elem_of_filter in Hr as [_ Hr].
  - unfold model_providers_handler.
    destruct (bool_decide (method preq = "GET")); [run_route; by left|].
    destruct (bool_decide (method preq = "POST")
              || bool_decide (method preq = "PUT")).
    { destruct (negb _); run_route; [by left|].
      destruct (createOrUpdateProvider _ _ _ _ (db w)) as [d'|e] eqn:Hrun;
        simpl; [|by left].
      by apply (createOrUpdateProvider_rows _ _ _ _ _ Hrun). }
    destruct (bool_decide (method preq = "DELETE")); run_route; [|by left].
    destruct (negb _); simpl; [by left|].
    intros r Hr. left. by apply list_elem_of_filter in Hr as [_ Hr].
Qed.

Lemma try_catch_answers (body handler_body : M Response) (prefix : string)
    (w : World) (P : Response -> Prop) :
  (forall resp w', body w = (Ok resp, w') -> P resp) ->
  (forall w', exists resp w'', handler_body w' = (Ok resp, w'') /\ P resp) ->
  exists resp w',
    try_catch body (fun err => log_error prefix err ;;; handler_body) w
    = (Ok resp, w') /\ P resp.
Proof.
  intros Hbody Hhandler. unfold try_catch.
  destruct (body w) as [[resp|e] w'] eqn:Hrun.
  - exists resp, w'. split; [reflexivity|]. by apply (Hbody resp w').
  - unfold log_error, bind, print.
    destruct (Hhandler (mkWorld (db w') (templates w')
                (console w' ++ [console_error (prefix +:+ " " +:+ message e)])))
      as (resp & w'' & Hh & HP).
    exists resp, w''. by rewrite Hh.
Qed.

Ltac in_statuses :=
  simpl; unfold route_statuses;
  repeat first [apply list_elem_of_here | apply list_elem_of_further].

Ltac answered := eexists _, _; split; [reflexivity | in_statuses].

Ltac caught := apply try_catch_answers; [ | intros ?; answered ].

Lemma tasks_try_answers (req : Request TasksQuery TasksBody) (w : World) :
  exists resp w',
    try_catch (tasks_try req)
      (fun error =>
         log_error "Error in tasks API:" error ;;;
         respond 500 (json_error "Internal server error.")) w
    = (Ok resp, w') /\
    status resp ∈ route_statuses.
Proof.
  caught. unfold tasks_try.
  destruct (bool_decide (method req = "GET")).
  { destruct (truthy (tq_task_name (query req))); run_route.
    - intros resp w'. destruct (getTask _ _); intros [= <- <-]; in_statuses.
    - intros resp w' [= <- <-]; in_statuses. }
  destruct (bool_decide (method req = "POST")).
  { destruct (negb _); run_route;
      [intros resp w' [= <- <-]; in_statuses|].
    intros resp w'. destruct (createTask _ _ _); intros [= <- <-].
    in_statuses. }
  destruct (bool_decide (method req = "PUT")).
  { destruct (negb _); run_route;
      [intros resp w' [= <- <-]; in_statuses|].
    intros resp w'. destruct (updateTask _ _ _ _) as [[n d']|e];
      [|discriminate].
    destruct (bool_decide (n = 0)); intros [= <- <-]; in_statuses. }
  destruct (bool_decide (method req = "DELETE")).
  { destruct (negb _); run_route;
      [intros resp w' [= <- <-]; in_statuses|].
    intros resp w'.
    destruct (bool_decide _); intros [= <- <-]; in_statuses. }
  run_route. intros resp w' [= <- <-]; in_statuses.
Qed.

(** X15.  Five routes let no exception escape: whatever the request and
    the state, each returns a response, and its status is one of 200, 201,
    400, 404, 405 and 500.  The tasks route does so when its schema check
    returns; the check is awaited outside the [try], so an exception it
    throws escapes the handler. *)
Theorem routes_always_answer (w : World) :
  (forall req, exists resp w',
     agent_roles_handler req w = (Ok resp, w') /\
     status resp ∈ route_statuses) /\
  (forall req, exists resp w',
     models_handler req w = (Ok resp, w') /\ status resp ∈ route_statuses) /\
  (forall req, exists resp w',
     model_providers_handler req w = (Ok resp, w') /\
     status resp ∈ route_statuses) /\
  (forall check req,
     (forall w0, check w = (Ok tt, w0) ->
        exists resp w',
          tasks_route check req w = (Ok resp, w') /\
          status resp ∈ route_statuses) /\
     (forall e w0, check w = (Throw e, w0) ->
        tasks_route check req w = (Throw e, w0))) /\
  (forall req, exists resp w',
     templates_import_handler req w = (Ok resp, w') /\
     status resp ∈ route_statuses) /\
  (forall req, exists resp w',
     templates_export_handler req w = (Ok resp, w') /\
     status resp ∈ route_statuses).
Proof.
  split; [|split; [|split; [|split; [|split]]]].
  - intros req. unfold agent_roles_handler.
    destruct (bool_decide (method req = "GET")).
    { destruct (truthy (q_agent_role (query req))); caught.
      - run_route. intros resp w'.
        destruct (getAgentByType _ _); intros [= <- <-]; in_statuses.
      - run_route. intros resp w' [= <- <-]; in_statuses. }
    destruct (bool_decide (method req = "POST")).
    { destruct (negb _); [answered|]. caught. run_route.
      intros resp w'. destruct (setAgentDetails _ _); intros [= <- <-].
      in_statuses. }
    destruct (bool_decide (method req = "PUT")).
    { destruct (negb _); [answered|]. caught. run_route.
      intros resp w'. destruct (setAgentDetails _ _); intros [= <- <-].
      in_statuses. }
    destruct (bool_decide (method req = "DELETE")); [|answered].
    destruct (negb _); [answered|]. caught. run_route.
    intros resp w' [= <- <-]. in_statuses.
  - intros req. unfold models_handler.
    destruct (bool_decide (method req = "GET")).
    { destruct (truthy (q_model_id (query req))); caught.
      - run_route. intros resp w'.
        destruct (getModelById _ _); intros [= <- <-]; in_statuses.
      - destruct (truthy (q_withProviders (query req))); run_route;
          intros resp w' [= <- <-]; in_statuses. }
    destruct (_ || _).
    { destruct (_ || _); [answered|]. caught. run_route.
      intros resp w'. destruct (createOrUpdateModel _ _ _ _ _ _ _);
        intros [= <- <-]. in_statuses. }
    destruct (bool_decide (method req = "DELETE")); [|answered].
    destruct (negb _); [answered|]. caught. run_route.
    intros resp w' [= <- <-]. in_statuses.
  - intros req. unfold model_providers_handler.
    destruct (bool_decide (method req = "GET")).
    { caught. run_route. intros resp w' [= <- <-]; in_statuses. }
    destruct (_ || _).
    { destruct (negb _); [answered|]. caught. run_route.
      intros resp w'. destruct (createOrUpdateProvider _ _ _ _ _);
        intros [= <- <-]. in_statuses. }
    destruct (bool_decide (method req = "DELETE")); [|answered].
    destruct (negb _); [answered|]. caught. run_route.
    intros resp w' [= <- <-]. in_statuses.
  - intros check req. unfold tasks_route. split.
    + intros w0 Hcheck. erewrite bind_ok; [|exact Hcheck].
      apply tasks_try_answers.
    + intros e w0 Hcheck. by apply bind_throw.
  - intros req. unfold templates_import_handler.
    destruct (negb _); [answered|]. caught.
    unfold bind. intros resp w'.
    destruct (importTemplate _ _ _) as [[[]|e] w1]; [|discriminate].
    intros [= <- <-]. in_statuses.
  - intros req. unfold templates_export_handler.
    destruct (negb _); [answered|]. caught.
    unfold bind at 1. intros resp w'.
    destruct (exportTemplate _ _) as [[[]|e] w1]; [|discriminate].
    intros [= <- <-]. in_statuses.
Qed.

Lemma other_method_tests (m : string) :
  other_method m ->
  bool_decide (m = "GET") = false /\ bool_decide (m = "POST") = false /\
  bool_decide (m = "PUT") = false /\ bool_decide (m = "DELETE") = false.
Proof.
  intros (? & ? & ? & ?). repeat split; by apply bool_decide_eq_false_2.
Qed.

(** X16.  A method a route does not handle is answered with 405 and the
    Allow header, and nothing is read or written: the four entity routes
    allow GET, POST, PUT and DELETE, the two template routes POST only. *)
Theorem unhandled_methods_get_405
    (m : string) (w : World)
    (areq : Request AgentRolesQuery AgentDetails)
    (mreq : Request ModelsQuery ModelsBody)
    (preq : Request ProvidersQuery ProvidersBody)
    (treq : Request TasksQuery TasksBody)
    (ireq ereq : Request TemplateQuery unit) :
  other_method m ->
  method areq = m -> method mreq = m -> method preq = m ->
  method treq = m -> method ireq = m -> method ereq = m ->
  agent_roles_handler areq w
  = (Ok (not_allowed ("Method " +:+ m +:+ " Not Allowed")), w) /\
  models_handler mreq w
  = (Ok (not_allowed ("Method " +:+ m +:+ " Not Allowed")), w) /\
  model_providers_handler preq w
  = (Ok (not_allowed ("Method " +:+ m +:+ " Not Allowed")), w) /\
  tasks_handler treq w
  = (Ok (not_allowed ("Method " +:+ m +:+ " is not allowed.")), w) /\
  templates_import_handler ireq w
  = (Ok (mkResponse 405 ["POST"] (plain_text "Method Not Allowed")), w) /\
  templates_export_handler ereq w
  = (Ok (mkResponse 405 ["POST"] (plain_text "Method Not Allowed")), w).
Proof.
  intros Hother Ha Hm Hp Ht Hi He.
  destruct (other_method_tests m Hother) as (Hget & Hpost & Hput & Hdel).
  unfold agent_roles_handler, models_handler, model_providers_handler,
         tasks_handler, tasks_route, tasks_try, templates_import_handler,
         templates_export_handler, checkDBSchema.
  rewrite Ha, Hm, Hp, Ht, Hi, He, Hget, Hpost, Hput, Hdel. simpl.
  repeat split.
Qed.

Lemma unhandled_methods_get_405_witness :
  let areq := mkRequest "PATCH" (mkAgentRolesQuery undefined) no_details in
  let mreq := mkRequest "PATCH" (mkModelsQuery undefined undefined undefined)
                (mkModelsBody undefined undefined undefined undefined
                              undefined) in
  let preq := mkRequest "PATCH" (mkProvidersQuery undefined)
                (mkProvidersBody undefined undefined undefined) in
  let treq := mkRequest "PATCH" (mkTasksQuery undefined undefined)
                (mkTasksBody undefined undefined undefined) in
  let ireq := mkRequest "PATCH" (mkTemplateQuery undefined) tt in
  agent_roles_handler areq sample_world
  = (Ok (not_allowed ("Method " +:+ "PATCH" +:+ " Not Allowed")),
     sample_world) /\
  models_handler mreq sample_world
  = (Ok (not_allowed ("Method " +:+ "PATCH" +:+ " Not Allowed")),
     sample_world) /\
  model_providers_handler preq sample_world
  = (Ok (not_allowed ("Method " +:+ "PATCH" +:+ " Not Allowed")),
     sample_world) /\
  tasks_handler treq sample_world
  = (Ok (not_allowed ("Method " +:+ "PATCH" +:+ " is not allowed.")),
     sample_world) /\
  templates_import_handler ireq sample_world
  = (Ok (mkResponse 405 ["POST"] (plain_text "Method Not Allowed")),
     sample_world) /\
  templates_export_handler ireq sample_world
  = (Ok (mkResponse 405 ["POST"] (plain_text "Method Not Allowed")),
     sample_world).
Proof.
  apply (unhandled_methods_get_405 "PATCH" sample_world); try reflexivity.
  repeat split; discriminate.
Defined.


(** DELETE with [?id=0] is no 400: no row has the id 0, the models and
    model-providers routes answer 200 all the same and the tasks route
    answers 404. *)
Example delete_with_id_zero_is_not_a_bad_request :
  status_of (models_handler
               (mkRequest "DELETE"
                  (mkModelsQuery undefined undefined (val (numeral 0)))
                  (mkModelsBody undefined undefined undefined undefined
                                undefined))
               sample_world) = Some 200 /\
  status_of (model_providers_handler
               (mkRequest "DELETE" (mkProvidersQuery (val (numeral 0)))
                  (mkProvidersBody undefined undefined undefined))
               sample_world) = Some 200 /\
  status_of (tasks_handler
               (mkRequest "DELETE" (mkTasksQuery undefined (val (numeral 0)))
                  (mkTasksBody undefined undefined undefined))
               sample_world) = Some 404.
Proof. split_and!; vm_compute; reflexivity. Qed.

(** X18.  A GET never writes: on each of the four entity routes the
    database, the template folders and the console are after the request
    what they were before it. *)
Theorem get_requests_change_nothing (w : World) :
  (forall req, method req = "GET" -> (agent_roles_handler req w).2 = w) /\
  (forall req, method req = "GET" -> (models_handler req w).2 = w) /\
  (forall req, method req = "GET" -> (model_providers_handler req w).2 = w) /\
  (forall req, method req = "GET" -> (tasks_handler req w).2 = w).
Proof.
  repeat split; intros req Hm.
  - unfold agent_roles_handler. rewrite Hm. simpl.
    destruct (truthy (q_agent_role (query req))); run_route; [|reflexivity].
    by destruct (getAgentByType _ _).
  - unfold models_handler. rewrite Hm. simpl.
    destruct (truthy (q_model_id (query req))); run_route.
    + by destruct (getModelById _ _).
    + by destruct (truthy (q_withProviders (query req))).
  - unfold model_providers_handler. rewrite Hm. reflexivity.
  - unfold tasks_handler, tasks_route, tasks_try. rewrite Hm. simpl.
    destruct (truthy (tq_task_name (query req))); run_route; [|reflexivity].
    by destruct (getTask _ _).
Qed.

Lemma world_same (w : World) : mkWorld (db w) (templates w) (console w) = w.
Proof. by destruct w. Qed.

Lemma deleteTask_miss (id : Z) (d : DB) :
  (forall t, t ∈ tasks d -> t_id t <> id) -> deleteTask id d = (0, d).
Proof.
  intros Hmiss. unfold deleteTask.
  rewrite (filter_all (fun r => t_id r <> id)) by exact Hmiss.
  rewrite set_tasks_same. f_equal.
  replace (filter (fun r => t_id r = id) (tasks d)) with (@nil TaskRow);
    [reflexivity|].
  symmetry. apply empty_of_no_elem. intros t Ht.
  apply list_elem_of_filter in Ht as [Heq Ht]. by apply (Hmiss t Ht).
Qed.

Lemma updateTask_miss (id : Z) (task_name task_prompt : js string) (d : DB) :
  (forall t, t ∈ tasks d -> t_id t <> id) ->
  updateTask id task_name task_prompt d = Ok (0, d).
Proof.
  intros Hmiss. unfold updateTask.
  rewrite existsb_no_hit; [reflexivity|].
  intros t Ht. apply bool_decide_eq_false_2. by apply Hmiss.
Qed.

(** X19.  The tasks route answers 404 for a task it does not have: a GET
    by an unknown name, and a PUT or DELETE by an unknown id, which change
    nothing. *)
Theorem tasks_route_unknown_task_gets_404
    (n : string) (id : Z) (w : World)
    (get put del : Request TasksQuery TasksBody) :
  n <> "" -> getTask n (db w) = None ->
  id <> 0 -> (forall t, t ∈ tasks (db w) -> t_id t <> id) ->
  method get = "GET" -> tq_task_name (query get) = val n ->
  method put = "PUT" -> tb_id (body put) = val id ->
  method del = "DELETE" -> tq_id (query del) = val (numeral id) ->
  tasks_handler get w
  = (Ok (mkResponse 404 [] (json_error "Task not found.")), w) /\
  tasks_handler put w
  = (Ok (mkResponse 404 [] (json_error "Task not found.")), w) /\
  tasks_handler del w
  = (Ok (mkResponse 404 [] (json_error "Task not found.")), w).
Proof.
  intros Hn Hnone Hid Hmiss Hget Hgetq Hput Hputb Hdel Hdelq.
  apply truthy_string_true in Hn. apply truthy_Z_true in Hid.
  unfold tasks_handler, tasks_route, tasks_try, checkDBSchema.
  rewrite Hget, Hput, Hdel, Hgetq, Hputb, Hdelq. simpl.
  change (truthy (val n)) with (truthy n).
  change (truthy (val id)) with (truthy id). rewrite Hn, Hid. simpl.
  unfold try_catch, bind, select, exec_changes, respond, ret. cbv beta.
  rewrite Hnone, (updateTask_miss id), (deleteTask_miss id) by exact Hmiss.
  simpl. by rewrite world_same.
Qed.

Lemma tasks_route_unknown_task_gets_404_witness :
  let get := mkRequest "GET" (mkTasksQuery (val "deploy") undefined)
               (mkTasksBody undefined undefined undefined) in
  let put := mkRequest "PUT" (mkTasksQuery undefined undefined)
               (mkTasksBody (val 9) (val "deploy") undefined) in
  let del := mkRequest "DELETE" (mkTasksQuery undefined (val (numeral 9)))
               (mkTasksBody undefined undefined undefined) in
  tasks_handler get sample_world
  = (Ok (mkResponse 404 [] (json_error "Task not found.")), sample_world) /\
  tasks_handler put sample_world
  = (Ok (mkResponse 404 [] (json_error "Task not found.")), sample_world) /\
  tasks_handler del sample_world
  = (Ok (mkResponse 404 [] (json_error "Task not found.")), sample_world).
Proof.
  apply (tasks_route_unknown_task_gets_404 "deploy" 9 sample_world);
    try reflexivity; try discriminate.
  intros t Ht. vm_compute in Ht. apply list_elem_of_singleton in Ht as ->.
  discriminate.
Defined.

Lemma find_snoc_new {A} (p : A -> bool) (l : list A) (x : A) :
  find p l = None -> p x = true -> find p (l ++ [x]) = Some x.
Proof.
  intros Hnone Hx. induction l as [|a l IH]; simpl in *; [by rewrite Hx|].
  destruct (p a); [discriminate | by apply IH].
Qed.

Lemma getTask_created (n : string) (p : js string) (d d' : DB) :
  createTask (val n) p d = Ok d' ->
  getTask n d = None /\
  getTask n d'
  = Some (mkTask (tasks_seq d + 1) n (bind_param (default_param p (val "")))) /\
  forall other, other <> n -> getTask other d' = getTask other d.
Proof.
  unfold createTask. simpl.
  destruct (existsb _ (tasks d)) eqn:Hex; [discriminate|]. intros [= <-].
  assert (getTask n d = None) as Hnone.
  { unfold getTask. destruct (find _ (tasks d)) as [t|] eqn:Ht; [|reflexivity].
    apply find_elem in Ht as [Hin Hkey].
    pose proof (existsb_false_elem _ _ _ Hex Hin). simpl in *. congruence. }
  split; [exact Hnone|]. unfold getTask in *. simpl. split.
  - apply find_snoc_new; [exact Hnone|]. simpl. by apply bool_decide_eq_true_2.
  - intros other Hother. apply find_snoc_other. simpl.
    by apply bool_decide_eq_false_2.
Qed.

(** X20.  A task created through the route is served by it: POST with a
    free, non-empty name answers 201, and GET by that name then answers 200
    with the name and the prompt, a missing prompt as the empty string;
    every other name is looked up as before. *)
Theorem created_task_is_served
    (n : string) (w : World) (post get : Request TasksQuery TasksBody) :
  n <> "" -> getTask n (db w) = None ->
  method post = "POST" -> tb_task_name (body post) = val n ->
  method get = "GET" -> tq_task_name (query get) = val n ->
  exists w' id,
    tasks_handler post w
    = (Ok (mkResponse 201 [] (json_message "Task created successfully.")),
       w') /\
    tasks_handler get w'
    = (Ok (mkResponse 200 []
             (json_task
                (mkTask id n (Some (or_else (tb_task_prompt (body post)) ""))))),
       w') /\
    forall other, other <> n -> getTask other (db w') = getTask other (db w).
Proof.
  intros Hn Hfree Hpost Hname Hget Hquery.
  destruct (createTask (val n) (val (or_else (tb_task_prompt (body post)) ""))
                       (db w)) as [d'|e] eqn:Hrun.
  - destruct (getTask_created _ _ _ _ Hrun) as (_ & Hnew & Hothers).
    exists (mkWorld d' (templates w) (console w)), (tasks_seq (db w) + 1).
    apply truthy_string_true in Hn.
    unfold tasks_handler, tasks_route, tasks_try, checkDBSchema.
    rewrite Hpost, Hname, Hget, Hquery. simpl.
    change (truthy (val n)) with (truthy n). rewrite Hn. simpl.
    unfold try_catch, bind, select, exec_result, respond, ret. cbv beta.
    rewrite Hrun. simpl. rewrite Hnew. by repeat split.
  - exfalso. unfold createTask in Hrun. simpl in Hrun.
    rewrite find_none_existsb in Hrun by exact Hfree. discriminate.
Qed.

Lemma created_task_is_served_witness :
  let post := mkRequest "POST" (mkTasksQuery undefined undefined)
                (mkTasksBody undefined (val "release") undefined) in
  let get := mkRequest "GET" (mkTasksQuery (val "release") undefined)
               (mkTasksBody undefined undefined undefined) in
  exists w' id,
    tasks_handler post sample_world
    = (Ok (mkResponse 201 [] (json_message "Task created successfully.")),
       w') /\
    tasks_handler get w'
    = (Ok (mkResponse 200 []
             (json_task
                (mkTask id "release"
                        (Some (or_else (tb_task_prompt (body post)) ""))))),
       w') /\
    forall other, other <> "release" ->
      getTask other (db w') = getTask other (db sample_world).
Proof.
  apply (created_task_is_served "release" sample_world);
    try reflexivity; discriminate.
Defined.

Lemma existsb_hit {A} (f : A -> bool) (l : list A) (x : A) :
  x ∈ l -> f x = true -> existsb f l = true.
Proof.
  intros Hx Hf. apply existsb_exists. exists x. split; [|exact Hf].
  by apply list_elem_of_In.
Qed.

Lemma changes_positive {A} (P : A -> Prop) `{forall x, Decision (P x)}
    (l : list A) (x : A) :
  x ∈ l -> P x -> Z.of_nat (length (filter P l)) <> 0.
Proof.
  intros Hx HP.
  assert (x ∈ filter P l) as Hin by by apply list_elem_of_filter.
  destruct (filter P l); [by apply elem_of_nil in Hin | simpl; lia].
Qed.

(** X21.  PUT on the tasks route validates the id only.  For the id of a
    stored task, a body without task_name runs into the NOT NULL column and
    is answered with 500, nothing changed; an empty task_name, which POST
    refuses, is written when no other task has it. *)
Theorem tasks_put_validates_only_the_id
    (t : TaskRow) (w : World) (req : Request TasksQuery TasksBody) :
  t ∈ tasks (db w) -> t_id t <> 0 ->
  method req = "PUT" -> tb_id (body req) = val (t_id t) ->
  (is_nullish (tb_task_name (body req)) = true ->
   tasks_handler req w
   = (Ok (mkResponse 500 [] (json_error "Internal server error.")),
      with_error_logged "Error in tasks API:"
        (sqlite_not_null "tasks.task_name") w)) /\
  (tb_task_name (body req) = val "" ->
   (forall t', t' ∈ tasks (db w) -> t_task_name t' = "" -> t_id t' = t_id t) ->
   exists w' t',
     tasks_handler req w
     = (Ok (mkResponse 200 [] (json_message "Task updated successfully.")),
        w') /\
     t' ∈ tasks (db w') /\ t_id t' = t_id t /\ t_task_name t' = "").
Proof.
  intros Ht Hid Hput Hbody. apply truthy_Z_true in Hid.
  assert (existsb (fun r => bool_decide (t_id r = t_id t)) (tasks (db w))
          = true) as Hhit.
  { apply (existsb_hit _ _ t Ht). by apply bool_decide_eq_true_2. }
  unfold tasks_handler, tasks_route, tasks_try, checkDBSchema.
  rewrite Hput, Hbody. simpl.
  change (truthy (val (t_id t))) with (truthy (t_id t)). rewrite Hid. simpl.
  unfold try_catch, bind, exec_changes, respond, ret, log_error, print,
         updateTask.
  cbv beta zeta. rewrite Hhit. split.
  - intros Hnull.
    destruct (tb_task_name (body req)); [reflexivity | reflexivity | discriminate].
  - intros -> Hfree. simpl.
    rewrite existsb_no_hit; cycle 1.
    { intros t' Ht'. apply andb_false_iff.
      destruct (decide (t_task_name t' = "")) as [He|Hne].
      - left. apply negb_false_iff, bool_decide_eq_true_2. by apply Hfree.
      - right. by apply bool_decide_eq_false_2. }
    rewrite bool_decide_eq_false_2
      by (apply (changes_positive (fun r => t_id r = t_id t) _ t Ht);
          reflexivity).
    eexists _, (mkTask (t_id t) "" _). split; [reflexivity|].
    split; [|by split]. simpl. apply list_elem_of_fmap. exists t.
    split; [|exact Ht]. by rewrite bool_decide_eq_true_2.
Qed.

Lemma tasks_put_validates_only_the_id_witness :
  let triage := mkTask 1 "triage" (Some "Sort the issues.") in
  let req := mkRequest "PUT" (mkTasksQuery undefined undefined)
               (mkTasksBody (val 1) undefined (val "Sort them.")) in
  (is_nullish (tb_task_name (body req)) = true ->
   tasks_handler req sample_world
   = (Ok (mkResponse 500 [] (json_error "Internal server error.")),
      with_error_logged "Error in tasks API:"
        (sqlite_not_null "tasks.task_name") sample_world)) /\
  (tb_task_name (body req) = val "" ->
   (forall t', t' ∈ tasks (db sample_world) -> t_task_name t' = "" ->
               t_id t' = t_id triage) ->
   exists w' t',
     tasks_handler req sample_world
     = (Ok (mkResponse 200 [] (json_message "Task updated successfully.")),
        w') /\
     t' ∈ tasks (db w') /\ t_id t' = t_id triage /\ t_task_name t' = "").
Proof.
  apply (tasks_put_validates_only_the_id
           (mkTask 1 "triage" (Some "Sort the issues.")) sample_world);
    try reflexivity; try discriminate.
  vm_compute. apply list_elem_of_here.
Defined.



(** ** What the template manager leaves alone *)

Section keeps.
Context (P : DB -> Prop).

Lemma keeps_ret {A} (a : A) : keeps P (ret a).
Proof. by intros w. Qed.

Lemma keeps_throw {A} (e : Error) : keeps P (@throw A e).
Proof. by intros w. Qed.

Lemma keeps_bind {A B} (m : M A) (k : A -> M B) :
  keeps P m -> (forall a, keeps P (k a)) -> keeps P (bind m k).
Proof.
  intros Hm Hk w HP. unfold bind. destruct (Hm w HP) as [HP' Ht].
  destruct (m w) as [[a|e] w']; simpl in *; [|done].
  destruct (Hk a w' HP') as [HP'' Ht']. split; [done | congruence].
Qed.

Lemma keeps_for_of {A} (l : list A) (f : A -> M unit) :
  (forall x, keeps P (f x)) -> keeps P (for_of l f).
Proof.
  intros Hf. induction l as [|x l IH]; simpl; [apply keeps_ret|].
  apply keeps_bind; [apply Hf | intros _; exact IH].
Qed.

Lemma keeps_select {A} (f : DB -> A) : keeps P (select f).
Proof. by intros w. Qed.

Lemma keeps_print (l : LogLine) : keeps P (print l).
Proof. by intros w. Qed.

Lemma keeps_loadYAML {A} (templateName : string) (f : YamlFile A) :
  keeps P (loadYAML templateName f).
Proof. by intros w. Qed.

Lemma keeps_exec (f : DB -> DB) :
  (forall d, P d -> P (f d)) -> keeps P (exec f).
Proof. intros Hf w HP. split; [by apply Hf | reflexivity]. Qed.

Lemma keeps_exec_result (f : DB -> Result DB) :
  (forall d d', P d -> f d = Ok d' -> P d') -> keeps P (exec_result f).
Proof.
  intros Hf w HP. unfold exec_result.
  destruct (f (db w)) as [d'|e] eqn:Hrun; simpl; [|done].
  split; [by apply (Hf (db w)) | reflexivity].
Qed.

Lemma keeps_log_wiped {A} (rows : list A) (what : string) :
  keeps P (log_wiped rows what).
Proof.
  unfold log_wiped. case_bool_decide; [apply keeps_ret | apply keeps_print].
Qed.

(** The manager operations the import calls. *)
Hypothesis kept_createOrUpdateProvider :
  forall d d' id provider_name display_name extra_info,
    P d ->
    createOrUpdateProvider id provider_name display_name extra_info d = Ok d' ->
    P d'.
Hypothesis kept_deleteProvider : forall d id, P d -> P (deleteProvider id d).
Hypothesis kept_createOrUpdateModel :
  forall d d' id provider_id model_name display_name extra_info
         supports_reasoning,
    P d ->
    createOrUpdateModel id provider_id model_name display_name extra_info
                        supports_reasoning d = Ok d' ->
    P d'.
Hypothesis kept_deleteModel : forall d id, P d -> P (deleteModel id d).
Hypothesis kept_setAgentDetails :
  forall d d' details, P d -> setAgentDetails details d = Ok d' -> P d'.
Hypothesis kept_deleteAgentType :
  forall d agent_role, P d -> P (deleteAgentType agent_role d).
Hypothesis kept_createTask :
  forall d d' task_name task_prompt,
    P d -> createTask task_name task_prompt d = Ok d' -> P d'.
Hypothesis kept_deleteTask : forall d id, P d -> P (deleteTask id d).2.

Lemma keeps_wipe_all : keeps P wipe_all.
Proof.
  unfold wipe_all.
  repeat first
    [ apply keeps_bind; [|intros ?]
    | apply keeps_select
    | apply keeps_log_wiped
    | apply keeps_for_of; intros ?
    | apply keeps_exec; intros ? ? ]; auto.
Qed.

Lemma keeps_import_provider (y : ProviderYaml) : keeps P (import_provider y).
Proof.
  unfold import_provider.
  apply keeps_bind; [|intros _; apply keeps_print].
  apply keeps_exec_result. eauto.
Qed.

Lemma keeps_import_model (provMap : gmap string Z) (y : ModelYaml) :
  keeps P (import_model provMap y).
Proof.
  unfold import_model.
  apply keeps_bind; [|intros _; apply keeps_bind; [|intros _; apply keeps_print]].
  - destruct (is_nullish _); [apply keeps_throw | apply keeps_ret].
  - apply keeps_exec_result. eauto.
Qed.

Lemma keeps_import_agent (modelMap : gmap string Z) (a : AgentYaml) :
  keeps P (import_agent modelMap a).
Proof.
  unfold import_agent.
  apply keeps_bind.
  - destruct (_ && _).
    + apply keeps_bind; [|intros _; apply keeps_ret].
      destruct (is_nullish _); apply keeps_print.
    + apply keeps_bind; [apply keeps_print | intros _; apply keeps_ret].
  - intros model_id.
    apply keeps_bind; [|intros _; apply keeps_print].
    apply keeps_exec_result. eauto.
Qed.

Lemma keeps_import_task (y : TaskYaml) : keeps P (import_task y).
Proof.
  unfold import_task.
  apply keeps_bind; [|intros _; apply keeps_print].
  apply keeps_exec_result. eauto.
Qed.

Lemma keeps_import_providers (templateName : string) :
  keeps P (import_providers templateName).
Proof.
  unfold import_providers.
  repeat first
    [ apply keeps_bind; [|intros ?]
    | apply keeps_loadYAML | apply keeps_select | apply keeps_print
    | apply keeps_ret
    | apply keeps_for_of; intros ?; apply keeps_import_provider ].
Qed.

Lemma keeps_import_models (templateName : string) (provMap : gmap string Z) :
  keeps P (import_models templateName provMap).
Proof.
  unfold import_models.
  repeat first
    [ apply keeps_bind; [|intros ?]
    | apply keeps_loadYAML | apply keeps_select | apply keeps_print
    | apply keeps_ret
    | apply keeps_for_of; intros ?; apply keeps_import_model ].
Qed.

Lemma keeps_import_agents (templateName : string) (modelMap : gmap string Z) :
  keeps P (import_agents templateName modelMap).
Proof.
  unfold import_agents.
  repeat first
    [ apply keeps_bind; [|intros ?]
    | apply keeps_loadYAML | apply keeps_print
    | apply keeps_for_of; intros ?; apply keeps_import_agent ].
Qed.

Lemma keeps_import_tasks (templateName : string) :
  keeps P (import_tasks templateName).
Proof.
  unfold import_tasks.
  repeat first
    [ apply keeps_bind; [|intros ?]
    | apply keeps_loadYAML | apply keeps_print
    | apply keeps_for_of; intros ?; apply keeps_import_task ].
Qed.

Lemma keeps_importTemplate (templateName : string) (wipe : bool) :
  keeps P (importTemplate templateName wipe).
Proof.
  unfold importTemplate.
  apply keeps_bind;
    [destruct wipe; [apply keeps_wipe_all | apply keeps_ret] | intros _].
  apply keeps_bind; [apply keeps_import_providers | intros provMap].
  apply keeps_bind; [apply keeps_import_models | intros modelMap].
  apply keeps_bind; [apply keeps_import_agents | intros _].
  apply keeps_bind; [apply keeps_import_tasks | intros _].
  apply keeps_print.
Qed.

End keeps.

Lemma importTemplate_keeps_reachable (templateName : string) (wipe : bool) :
  keeps reachable (importTemplate templateName wipe).
Proof.
  apply keeps_importTemplate; intros.
  - eapply reach_createOrUpdateProvider; eauto.
  - by apply reach_deleteProvider.
  - eapply reach_createOrUpdateModel; eauto.
  - by apply reach_deleteModel.
  - eapply reach_setAgentDetails; eauto.
  - by apply reach_deleteAgentType.
  - eapply reach_createTask; eauto.
  - by apply reach_deleteTask.
Qed.

(** X23.  An import, with or without the wipe and whether it completes or
    throws half-way, leaves a database the managers could have produced
    themselves, so every stored row is still well formed; and it never
    writes to a template folder. *)
Theorem import_leaves_a_well_formed_store
    (templateName : string) (wipe : bool) (w : World) :
  reachable (db w) ->
  reachable (db (importTemplate templateName wipe w).2) /\
  db_invariant (db (importTemplate templateName wipe w).2) /\
  templates (importTemplate templateName wipe w).2 = templates w.
Proof.
  intros Hreach.
  destruct (importTemplate_keeps_reachable templateName wipe w Hreach)
    as [Hr Ht].
  split; [exact Hr|]. split; [by apply reachable_invariant | exact Ht].
Qed.

Lemma import_leaves_a_well_formed_store_witness :
  reachable (db (importTemplate "broken" true broken_world).2) /\
  db_invariant (db (importTemplate "broken" true broken_world).2) /\
  templates (importTemplate "broken" true broken_world).2
  = templates broken_world.
Proof.
  apply (import_leaves_a_well_formed_store "broken" true broken_world).
  exact sample_db_reachable.
Defined.

Lemma createOrUpdateProvider_tasks d d' id provider_name display_name
    extra_info :
  createOrUpdateProvider id provider_name display_name extra_info d = Ok d' ->
  tasks d' = tasks d.
Proof.
  unfold createOrUpdateProvider, update_provider_by_id, upsert_provider.
  intros Hrun.
  repeat match type of Hrun with
         | (if ?c then _ else _) = _ => destruct c
         | match ?c with _ => _ end = _ => destruct c
         end; try discriminate; by injection Hrun as <-.
Qed.

Lemma createOrUpdateModel_tasks d d' id provider_id model_name display_name
    extra_info supports_reasoning :
  createOrUpdateModel id provider_id model_name display_name extra_info
                      supports_reasoning d = Ok d' ->
  tasks d' = tasks d.
Proof.
  unfold createOrUpdateModel, update_model_by_id, upsert_model.
  intros Hrun.
  repeat match type of Hrun with
         | (if ?c then _ else _) = _ => destruct c
         | match ?c with _ => _ end = _ => destruct c
         end; try discriminate; by injection Hrun as <-.
Qed.

Lemma setAgentDetails_tasks d d' details :
  setAgentDetails details d = Ok d' -> tasks d' = tasks d.
Proof.
  unfold setAgentDetails, insert_agent. intros Hrun.
  repeat match type of Hrun with
         | (if ?c then _ else _) = _ => destruct c
         | match ?c with _ => _ end = _ => destruct c
         end; try discriminate; by injection Hrun as <-.
Qed.

Lemma first_phases_keep_tasks (T : list TaskRow) (templateName : string) :
  keeps (fun d => tasks d = T) (import_providers templateName) /\
  (forall provMap,
     keeps (fun d => tasks d = T) (import_models templateName provMap)) /\
  (forall modelMap,
     keeps (fun d => tasks d = T) (import_agents templateName modelMap)).
Proof.
  split; [|split].
  - apply keeps_import_providers. intros d d' ? ? ? ? <- Hrun.
    by apply createOrUpdateProvider_tasks in Hrun.
  - intros provMap. apply keeps_import_models.
    intros d d' ? ? ? ? ? ? <- Hrun.
    by apply createOrUpdateModel_tasks in Hrun.
  - intros modelMap. apply keeps_import_agents.
    intros d d' ? <- Hrun. by apply setAgentDetails_tasks in Hrun.
Qed.

Lemma for_of_import_task_known (l : list TaskYaml) (y : TaskYaml)
    (n : string) (w : World) :
  y ∈ l -> ty_task_name y = val n ->
  n ∈ map t_task_name (tasks (db w)) ->
  exists e w', for_of l import_task w = (Throw e, w').
Proof.
  intros Hy Hname Hknown.
  apply list_elem_of_split in Hy as (l1 & l2 & ->).
  rewrite for_of_app.
  destruct (for_of l1 import_task w) as [[[]|e] w1] eqn:Hpre; [|by eauto].
  apply for_of_import_task_names in Hpre as [Hkept _].
  simpl. unfold bind at 1.
  rewrite (import_task_taken y n w1 Hname) by by apply Hkept.
  eauto.
Qed.

(** X24.  Tasks are inserted, never upserted: an import without the wipe
    throws whenever the template holds a task whose name the store already
    has, whatever else the template contains. *)
Theorem import_without_wipe_rejects_known_task_names
    (templateName : string) (w : World) (y : TaskYaml) (n : string) :
  y ∈ tasks_yaml (template_folder w templateName) ->
  ty_task_name y = val n ->
  n ∈ map t_task_name (tasks (db w)) ->
  exists e w', importTemplate templateName false w = (Throw e, w').
Proof.
  intros Hy Hname Hknown.
  destruct (first_phases_keep_tasks (tasks (db w)) templateName)
    as (Hprov & Hmod & Hag).
  unfold importTemplate. unfold bind at 1. simpl.
  unfold bind at 1. destruct (Hprov w eq_refl) as [Ht1 Hf1].
  destruct (import_providers templateName w) as [[provMap|e] w1];
    [|by eauto].
  simpl in Ht1, Hf1.
  unfold bind at 1. destruct (Hmod provMap w1 Ht1) as [Ht2 Hf2].
  destruct (import_models templateName provMap w1) as [[modelMap|e] w2];
    [|by eauto].
  simpl in Ht2, Hf2.
  unfold bind at 1. destruct (Hag modelMap w2 Ht2) as [Ht3 Hf3].
  destruct (import_agents templateName modelMap w2) as [[[]|e] w3];
    [|by eauto].
  simpl in Ht3, Hf3.
  unfold bind at 1. unfold import_tasks. unfold bind at 1.
  unfold loadYAML at 1. unfold bind at 1.
  assert (template_folder w3 templateName = template_folder w templateName)
    as Hfolder.
  { unfold template_folder. congruence. }
  simpl file_content. rewrite Hfolder.
  destruct (for_of_import_task_known _ y n w3 Hy Hname) as (e & w4 & ->);
    [congruence | by eauto].
Qed.

Lemma import_without_wipe_rejects_known_task_names_witness :
  exists e w', importTemplate "default" false exported_world = (Throw e, w').
Proof.
  apply (import_without_wipe_rejects_known_task_names "default" exported_world
           (mkTaskYaml (val "triage") (val "Sort the issues.")) "triage").
  - vm_compute. apply list_elem_of_here.
  - reflexivity.
  - vm_compute. apply list_elem_of_here.
Defined.








Lemma exportTemplate_templates (templateName : string) (w : World) :
  exists c,
    exportTemplate templateName w
    = (Ok tt, mkWorld (db w)
                (<[templateName := snapshot (db w)]> (templates w)) c).
Proof.
  unfold exportTemplate, bind, select, saveYAML, print. simpl.
  unfold template_folder. simpl.
  rewrite !lookup_insert_eq. simpl.
  rewrite !insert_insert_eq. eexists. reflexivity.
Qed.

(** X26.  An export under a plain name returns, reads the database
    without changing it, and replaces the folder of that name: the four
    files then hold the entities of the database, one record for each row
    of a well-formed database.  The folder of every other plain name
    stays as it is, and exporting again changes no folder. *)
Theorem exportTemplate_overwrites_one_folder
    (templateName : string) (w : World) :
  plain_name templateName = true ->
  exists w',
    exportTemplate templateName w = (Ok tt, w') /\
    db w' = db w /\
    templates w' = <[templateName := snapshot (db w)]> (templates w) /\
    (db_invariant (db w) ->
     folder_holds (template_folder w' templateName) (db w)) /\
    (forall other, plain_name other = true -> other <> templateName ->
       template_folder w' other = template_folder w other) /\
    (exportTemplate templateName w').1 = Ok tt /\
    templates (exportTemplate templateName w').2 = templates w'.
Proof.
  intros _.
  destruct (exportTemplate_templates templateName w) as [c Hrun].
  set (w' := mkWorld (db w)
               (<[templateName := snapshot (db w)]> (templates w)) c) in *.
  destruct (exportTemplate_templates templateName w') as [c' Hagain].
  exists w'. split; [exact Hrun|]. rewrite Hagain.
  split; [reflexivity|]. split; [reflexivity|]. split; [|split; [|split]].
  - intros Hinv. unfold template_folder. simpl. rewrite lookup_insert_eq.
    by apply snapshot_holds.
  - intros other _ Hother. unfold template_folder. simpl.
    by rewrite lookup_insert_ne.
  - reflexivity.
  - simpl. by rewrite insert_insert_eq.
Qed.

Lemma exportTemplate_overwrites_one_folder_witness :
  plain_name "default" = true /\
  exists w',
    exportTemplate "default" sample_world = (Ok tt, w') /\
    db w' = db sample_world /\
    templates w'
    = <["default" := snapshot (db sample_world)]> (templates sample_world) /\
    (db_invariant (db sample_world) ->
     folder_holds (template_folder w' "default") (db sample_world)) /\
    (forall other, plain_name other = true -> other <> "default" ->
       template_folder w' other = template_folder sample_world other) /\
    (exportTemplate "default" w').1 = Ok tt /\
    templates (exportTemplate "default" w').2 = templates w'.
Proof.
  split; [reflexivity|].
  apply (exportTemplate_overwrites_one_folder "default" sample_world).
  reflexivity.
Defined.

(** The names the folder map does not speak about: none of them is
    plain. *)
Example names_that_are_not_plain :
  plain_name "a/../b" = false /\ plain_name ".." = false /\
  plain_name "" = false /\ plain_name "Default" = false /\
  plain_name (String (Ascii.ascii_of_nat 0) "") = false.
Proof. split_and!; reflexivity. Qed.

(** X27.  For a plain template name, the export route writes the entities
    of the database into the folder named by the query, "default" when
    the name is missing or empty, answers 200 with a message that quotes
    the name, and leaves the database as it is. *)
Theorem export_route_writes_the_snapshot
    (req : Request TemplateQuery unit) (w : World) :
  method req = "POST" ->
  plain_name (or_else (q_name (query req)) "default") = true ->
  exists w',
    templates_export_handler req w
    = (Ok (mkResponse 200 []
             (json_message ("Exported template " +:+ dq
                              +:+ or_else (q_name (query req)) "default"
                              +:+ dq))), w') /\
    db w' = db w /\
    template_folder w' (or_else (q_name (query req)) "default")
    = snapshot (db w) /\
    (db_invariant (db w) ->
     folder_holds
       (template_folder w' (or_else (q_name (query req)) "default")) (db w)) /\
    (truthy (q_name (query req)) = false ->
     template_folder w' "default" = snapshot (db w)).
Proof.
  intros Hm _.
  destruct (exportTemplate_templates
              (or_else (q_name (query req)) "default") w) as [c Hrun].
  eexists. unfold templates_export_handler. rewrite Hm. simpl.
  unfold try_catch. erewrite bind_ok; [|exact Hrun].
  split; [reflexivity|]. split; [reflexivity|].
  assert (template_folder
            (mkWorld (db w)
               (<[or_else (q_name (query req)) "default" := snapshot (db w)]>
                  (templates w)) c)
            (or_else (q_name (query req)) "default") = snapshot (db w))
    as Hfolder.
  { unfold template_folder. simpl. by rewrite lookup_insert_eq. }
  split; [exact Hfolder|]. split.
  - intros Hinv. simpl. rewrite Hfolder. by apply snapshot_holds.
  - intros Hfalsy. rewrite (or_else_falsy _ _ Hfalsy) in Hfolder |- *.
    exact Hfolder.
Qed.

Lemma export_route_writes_the_snapshot_witness :
  let req := mkRequest "POST" (mkTemplateQuery (val "")) tt in
  plain_name (or_else (q_name (query req)) "default") = true /\
  exists w',
    templates_export_handler req sample_world
    = (Ok (mkResponse 200 []
             (json_message ("Exported template " +:+ dq
                              +:+ or_else (q_name (query req)) "default"
                              +:+ dq))), w') /\
    db w' = db sample_world /\
    template_folder w' (or_else (q_name (query req)) "default")
    = snapshot (db sample_world) /\
    (db_invariant (db sample_world) ->
     folder_holds
       (template_folder w' (or_else (q_name (query req)) "default"))
       (db sample_world)) /\
    (truthy (q_name (query req)) = false ->
     template_folder w' "default" = snapshot (db sample_world)).
Proof.
  split; [reflexivity|].
  apply (export_route_writes_the_snapshot
           (mkRequest "POST" (mkTemplateQuery (val "")) tt) sample_world).
  - reflexivity.
  - reflexivity.
Defined.

(** ** The tools route *)

Lemma prefix_app (p r : string) : String.prefix p (p +:+ r) = true.
Proof.
  induction p as [|a p IH]; simpl; [by destruct r|].
  by destruct (Ascii.ascii_dec a a).
Qed.

Lemma prefix_split (p s : string) :
  String.prefix p s = true -> exists r, s = p +:+ r.
Proof.
  revert s. induction p as [|a p IH]; intros s Hp; [by exists s|].
  destruct s as [|b s]; [discriminate|]. simpl in Hp.
  destruct (Ascii.ascii_dec a b) as [->|]; [|discriminate].
  destruct (IH s Hp) as [r ->]. by exists r.
Qed.

Lemma string_length_app (a b : string) :
  String.length (a +:+ b) = (String.length a + String.length b)%nat.
Proof. induction a as [|c a IH]; simpl; [reflexivity | by rewrite IH]. Qed.

Lemma substring_skip (a b : string) (k m : nat) :
  String.substring (String.length a + k) m (a +:+ b) = String.substring k m b.
Proof. induction a as [|c a IH]; simpl; [reflexivity | exact IH]. Qed.

Lemma substring_head (a b : string) :
  String.substring 0 (String.length a) (a +:+ b) = a.
Proof.
  induction a as [|c a IH]; simpl; [by destruct b | by rewrite IH].
Qed.

Lemma substring_all (s : string) :
  String.substring 0 (String.length s) s = s.
Proof. induction s as [|c s IH]; simpl; [reflexivity | by rewrite IH]. Qed.

Lemma substring_split (s : string) (k : nat) :
  (k <= String.length s)%nat ->
  s = String.substring 0 k s
      +:+ String.substring k (String.length s - k) s.
Proof.
  revert k. induction s as [|c s IH]; intros k Hk; simpl in Hk.
  - by replace k with 0%nat by lia.
  - destruct k as [|k]; simpl.
    + by rewrite substring_all.
    + refine (f_equal (String c) (IH k _)). lia.
Qed.

Lemma tool_file_is_listed (t : string) :
  startsWith (tool_file t) "tool_" = true /\
  endsWith (tool_file t) ".py" = true /\
  slice (tool_file t) (String.length "tool_") (String.length ".py") = t.
Proof.
  unfold startsWith, endsWith, slice, tool_file. split; [apply prefix_app|].
  rewrite !string_length_app.
  change (String.length "tool_") with 5%nat.
  change (String.length ".py") with 3%nat.
  replace (5 + (String.length t + 3) - 3)%nat
    with (String.length "tool_" + String.length t)%nat by (simpl; lia).
  rewrite substring_skip. split.
  - rewrite (proj2 (Nat.ltb_ge _ _)) by lia.
    apply bool_decide_eq_true_2.
    rewrite <- (Nat.add_0_r (String.length t)), substring_skip. reflexivity.
  - replace (5 `min` (5 + (String.length t + 3)))%nat
      with (String.length "tool_" + 0)%nat by (simpl; lia).
    rewrite substring_skip.
    replace (String.length "tool_" + String.length t
             - (String.length "tool_" + 0))%nat
      with (String.length t) by (simpl; lia).
    apply substring_head.
Qed.

Lemma listed_is_tool_file (file : string) :
  startsWith file "tool_" = true -> endsWith file ".py" = true ->
  file = tool_file (slice file (String.length "tool_") (String.length ".py")).
Proof.
  unfold startsWith. intros Hstart Hend.
  apply prefix_split in Hstart as [r ->].
  unfold endsWith in Hend. rewrite string_length_app in Hend.
  change (String.length "tool_") with 5%nat in *.
  change (String.length ".py") with 3%nat in *.
  rewrite (proj2 (Nat.ltb_ge _ _)) in Hend by lia.
  apply bool_decide_eq_true in Hend.
  destruct (decide (String.length r < 3)%nat) as [Hshort|Hlong].
  { exfalso. destruct r as [|a [|b [|c r]]]; simpl in *;
      try discriminate; lia. }
  replace (5 + String.length r - 3)%nat
    with (String.length "tool_" + (String.length r - 3))%nat in Hend
    by (simpl; lia).
  rewrite substring_skip in Hend.
  unfold slice, tool_file. rewrite string_length_app.
  change (String.length "tool_") with 5%nat.
  replace (5 `min` (5 + String.length r))%nat
    with (String.length "tool_" + 0)%nat by (simpl; lia).
  rewrite substring_skip.
  replace (5 + String.length r - 3 - (String.length "tool_" + 0))%nat
    with (String.length r - 3)%nat by (simpl; lia).
  f_equal.
  rewrite (substring_split r (String.length r - 3)) at 1 by lia.
  f_equal.
  replace (String.length r - (String.length r - 3))%nat with 3%nat by lia.
  exact Hend.
Qed.

(** X28.  The tools route lists exactly the tool modules of the
    directory: a name is returned if and only if the file tool_<name>.py
    is there, and no other file contributes; a directory that does not
    exist gives the empty list.  The status is 200 either way. *)
Theorem tools_route_lists_the_tool_modules :
  tools_handler None = mkToolsResponse 200 [] /\
  forall files,
    tools_status (tools_handler (Some files)) = 200 /\
    (forall t, t ∈ tools (tools_handler (Some files))
               <-> tool_file t ∈ files) /\
    (length (tools (tools_handler (Some files))) <= length files)%nat.
Proof.
  split; [reflexivity|]. intros files. split; [reflexivity|].
  change (tools (tools_handler (Some files)))
    with (map (fun file => slice file (String.length "tool_")
                                 (String.length ".py"))
              (filter (fun file => Is_true (startsWith file "tool_"
                                            && endsWith file ".py")) files)).
  split.
  - intros t. rewrite list_elem_of_fmap. split.
    + intros (file & -> & Hfile).
      apply list_elem_of_filter in Hfile as [Hok Hfile].
      apply Is_true_true, andb_true_iff in Hok as [Hstart Hend].
      by rewrite <- listed_is_tool_file.
    + intros Hfile. exists (tool_file t).
      destruct (tool_file_is_listed t) as (Hstart & Hend & Hslice).
      split; [by rewrite Hslice|].
      apply list_elem_of_filter. split; [|exact Hfile].
      apply Is_true_true. by rewrite Hstart, Hend.
  - rewrite length_fmap. apply length_filter.
Qed.

(** ** The schema initialisers *)
































(** The upgrade of the old file, column by column. *)
Example schema_upgrade_of_the_old_file :
  checkAndUpgradeDBSchema old_file
  = Ok [("agent_roles",
         ["id"; "agent_role"; "allowed_tools"; "agent_description";
          "default_developer_prompt"; "default_user_prompt"; "model_id";
          "reasoning_level"; "tool_choice"]);
        ("models", agent_manager_model_columns);
        ("model_providers", provider_columns)].
Proof. vm_compute. reflexivity. Qed.

(** A file that spells a column in upper case: JavaScript does not find
    "model_id" among the column names, SQLite does, and the statement that
    adds the column throws.  A table spelled in upper case is not found by
    the lookup in sqlite_master, is found by CREATE TABLE IF NOT EXISTS,
    and stays without the columns. *)
Example schema_upgrade_throws_on_an_upper_case_column :
  checkAndUpgradeDBSchema upper_case_file
  = Throw (mkError "SQLITE_ERROR: duplicate column name: model_id").
Proof. vm_compute. reflexivity. Qed.

Example schema_upgrade_skips_an_upper_case_table :
  checkAndUpgradeDBSchema (Some [("AGENT_ROLES", ["id"; "agent_role"])])
  = Ok [("AGENT_ROLES", ["id"; "agent_role"]);
        ("models", agent_manager_model_columns);
        ("model_providers", provider_columns)].
Proof. vm_compute. reflexivity. Qed.


